(** * visu2: metadata reconciliation and derived analytics

    A shallow embedding of the reconciliation engine of the visu2 package
    ([zpdes_dependencies.py], [derive.py], [objective_activity_matrix.py])
    and the properties of it that the specification states.

    Modelling conventions.
    - A Python [str] is a Rocq [string]; every character is read as the code
      point 0..255 it carries (Latin-1).  Code points above 255 are outside
      the model.
    - A Python [float] is the rational it denotes, extended with the two
      infinities and NaN ([fval]).  The float operations of the Python code
      ([float], [round], [/], [*]) round their exact result to the nearest
      binary64 value as IEEE 754 does ([binary64]); the sign of a zero is not
      kept.  The sums, means and ratios of the dataframe engine are kept
      exact: their rounding depends on the engine's order of summation.
    - A value read from JSON is a [pyobj].  A [dict] is an association list in
      insertion order.
    - An exception is a [Raise] in the [result] type.
    - A dataframe is the list of its rows; a nullable column is an [option]. *)

From Stdlib Require Import ZArith QArith Qround Qabs List String Ascii Bool.
From Stdlib Require Import Lia Lqa Arith DecimalString OrderedTypeEx Sorted.
Import ListNotations.
Open Scope string_scope.
Open Scope list_scope.
Set Warnings "-register-all".


(** ** Exceptions as results *)

Inductive pyexn : Type :=
| TypeError | ValueError | IndexError | OverflowError | EngineError.

Inductive result (A : Type) : Type :=
| Ok (a : A)
| Raise (e : pyexn).
Arguments Ok {A} a.
Arguments Raise {A} e.

Definition bind {A B : Type} (c : result A) (k : A -> result B) : result B :=
  match c with
  | Ok a => k a
  | Raise e => Raise e
  end.

Notation "x <- c ;; k" := (bind c (fun x => k))
  (at level 61, c at next level, right associativity).
Notation "' pat <- c ;; k" := (bind c (fun x => match x with pat => k end))
  (at level 61, pat pattern, c at next level, right associativity).

(** A loop whose body may raise: [for x in xs: st = body(st, x)]. *)
Fixpoint for_each {A S : Type} (body : S -> A -> result S) (xs : list A) (st : S)
  : result S :=
  match xs with
  | [] => Ok st
  | x :: rest => st' <- body st x ;; for_each body rest st'
  end.

(** ** Characters and strings *)

Module Py.

Definition code (c : ascii) : nat := nat_of_ascii c.

Definition in_range (lo hi n : nat) : bool := ((lo <=? n) && (n <=? hi))%nat.

Definition isdigit (c : ascii) : bool := in_range 48 57 (code c).

(** [str.isspace] on one character: TAB..CR, FS..US, SPACE, NEL, NBSP. *)
Definition isspace (c : ascii) : bool :=
  let n := code c in
  in_range 9 13 n || in_range 28 32 n || (n =? 133)%nat || (n =? 160)%nat.

(** [str.lower] on one character: A-Z and the Latin-1 capitals. *)
Definition lower_char (c : ascii) : ascii :=
  let n := code c in
  if in_range 65 90 n || (in_range 192 222 n && negb (n =? 215)%nat)
  then ascii_of_nat (n + 32) else c.

Fixpoint lower (s : string) : string :=
  match s with
  | EmptyString => EmptyString
  | String c r => String (lower_char c) (lower r)
  end.

Fixpoint lstrip_by (sp : ascii -> bool) (s : string) : string :=
  match s with
  | EmptyString => EmptyString
  | String c r => if sp c then lstrip_by sp r else s
  end.

Fixpoint rstrip_by (sp : ascii -> bool) (s : string) : string :=
  match s with
  | EmptyString => EmptyString
  | String c r =>
      match rstrip_by sp r with
      | EmptyString => if sp c then EmptyString else String c EmptyString
      | r' => String c r'
      end
  end.

Definition strip_by (sp : ascii -> bool) (s : string) : string :=
  rstrip_by sp (lstrip_by sp s).

(** [s.strip()] *)
Definition strip (s : string) : string := strip_by isspace s.

Definition is_empty (s : string) : bool :=
  match s with EmptyString => true | _ => false end.

Fixpoint contains_char (c : ascii) (s : string) : bool :=
  match s with
  | EmptyString => false
  | String d r => Ascii.eqb c d || contains_char c r
  end.

Fixpoint join (sep : string) (parts : list string) : string :=
  match parts with
  | [] => EmptyString
  | [p] => p
  | p :: rest => append p (append sep (join sep rest))
  end.

(** An f-string: the pieces, concatenated. *)
Definition fstring (parts : list string) : string := join EmptyString parts.

(** [str(n)] for an [int]. *)
Definition str_of_Z (z : Z) : string := NilZero.string_of_int (Z.to_int z).

Definition digit_value (c : ascii) : Z := Z.of_nat (code c - 48)%nat.

(** [int(s)] for a string of decimal digits. *)
Definition Z_of_digits (s : string) : Z :=
  (fix go (acc : Z) (s : string) : Z :=
     match s with
     | EmptyString => acc
     | String c r => go (10 * acc + digit_value c)%Z r
     end) 0%Z s.

(** The longest prefix of digits, and what follows it. *)
Fixpoint span_digits (s : string) : string * string :=
  match s with
  | EmptyString => (EmptyString, EmptyString)
  | String c r =>
      if isdigit c
      then let (ds, rest) := span_digits r in (String c ds, rest)
      else (EmptyString, s)
  end.

(** ** Numbers *)

(** A [float]: a finite value, an infinity, or NaN. *)
Inductive fval : Type :=
| Fin (q : Q)
| Inf (negative : bool)
| NaN.

(** [int(x)] on a finite value truncates toward zero. *)
Definition trunc (q : Q) : Z := Z.quot (Qnum q) (Zpos (Qden q)).

(** [int(x)] for a float [x]. *)
Definition int_of_float (x : fval) : result Z :=
  match x with
  | Fin q => Ok (trunc q)
  | Inf _ => Raise OverflowError
  | NaN => Raise ValueError
  end.

(** [round(x)] to the nearest integer, ties to the even one. *)
Definition round_half_even (q : Q) : Z :=
  let f := Qfloor q in
  let r := (q - inject_Z f)%Q in
  match Qcompare r (1 # 2) with
  | Lt => f
  | Gt => (f + 1)%Z
  | Eq => if Z.even f then f else (f + 1)%Z
  end.

(** [round(x)] for a float [x]: an [int], or the exception [int] raises. *)
Definition round_to_int (x : fval) : result Z :=
  match x with
  | Fin q => Ok (round_half_even q)
  | Inf _ => Raise OverflowError
  | NaN => Raise ValueError
  end.

(** [floor(log2(q))] for a positive rational. *)
Definition log2_floor (q : Q) : Z :=
  let e := (Z.log2 (Qnum q) - Z.log2 (Zpos (Qden q)))%Z in
  if Qle_bool (Qpower (inject_Z 2) e) q then e else (e - 1)%Z.

(** The binary64 value nearest to the rational [q], ties going to the even
    mantissa: a mantissa of 53 bits, exponents from -1022 (below which the
    values are subnormal, spaced [2^-1074] apart) to 1023, and infinity for
    a magnitude that rounds to [2^1024]. *)
Definition binary64 (q : Q) : fval :=
  if Qeq_bool q 0 then Fin 0
  else
    let magnitude := Qabs q in
    let e := Z.max (log2_floor magnitude) (-1022) in
    let ulp := Qpower (inject_Z 2) (e - 52) in
    let rounded := (inject_Z (round_half_even (magnitude / ulp)) * ulp)%Q in
    if Qle_bool (Qpower (inject_Z 2) 1024) rounded then Inf (negb (Qle_bool 0 q))
    else Fin (Qred (if Qle_bool 0 q then rounded else - rounded)).

(** [round(x, 6)]: the exact value of [x] is rounded to six decimal places,
    ties to the even digit, and the decimal is read back as a float. *)
Definition round6 (x : fval) : fval :=
  match x with
  | Fin q => binary64 (inject_Z (round_half_even (q * inject_Z 1000000)) / inject_Z 1000000)
  | other => other
  end.

(** [x == y] on floats: NaN equals nothing. *)
Definition fval_eqb (x y : fval) : bool :=
  match x, y with
  | Fin p, Fin q => Qeq_bool p q
  | Inf a, Inf b => Bool.eqb a b
  | _, _ => false
  end.

(** [math.isnan] *)
Definition isnan (x : fval) : bool :=
  match x with NaN => true | _ => false end.

(** Digits with single underscores between them, as [float] and [int]
    literals allow: the digits read, and what follows them. *)
Fixpoint span_number (s : string) : string * string :=
  match s with
  | EmptyString => (EmptyString, EmptyString)
  | String c r =>
      if isdigit c then
        match r with
        | String "_" (String d _ as r') =>
            if isdigit d
            then let (ds, rest) := span_number r' in (String c ds, rest)
            else (String c EmptyString, r)
        | _ => let (ds, rest) := span_number r in (String c ds, rest)
        end
      else (EmptyString, s)
  end.

Definition split_sign (s : string) : bool * string :=
  match s with
  | String "-" r => (true, r)
  | String "+" r => (false, r)
  | _ => (false, s)
  end.

(** The exponent part [e[+-]digits] of a literal, or nothing. *)
Definition parse_exponent (s : string) : option Z :=
  match s with
  | EmptyString => Some 0%Z
  | String c r =>
      if Ascii.eqb (lower_char c) "e" then
        let (neg, r1) := split_sign r in
        match span_number r1 with
        | (EmptyString, _) => None
        | (ds, EmptyString) =>
            Some (if neg then (- Z_of_digits ds)%Z else Z_of_digits ds)
        | (_, String _ _) => None
        end
      else None
  end.

(** [float(text)]: the decimal the literal writes, rounded to binary64;
    [None] stands for [ValueError]. *)
Definition float_of_string (text : string) : option fval :=
  let (neg, body) := split_sign (strip text) in
  let low := lower body in
  if (low =? "inf") || (low =? "infinity") then Some (Inf neg)
  else if low =? "nan" then Some NaN
  else
    let (ip, r1) := span_number body in
    let (fp, r2) :=
      match r1 with
      | String "." r => span_number r
      | _ => (EmptyString, r1)
      end in
    let dot_ok :=
      match r1 with
      | String "." (String "_" _) => false
      | _ => true
      end in
    if (is_empty ip && is_empty fp) || negb dot_ok then None
    else
      match parse_exponent r2 with
      | None => None
      | Some e =>
          let mant := inject_Z (Z_of_digits (append ip fp)) in
          let scale := (e - Z.of_nat (String.length fp))%Z in
          let magnitude := (mant * Qpower (inject_Z 10) scale)%Q in
          Some (binary64 (if neg then - magnitude else magnitude)%Q)
      end.

(** ** Objects *)

(** A value as [json.load] gives it.  A float carries the text [repr] prints
    for it: the shortest-round-trip printer is not modelled. *)
Inductive pyobj : Type :=
| PyNone
| PyBool (b : bool)
| PyInt (z : Z)
| PyFloat (x : fval) (repr : string)
| PyStr (s : string)
| PyList (items : list pyobj)
| PyDict (entries : list (string * pyobj)).

Definition isinstance_dict (v : pyobj) : bool :=
  match v with PyDict _ => true | _ => false end.

Definition isinstance_list (v : pyobj) : bool :=
  match v with PyList _ => true | _ => false end.

Definition isinstance_str (v : pyobj) : bool :=
  match v with PyStr _ => true | _ => false end.

(** [bool(v)] *)
Definition truthy (v : pyobj) : bool :=
  match v with
  | PyNone => false
  | PyBool b => b
  | PyInt z => negb (z =? 0)%Z
  | PyFloat (Fin q) _ => negb (Qeq_bool q 0)
  | PyFloat _ _ => true
  | PyStr s => negb (is_empty s)
  | PyList l => match l with [] => false | _ => true end
  | PyDict d => match d with [] => false | _ => true end
  end.

(** [a or b] *)
Definition or_else (a b : pyobj) : pyobj := if truthy a then a else b.

Definition quote1 : ascii := "039"%char.
Definition quote2 : ascii := "034"%char.
Definition backslash : ascii := "092"%char.

Definition hex_digit (n : nat) : ascii :=
  nth n ["0"; "1"; "2"; "3"; "4"; "5"; "6"; "7"; "8"; "9";
         "a"; "b"; "c"; "d"; "e"; "f"]%char "0"%char.

(** One character inside [repr(s)], quoted with [q]. *)
Definition repr_char (q c : ascii) : string :=
  let n := code c in
  if Ascii.eqb c q || Ascii.eqb c backslash then String backslash (String c EmptyString)
  else if (n =? 9)%nat then String backslash "t"
  else if (n =? 10)%nat then String backslash "n"
  else if (n =? 13)%nat then String backslash "r"
  else if (n <? 32)%nat || in_range 127 160 n || (n =? 173)%nat
  then String backslash (String "x" (String (hex_digit (n / 16)) (String (hex_digit (n mod 16)) EmptyString)))
  else String c EmptyString.

Fixpoint flat_map_string (f : ascii -> string) (s : string) : string :=
  match s with
  | EmptyString => EmptyString
  | String c r => append (f c) (flat_map_string f r)
  end.

(** [repr(s)] for a [str]. *)
Definition repr_str (s : string) : string :=
  let q := if contains_char quote1 s && negb (contains_char quote2 s)
           then quote2 else quote1 in
  String q (append (flat_map_string (repr_char q) s) (String q EmptyString)).

(** [repr(v)] *)
Fixpoint repr (v : pyobj) : string :=
  match v with
  | PyNone => "None"
  | PyBool true => "True"
  | PyBool false => "False"
  | PyInt z => str_of_Z z
  | PyFloat _ r => r
  | PyStr s => repr_str s
  | PyList l => append "[" (append (join ", " (map repr l)) "]")
  | PyDict d =>
      append "{"
        (append (join ", " (map (fun kv : string * pyobj => let (k, x) := kv in
                                  append (repr_str k) (append ": " (repr x))) d))
                "}")
  end.

(** [str(v)] *)
Definition str (v : pyobj) : string :=
  match v with
  | PyStr s => s
  | other => repr other
  end.

(** ** Dictionaries in insertion order *)

Fixpoint dict_get {V : Type} (d : list (string * V)) (k : string) : option V :=
  match d with
  | [] => None
  | (k', v) :: rest => if k' =? k then Some v else dict_get rest k
  end.

(** [d[k] = v]: an existing key keeps its place. *)
Fixpoint dict_set {V : Type} (d : list (string * V)) (k : string) (v : V)
  : list (string * V) :=
  match d with
  | [] => [(k, v)]
  | (k', v') :: rest =>
      if k' =? k then (k, v) :: rest else (k', v') :: dict_set rest k v
  end.

Definition dict_mem {V : Type} (d : list (string * V)) (k : string) : bool :=
  match dict_get d k with Some _ => true | None => false end.

Definition keys {V : Type} (d : list (string * V)) : list string := map fst d.
Definition values {V : Type} (d : list (string * V)) : list V := map snd d.

(** [d.get(k)] on a JSON object: [None] when the key is missing. *)
Definition get (d : list (string * pyobj)) (k : string) : pyobj :=
  match dict_get d k with Some v => v | None => PyNone end.

(** [v.get(k)] for a value already known to be a [dict]. *)
Definition get_of (v : pyobj) (k : string) : pyobj :=
  match v with PyDict d => get d k | _ => PyNone end.

Fixpoint chars (s : string) : list string :=
  match s with
  | EmptyString => []
  | String c r => String c EmptyString :: chars r
  end.

(** [iter(v)]: what a [for] loop over [v] visits. *)
Definition iter (v : pyobj) : result (list pyobj) :=
  match v with
  | PyList l => Ok l
  | PyDict d => Ok (map PyStr (keys d))
  | PyStr s => Ok (map PyStr (chars s))
  | _ => Raise TypeError
  end.

(** [x in l] on strings. *)
Definition mem (x : string) (l : list string) : bool :=
  existsb (String.eqb x) l.

(** [list(set(l))] up to order: each element once. *)
Definition distinct (l : list string) : list string := nodup string_dec l.

(** [float(n)] for an [int]: the nearest binary64 value; a magnitude that
    rounds to infinity raises. *)
Definition float_of_int (z : Z) : result fval :=
  match binary64 (inject_Z z) with
  | Fin q => Ok (Fin q)
  | _ => Raise OverflowError
  end.

(** ** Sorting *)

Section Sorting.
Context {A K : Type} (key : A -> K) (lt : K -> K -> bool).

(** [x] goes after every element that is not greater: the sort is stable. *)
Fixpoint insert_sorted (x : A) (l : list A) : list A :=
    match l with
    | [] => [x]
    | y :: rest =>
        if lt (key x) (key y) then x :: y :: rest
        else y :: insert_sorted x rest
    end.

(** [sorted(l, key=key)] *)
Definition sorted (l : list A) : list A :=
    fold_left (fun acc x => insert_sorted x acc) l [].
End Sorting.

(** [(a1, b1, c1) < (a2, b2, c2)] for keys of type [(int, int, str)]. *)
Definition key3_ltb (k1 k2 : Z * Z * string) : bool :=
  let '(a1, b1, c1) := k1 in
  let '(a2, b2, c2) := k2 in
  if (a1 <? a2)%Z then true
  else if (a2 <? a1)%Z then false
  else if (b1 <? b2)%Z then true
  else if (b2 <? b1)%Z then false
  else String.ltb c1 c2.

(** [(a1, b1) < (a2, b2)] for keys of type [(str, str)]. *)
Definition key2_ltb (k1 k2 : string * string) : bool :=
  let '(a1, b1) := k1 in
  let '(a2, b2) := k2 in
  if String.ltb a1 a2 then true
  else if String.ltb a2 a1 then false
  else String.ltb b1 b2.

End Py.

(** ** Regular expressions for curriculum codes *)

Module Re.

(** [$] of Python's [re]: the end of the text, or just before a final
    line feed. *)
Definition at_end (s : string) : bool :=
  match s with
  | EmptyString => true
  | String c EmptyString => (Py.code c =? 10)%nat
  | _ => false
  end.

(** A letter followed by [\d+]: the digits and what follows them. *)
Definition letter_digits (l : ascii) (s : string) : option (string * string) :=
  match s with
  | String c r =>
      if Ascii.eqb c l then
        match Py.span_digits r with
        | (EmptyString, _) => None
        | (ds, rest) => Some (ds, rest)
        end
      else None
  | EmptyString => None
  end.

(** [M\d+] at the start of the text: the matched text and the rest. *)
Definition module_prefix (s : string) : option (string * string) :=
  match letter_digits "M" s with
  | Some (m, rest) => Some (String "M" m, rest)
  | None => None
  end.

(** [M\d+O\d+] at the start of the text. *)
Definition objective_prefix (s : string) : option (string * string) :=
  match module_prefix s with
  | Some (m, r1) =>
      match letter_digits "O" r1 with
      | Some (o, rest) => Some (append m (String "O" o), rest)
      | None => None
      end
  | None => None
  end.

(** [M\d+O\d+A\d+] at the start of the text: the objective part, the
    activity digits and the rest. *)
Definition activity_prefix (s : string) : option (string * string * string) :=
  match objective_prefix s with
  | Some (o, r1) =>
      match letter_digits "A" r1 with
      | Some (a, rest) => Some (o, a, rest)
      | None => None
      end
  | None => None
  end.

(** [re.compile(r"^M\d+$").match(s)] *)
Definition match_module (s : string) : bool :=
  match module_prefix s with
  | Some (_, rest) => at_end rest
  | None => false
  end.

(** [re.compile(r"^(M\d+O\d+)$").match(s)]: group 1. *)
Definition match_objective (s : string) : option string :=
  match objective_prefix s with
  | Some (o, rest) => if at_end rest then Some o else None
  | None => None
  end.

(** [re.compile(r"^(M\d+O\d+)A(\d+)$").match(s)]: groups 1 and 2. *)
Definition match_activity (s : string) : option (string * string) :=
  match activity_prefix s with
  | Some (o, a, rest) => if at_end rest then Some (o, a) else None
  | None => None
  end.

Definition is_some {A : Type} (o : option A) : bool :=
  match o with Some _ => true | None => false end.

End Re.

(** ** Dataframe operations

    A frame is the list of its rows, in row order.  Where the engine leaves
    the order of its output open ([group_by], [unique], ties of [sort]), the
    model takes first-appearance order. *)

Module Pl.

Definition opt_eqb {A : Type} (eqb : A -> A -> bool) (a b : option A) : bool :=
  match a, b with
  | None, None => true
  | Some x, Some y => eqb x y
  | _, _ => false
  end.

Definition str_eqb : option string -> option string -> bool := opt_eqb String.eqb.

Definition is_null {A : Type} (a : option A) : bool :=
  match a with None => true | Some _ => false end.

Definition is_not_null {A : Type} (a : option A) : bool := negb (is_null a).

(** [pl.coalesce]: the first value that is not null. *)
Fixpoint coalesce {A : Type} (l : list (option A)) : option A :=
  match l with
  | [] => None
  | Some x :: _ => Some x
  | None :: rest => coalesce rest
  end.

(** [drop_nulls] *)
Fixpoint drop_nulls {A : Type} (l : list (option A)) : list A :=
  match l with
  | [] => []
  | Some x :: rest => x :: drop_nulls rest
  | None :: rest => drop_nulls rest
  end.

(** The first occurrence of every element. *)
Definition distinct_by {A : Type} (eqb : A -> A -> bool) (l : list A) : list A :=
  fold_left (fun seen x => if existsb (eqb x) seen then seen else seen ++ [x]) l [].

(** [n_unique] *)
Definition n_unique {A : Type} (eqb : A -> A -> bool) (l : list A) : nat :=
  List.length (distinct_by eqb l).

(** [unique(subset=key, keep="first")] *)
Definition unique_by {A K : Type} (eqb : K -> K -> bool) (key : A -> K) (rows : list A)
  : list A :=
  distinct_by (fun a b => eqb (key a) (key b)) rows.

(** [group_by(key)]: every key with its rows, in row order. *)
Definition group_by {A K : Type} (eqb : K -> K -> bool) (key : A -> K) (rows : list A)
  : list (K * list A) :=
  map (fun k => (k, filter (fun r => eqb k (key r)) rows))
      (distinct_by eqb (map key rows)).

(** [left.join(right, on=key, how="left")]: a null key matches nothing; a
    row with several matches is repeated. *)
Definition left_join {L R : Type} (key_l : L -> option string) (key_r : R -> option string)
           (left : list L) (right : list R) : list (L * option R) :=
  flat_map
    (fun l =>
       match key_l l with
       | None => [(l, None)]
       | Some k =>
           match filter (fun r => str_eqb (key_r r) (Some k)) right with
           | [] => [(l, None)]
           | matches => map (fun r => (l, Some r)) matches
           end
       end)
    left.

(** A column of the right-hand side of a left join. *)
Definition col {R A : Type} (f : R -> option A) (r : option R) : option A :=
  match r with Some x => f x | None => None end.

Definition qsum (l : list Q) : Q := fold_right Qplus 0%Q l.

(** [sum]: nulls are skipped, and an empty sum is zero. *)
Definition sum (l : list (option Q)) : Q := qsum (drop_nulls l).

(** [mean]: nulls are skipped, and the mean of nothing is null. *)
Definition mean (l : list (option Q)) : option Q :=
  match drop_nulls l with
  | [] => None
  | xs => Some (qsum xs / inject_Z (Z.of_nat (List.length xs)))%Q
  end.

(** [a * b] on nullable values. *)
Definition mul (a b : option Q) : option Q :=
  match a, b with
  | Some x, Some y => Some (x * y)%Q
  | _, _ => None
  end.

Definition qltb (a b : Q) : bool := negb (Qle_bool b a).

(** [median]: nulls are skipped; the middle value, or the mean of the two
    middle values. *)
Definition median (l : list (option Q)) : option Q :=
  let xs := Py.sorted (fun x : Q => x) qltb (drop_nulls l) in
  let n := List.length xs in
  match xs with
  | [] => None
  | _ =>
      if Nat.even n
      then Some ((nth (n / 2 - 1) xs 0 + nth (n / 2) xs 0) / 2)%Q
      else Some (nth (n / 2) xs 0%Q)
  end.

(** [cast(pl.Float64)] of a boolean column *)
Definition float_of_bool (b : option bool) : option Q :=
  match b with
  | Some true => Some 1%Q
  | Some false => Some 0%Q
  | None => None
  end.

Definition float_of_Z (z : option Z) : option Q :=
  match z with Some n => Some (inject_Z n) | None => None end.

(** Whitespace as [str.strip_chars()] sees it: TAB..CR, SPACE, NEL, NBSP. *)
Definition is_whitespace (c : ascii) : bool :=
  let n := Py.code c in
  Py.in_range 9 13 n || (n =? 32)%nat || (n =? 133)%nat || (n =? 160)%nat.

(** [str.strip_chars()] *)
Definition strip_chars (s : string) : string := Py.strip_by is_whitespace s.

(** [str.extract(pattern, 1)] for the three prefix patterns of derive.py. *)
Definition extract_module (s : option string) : option string :=
  match s with
  | Some text => match Re.module_prefix text with Some (m, _) => Some m | None => None end
  | None => None
  end.

Definition extract_objective (s : option string) : option string :=
  match s with
  | Some text => match Re.objective_prefix text with Some (o, _) => Some o | None => None end
  | None => None
  end.

Definition extract_activity (s : option string) : option string :=
  match s with
  | Some text =>
      match Re.activity_prefix text with
      | Some (o, a, _) => Some (append o (String "A" a))
      | None => None
      end
  | None => None
  end.

(** [str.contains(pattern)] with a pattern anchored at both ends: [$] is
    the end of the text only. *)
Definition full_module (s : string) : bool :=
  match Re.module_prefix s with Some (_, rest) => Py.is_empty rest | None => false end.

Definition full_objective (s : string) : bool :=
  match Re.objective_prefix s with Some (_, rest) => Py.is_empty rest | None => false end.

Definition full_activity (s : string) : bool :=
  match Re.activity_prefix s with Some (_, _, rest) => Py.is_empty rest | None => false end.

End Pl.

(** * loaders.py *)

Module Loaders.
Import Py.

(** A value stored in a [Utf8] column of a frame built from Python rows.
    Strings and nulls are stored as they are; what the dataframe engine does
    with any other value depends on its schema inference and is not
    modelled: such a payload is refused with [EngineError]. *)
Definition utf8 (v : pyobj) : result (option string) :=
  match v with
  | PyStr s => Ok (Some s)
  | PyNone => Ok None
  | _ => Raise EngineError
  end.

Definition of_utf8 (v : option string) : pyobj :=
  match v with Some s => PyStr s | None => PyNone end.

(** A row of [CatalogIndexFrames.index] (the [sources] column, which no
    caller modelled here reads, is left out). *)
Record index_row : Type := {
  id : string;
  type : option string;
  code : option string;
  short_title : option string;
  long_title : option string
}.

(** [catalog_id_index_frames(catalog).index.to_dicts()] *)
Definition catalog_id_index_frames (catalog : list (string * pyobj))
  : result (list index_row) :=
  match get catalog "id_label_index" with
  | PyDict raw_index =>
      for_each
        (fun rows (item : string * pyobj) =>
           let (identifier, value) := item in
           if is_empty (strip identifier) then Ok rows
           else
             match value with
             | PyDict v =>
                 ty <- utf8 (get v "type") ;;
                 cd <- utf8 (get v "code") ;;
                 st <- utf8 (get v "short_title") ;;
                 lt <- utf8 (get v "long_title") ;;
                 Ok (rows ++ [ {| id := identifier; type := ty; code := cd;
                                  short_title := st; long_title := lt |} ])
             | _ => Ok rows
             end)
        raw_index []
  | _ => Raise ValueError
  end.

(** [zpdes_code_maps(zpdes_rules)]: the pair [(code_to_id, id_to_codes)]. *)
Definition zpdes_code_maps (zpdes_rules : list (string * pyobj))
  : result (list (string * pyobj) * list (string * pyobj)) :=
  match get zpdes_rules "map_id_code" with
  | PyDict raw =>
      match get raw "code_to_id", get raw "id_to_codes" with
      | PyDict code_to_id, PyDict id_to_codes => Ok (code_to_id, id_to_codes)
      | _, _ => Raise ValueError
      end
  | _ => Raise ValueError
  end.

(** [isinstance(v, str) and v.strip()]: the string itself, when it holds. *)
Definition nonblank_str (v : pyobj) : option string :=
  match v with
  | PyStr s => if is_empty (strip s) then None else Some s
  | _ => None
  end.

Definition _title_short_long (title_obj : pyobj) : option string * option string :=
  match title_obj with
  | PyDict t =>
      (match nonblank_str (get t "short") with Some s => Some (strip s) | None => None end,
       match nonblank_str (get t "long") with Some s => Some (strip s) | None => None end)
  | _ => (None, None)
  end.

(** The rows [catalog_to_summary_frames] collects: the identifier, the raw
    code, the short title and the child identifiers. *)
Record summary_row : Type := {
  sr_id : string;
  sr_code : pyobj;
  sr_short : option string;
  sr_children : list string
}.

Record summary_rows : Type := {
  modules_rows : list summary_row;
  objectives_rows : list summary_row;
  activities_rows : list summary_row
}.

Definition list_or_empty (v : pyobj) : list pyobj :=
  match v with PyList l => l | _ => [] end.

(** The loop over the activities of one objective. *)
Definition collect_activity (st : list string * list summary_row) (activity : pyobj)
  : result (list string * list summary_row) :=
  let (activity_ids, rows) := st in
  match activity with
  | PyDict a =>
      match nonblank_str (get a "id") with
      | Some activity_id =>
          exercises <- iter (or_else (get a "exercise_ids") (PyList [])) ;;
          Ok (activity_ids ++ [activity_id],
              rows ++ [ {| sr_id := activity_id; sr_code := get a "code";
                           sr_short := fst (_title_short_long (get a "title"));
                           sr_children :=
                             flat_map (fun e => match nonblank_str e with
                                                | Some s => [s] | None => [] end)
                                      exercises |} ])
      | None => Ok st
      end
  | _ => Ok st
  end.

(** The loop over the objectives of one module. *)
Definition collect_objective (st : list string * summary_rows) (objective : pyobj)
  : result (list string * summary_rows) :=
  let (objective_ids, rows) := st in
  match objective with
  | PyDict o =>
      match nonblank_str (get o "id") with
      | Some objective_id =>
          acts <- for_each collect_activity (list_or_empty (get o "activities"))
                           ([], activities_rows rows) ;;
          let (activity_ids, activities1) := acts in
          Ok (objective_ids ++ [objective_id],
              {| modules_rows := modules_rows rows;
                 objectives_rows :=
                   objectives_rows rows ++
                   [ {| sr_id := objective_id; sr_code := get o "code";
                        sr_short := fst (_title_short_long (get o "title"));
                        sr_children := activity_ids |} ];
                 activities_rows := activities1 |})
      | None => Ok st
      end
  | _ => Ok st
  end.

(** The loop over the modules of the catalog. *)
Definition collect_module (rows : summary_rows) (module : pyobj) : result summary_rows :=
  match module with
  | PyDict m =>
      match nonblank_str (get m "id") with
      | Some module_id =>
          objs <- for_each collect_objective (list_or_empty (get m "objectives"))
                           ([], rows) ;;
          let (objective_ids, rows1) := objs in
          Ok {| modules_rows :=
                  modules_rows rows1 ++
                  [ {| sr_id := module_id; sr_code := get m "code";
                       sr_short := fst (_title_short_long (get m "title"));
                       sr_children := objective_ids |} ];
                objectives_rows := objectives_rows rows1;
                activities_rows := activities_rows rows1 |}
      | None => Ok rows
      end
  | _ => Ok rows
  end.

(** A row of [SummaryFrames.activity_hierarchy]. *)
Record hierarchy_row : Type := {
  h_objective_id : string;
  h_activity_id : option string;
  h_module_id : option string;
  h_module_code : option string;
  h_module_label : option string;
  h_activity_code : option string;
  h_activity_label : option string;
  h_objective_code : option string;
  h_objective_label : option string
}.

Definition hierarchy_row_eqb (a b : hierarchy_row) : bool :=
  (h_objective_id a =? h_objective_id b)
  && Pl.str_eqb (h_activity_id a) (h_activity_id b)
  && Pl.str_eqb (h_module_id a) (h_module_id b)
  && Pl.str_eqb (h_module_code a) (h_module_code b)
  && Pl.str_eqb (h_module_label a) (h_module_label b)
  && Pl.str_eqb (h_activity_code a) (h_activity_code b)
  && Pl.str_eqb (h_activity_label a) (h_activity_label b)
  && Pl.str_eqb (h_objective_code a) (h_objective_code b)
  && Pl.str_eqb (h_objective_label a) (h_objective_label b).

(** A frame row with its code column stored as [Utf8]. *)
Record typed_row : Type := {
  tr_id : string;
  tr_code : option string;
  tr_short : option string;
  tr_children : list string
}.

Definition typed (r : summary_row) : result typed_row :=
  c <- utf8 (sr_code r) ;;
  Ok {| tr_id := sr_id r; tr_code := c; tr_short := sr_short r;
        tr_children := sr_children r |}.

Definition typed_rows (rows : list summary_row) : result (list typed_row) :=
  for_each (fun acc r => t <- typed r ;; Ok (acc ++ [t])) rows [].

(** [explode]: one row per element, and one row holding null for an empty
    list. *)
Definition explode (r : typed_row) : list (typed_row * option string) :=
  match tr_children r with
  | [] => [(r, None)]
  | children => map (fun c => (r, Some c)) children
  end.

(** [_summary_like_to_frames(summary).activity_hierarchy].  A frame built
    from no rows has no columns, and selecting from it raises. *)
Definition activity_hierarchy_of (rows : summary_rows) : result (list hierarchy_row) :=
  match modules_rows rows, objectives_rows rows, activities_rows rows with
  | _ :: _, _ :: _, _ :: _ =>
      modules <- typed_rows (modules_rows rows) ;;
      objectives <- typed_rows (objectives_rows rows) ;;
      activities <- typed_rows (activities_rows rows) ;;
      let module_objectives := flat_map explode modules in
      let objective_activities := flat_map explode objectives in
      let j1 := Pl.left_join (fun oa : typed_row * option string => Some (tr_id (fst oa)))
                             (fun mo : typed_row * option string => snd mo)
                             objective_activities module_objectives in
      let j2 := Pl.left_join (fun x : (typed_row * option string) * option (typed_row * option string) =>
                                snd (fst x))
                             (fun a : typed_row => Some (tr_id a))
                             j1 activities in
      let j3 := Pl.left_join (fun x => Some (tr_id (fst (fst (fst x)))))
                             (fun o : typed_row => Some (tr_id o))
                             j2 objectives in
      Ok (Pl.distinct_by hierarchy_row_eqb
            (map (fun x =>
                    let '(((oa, mo), a), o) := x in
                    {| h_objective_id := tr_id (fst oa);
                       h_activity_id := snd oa;
                       h_module_id := Pl.col (fun m : typed_row * option string => Some (tr_id (fst m))) mo;
                       h_module_code := Pl.col (fun m : typed_row * option string => tr_code (fst m)) mo;
                       h_module_label := Pl.col (fun m : typed_row * option string => tr_short (fst m)) mo;
                       h_activity_code := Pl.col tr_code a;
                       h_activity_label := Pl.col tr_short a;
                       h_objective_code := Pl.col tr_code o;
                       h_objective_label := Pl.col tr_short o |})
                 j3))
  | _, _, _ => Raise EngineError
  end.

(** [catalog_to_summary_frames(catalog).activity_hierarchy] *)
Definition catalog_to_summary_frames (catalog : list (string * pyobj))
  : result (list hierarchy_row) :=
  match get catalog "modules" with
  | PyList modules =>
      rows <- for_each collect_module modules
                       {| modules_rows := []; objectives_rows := []; activities_rows := [] |} ;;
      activity_hierarchy_of rows
  | _ => Raise ValueError
  end.

End Loaders.

(** * zpdes_dependencies.py *)

Module ZpdesDependencies.
Import Py.

Definition _clean_str (value : pyobj) : string :=
  match value with
  | PyNone => ""
  | _ =>
      let text := strip (str value) in
      if is_empty text || (lower text =? "nan") then "" else text
  end.

Definition _to_float (value : pyobj) : option fval :=
  let text := _clean_str value in
  if is_empty text then None
  else
    match float_of_string text with
    | None => None
    | Some out => if isnan out then None else Some out
    end.

Fixpoint _first_numeric (value : pyobj) : result (option fval) :=
  match value with
  | PyList items =>
      (fix first (items : list pyobj) : result (option fval) :=
         match items with
         | [] => Ok None
         | item :: rest =>
             out <- _first_numeric item ;;
             match out with
             | Some x => Ok (Some x)
             | None => first rest
             end
         end) items
  | PyBool b => Ok (Some (Fin (if b then 1 else 0)))
  | PyInt z => x <- float_of_int z ;; Ok (Some x)
  | PyFloat x _ => Ok (Some x)
  | other => Ok (_to_float other)
  end.

Definition _first_int (value : pyobj) : result (option Z) :=
  numeric <- _first_numeric value ;;
  match numeric with
  | None => Ok None
  | Some x => z <- round_to_int x ;; Ok (Some z)
  end.

Definition parse_activity_index (node_code : string) : option Z :=
  match Re.match_activity (_clean_str (PyStr node_code)) with
  | None => None
  | Some (_, digits) => Some (Z_of_digits digits)
  end.

Definition parse_objective_code (node_code : string) (node_type : option string)
  : option string :=
  let code := _clean_str (PyStr node_code) in
  if is_empty code then None
  else if match node_type with Some t => t =? "objective" | None => false end
          && Re.is_some (Re.match_objective code)
  then Some code
  else
    match Re.match_activity code with
    | Some (objective, _) => Some objective
    | None =>
        match Re.match_objective code with
        | Some objective => Some objective
        | None => None
        end
    end.

Definition _label_from_catalog_entry (entry : pyobj) (fallback : string) : string :=
  match entry with
  | PyDict e =>
      match get e "title" with
      | PyDict title =>
          let short := _clean_str (get title "short") in
          let long := _clean_str (get title "long") in
          if negb (is_empty short) then short
          else if negb (is_empty long) then long
          else fallback
      | _ => fallback
      end
  | _ => fallback
  end.

Definition _node_type_from_code_strict (code : string) : string :=
  let normalized := _clean_str (PyStr code) in
  if Re.is_some (Re.match_activity normalized) then "activity"
  else if Re.is_some (Re.match_objective normalized) then "objective"
  else if Re.match_module normalized then "module"
  else "unknown".

Fixpoint _is_init_open_from_rule (rule_payload : pyobj) : result bool :=
  match rule_payload with
  | PyList items =>
      (fix any (items : list pyobj) : result bool :=
         match items with
         | [] => Ok false
         | item :: rest =>
             b <- _is_init_open_from_rule item ;;
             if b then Ok true else any rest
         end) items
  | PyDict entries =>
      (fix any (entries : list (string * pyobj)) : result bool :=
         match entries with
         | [] => Ok false
         | (_, value) :: rest =>
             b <- _is_init_open_from_rule value ;;
             if b then Ok true else any rest
         end) entries
  | PyBool b => Ok (negb b)
  | PyInt z => Ok (z =? 0)%Z
  | PyFloat x _ => n <- int_of_float x ;; Ok (n =? 0)%Z
  | other => Ok (_clean_str other =? "0")
  end.

(** The sort key of [_preferred_code_from_list]. *)
Definition preference_key (code : string) : Z * Z * string :=
  ((if Re.is_some (Re.match_activity code) then 0
    else if Re.is_some (Re.match_objective code) then 1
    else if Re.match_module code then 2
    else 3)%Z,
   (- Z.of_nat (String.length code))%Z,
   code).

Definition cleaned_codes (codes : list string) : list string :=
  filter (fun c => negb (is_empty c)) (map (fun code => _clean_str (PyStr code)) codes).

Definition _preferred_code_from_list (codes : list string) : option string :=
  let cleaned := cleaned_codes codes in
  match cleaned with
  | [] => None
  | _ => hd_error (sorted preference_key key3_ltb cleaned)
  end.

(** ** Nodes and edges *)

Module Node.
Record t : Type := mk {
  module_code : string;
  node_id : pyobj;
  node_code : string;
  node_type : string;
  label : string;
  objective_code : option string;
  activity_index : option Z;
  init_open : bool;
  source_primary : string;
  source_enrichment : string;
  is_ghost : bool
}.

(** [node["init_open"] = True] *)
Definition open (n : t) : t :=
  mk (module_code n) (node_id n) (node_code n) (node_type n) (label n)
     (objective_code n) (activity_index n) true
     (source_primary n) (source_enrichment n) (is_ghost n).
End Node.

Module Edge.
Record t : Type := mk {
  module_code : string;
  edge_id : string;
  edge_type : string;
  from_node_code : string;
  to_node_code : string;
  threshold_type : string;
  threshold_value : option fval;
  rule_text : string;
  source_primary : string;
  source_enrichment : string;
  enrich_lvl : option Z;
  enrich_sr : option fval
}.
End Edge.

Definition node_map_t : Type := list (string * Node.t).

(** The key edges are deduplicated by. *)
Definition dedup_key : Type := string * string * string * option fval.

Definition dedup_eqb (a b : dedup_key) : bool :=
  let '(t1, s1, d1, th1) := a in
  let '(t2, s2, d2, th2) := b in
  (t1 =? t2) && (s1 =? s2) && (d1 =? d2)
  && match th1, th2 with
     | None, None => true
     | Some x, Some y => fval_eqb x y
     | _, _ => false
     end.

Record edge_state : Type := {
  edges : list Edge.t;
  edge_seen : list dedup_key
}.

Definition is_objective_or_activity (ty : string) : bool :=
  (ty =? "objective") || (ty =? "activity").

(** [x or y] on strings. *)
Definition str_or (x y : string) : string := if is_empty x then y else x.

(** [x or None] for a string. *)
Definition str_or_none (x : string) : pyobj :=
  if is_empty x then PyNone else PyStr x.

Section Derivation.
Variable module_code_norm : string.
Variable code_to_id_global : list (string * pyobj).
Variable id_to_codes_local : list (string * list string).
Variable id_to_label : list (string * string).

(** Lines 287-306: one activity of a catalog objective. *)
Definition seed_activity (objective_code : string) (node_map : node_map_t)
             (activity : pyobj) : node_map_t :=
    match activity with
    | PyDict a =>
        let activity_code := _clean_str (get a "code") in
        let activity_id :=
          or_else (PyStr (_clean_str (get a "id")))
                  (get code_to_id_global activity_code) in
        if is_empty activity_code then node_map
        else
          dict_set node_map activity_code
            (Node.mk module_code_norm (or_else activity_id PyNone) activity_code
                     "activity" (_label_from_catalog_entry activity activity_code)
                     (Some objective_code) (parse_activity_index activity_code)
                     false "catalog" "rules" false)
    | _ => node_map
    end.

(** Lines 267-306: one objective of the selected catalog module. *)
Definition seed_objective (node_map : node_map_t) (objective : pyobj)
    : result node_map_t :=
    match objective with
    | PyDict o =>
        let objective_code := _clean_str (get o "code") in
        let objective_id :=
          or_else (PyStr (_clean_str (get o "id")))
                  (get code_to_id_global objective_code) in
        if is_empty objective_code then Ok node_map
        else
          let node_map1 :=
            dict_set node_map objective_code
              (Node.mk module_code_norm (or_else objective_id PyNone) objective_code
                       "objective" (_label_from_catalog_entry objective objective_code)
                       (Some objective_code) None
                       false "catalog" "rules" false) in
          activities <- iter (or_else (get o "activities") (PyList [])) ;;
          Ok (fold_left (seed_activity objective_code) activities node_map1)
    | _ => Ok node_map
    end.

(** Lines 311-336: one entry of [node_rules]. *)
Definition overlay_rule_node
             (st : list (string * list (string * pyobj)) * node_map_t) (node : pyobj)
    : list (string * list (string * pyobj)) * node_map_t :=
    let (rule_by_code, node_map) := st in
    match node with
    | PyDict nd =>
        let code0 := _clean_str (get nd "code") in
        let node_id := _clean_str (get nd "id") in
        let code :=
          if is_empty code0 && negb (is_empty node_id)
          then match _preferred_code_from_list
                       (match dict_get id_to_codes_local node_id with
                        | Some l => l | None => [] end) with
               | Some c => str_or c ""
               | None => ""
               end
          else code0 in
        if is_empty code then st
        else
          let rule_by_code1 := dict_set rule_by_code code nd in
          if negb (dict_mem node_map code)
             && is_objective_or_activity (_node_type_from_code_strict code)
          then
            let label :=
              match dict_get id_to_label node_id with
              | Some l => str_or l code
              | None => code
              end in
            let node_type :=
              str_or (_clean_str (get nd "type")) (_node_type_from_code_strict code) in
            (rule_by_code1,
             dict_set node_map code
               (Node.mk module_code_norm (str_or_none node_id) code
                        (if is_objective_or_activity node_type then node_type
                         else _node_type_from_code_strict code)
                        label
                        (parse_objective_code code (Some node_type))
                        (parse_activity_index code)
                        false "rules" "rules" false))
          else (rule_by_code1, node_map)
    | _ => st
    end.

Definition _resolve_code_from_id (identifier : pyobj) : string :=
    let ident := _clean_str identifier in
    if is_empty ident then ""
    else
      match _preferred_code_from_list
              (match dict_get id_to_codes_local ident with
               | Some l => l | None => [] end) with
      | Some preferred => str_or preferred ""
      | None => ""
      end.

Definition _add_edge (st : edge_state) (edge_type from_code to_code : string)
             (threshold : option fval) (rule_text : string)
             (enrich_lvl : option Z) (enrich_sr : option fval) : edge_state :=
    let src := _clean_str (PyStr from_code) in
    let dst := _clean_str (PyStr to_code) in
    if is_empty src || is_empty dst then st
    else
      let threshold_norm :=
        match threshold with None => None | Some x => Some (round6 x) end in
      let dedup := (edge_type, src, dst, threshold_norm) in
      if existsb (dedup_eqb dedup) (edge_seen st) then st
      else
        {| edge_seen := dedup :: edge_seen st;
           edges :=
             edges st ++
             [ Edge.mk module_code_norm
                 (fstring [module_code_norm; ":"; edge_type; ":"; src; "->"; dst; ":";
                           str_of_Z (Z.of_nat (List.length (edges st)) + 1)%Z])
                 edge_type src dst
                 (match threshold_norm with Some _ => "success_rate" | None => "unknown" end)
                 threshold_norm rule_text "rules" "rules" enrich_lvl enrich_sr ] |}.

(** Lines 391-411: the activation edges stated by the rule of [code]. *)
Definition requirement_edges (code : string) (rules : list (string * pyobj))
             (st : edge_state) : result edge_state :=
    match get rules "requirements" with
    | PyList (PyDict req_map :: _) =>
        for_each
          (fun st1 (item : string * pyobj) =>
             let (target_id, source_map) := item in
             let target_code := str_or (_resolve_code_from_id (PyStr target_id)) code in
             match source_map with
             | PyDict sources =>
                 for_each
                   (fun st2 (entry : string * pyobj) =>
                      let (source_id, condition) := entry in
                      let source_code := _resolve_code_from_id (PyStr source_id) in
                      let condition_dict :=
                        match condition with PyDict c => c | _ => [] end in
                      sr <- (if truthy (PyDict condition_dict)
                             then _first_numeric (get condition_dict "sr")
                             else Ok None) ;;
                      lvl <- (if truthy (PyDict condition_dict)
                              then _first_int (get condition_dict "lvl")
                              else Ok None) ;;
                      Ok (_add_edge st2 "activation" source_code target_code sr
                                    "requirements" lvl sr))
                   sources st1
             | _ => Ok st1
             end)
          req_map st
    | _ => Ok st
    end.

(** Lines 413-436: the deactivation edges stated by the rule of [code]. *)
Definition deact_requirement_edges (code : string) (rules : list (string * pyobj))
             (st : edge_state) : result edge_state :=
    match get rules "deact_requirements" with
    | PyList (PyDict deact_map :: _) =>
        for_each
          (fun st1 (item : string * pyobj) =>
             let (target_id, conditions0) := item in
             let target_code := str_or (_resolve_code_from_id (PyStr target_id)) code in
             let conditions :=
               match conditions0 with
               | PyDict _ => PyList [conditions0]
               | other => other
               end in
             match conditions with
             | PyList conds =>
                 for_each
                   (fun st2 (condition : pyobj) =>
                      match condition with
                      | PyDict c =>
                          let source_code := _resolve_code_from_id (get c "dim") in
                          sr <- _first_numeric (get c "sr") ;;
                          lvl <- _first_int (get c "lvl") ;;
                          Ok (_add_edge st2 "deactivation" source_code target_code sr
                                        "deact_requirements" lvl sr)
                      | _ => Ok st2
                      end)
                   conds st1
             | _ => Ok st1
             end)
          deact_map st
    | _ => Ok st
    end.

(** Lines 383-436: one entry of [rule_by_code]. *)
Definition process_rule (st : node_map_t * edge_state)
             (item : string * list (string * pyobj))
    : result (node_map_t * edge_state) :=
    let (node_map, est) := st in
    let (code, node) := item in
    let rules := match get node "rules" with PyDict r => r | _ => [] end in
    let init_ssb := get rules "init_ssb" in
    is_open <- _is_init_open_from_rule init_ssb ;;
    let node_map1 :=
      match dict_get node_map code with
      | Some n => if is_open then dict_set node_map code (Node.open n) else node_map
      | None => node_map
      end in
    est1 <- requirement_edges code rules est ;;
    est2 <- deact_requirement_edges code rules est1 ;;
    Ok (node_map1, est2).

(** Lines 438-442 *)
Definition incoming_activation_targets (edges : list Edge.t) : list string :=
    map (fun e => _clean_str (PyStr (Edge.to_node_code e)))
        (filter (fun e => _clean_str (PyStr (Edge.edge_type e)) =? "activation") edges).

(** Lines 443-445: the default-open pass. *)
Definition default_open (edges : list Edge.t) (node_map : node_map_t) : node_map_t :=
    map (fun entry : string * Node.t =>
           let (node_code, node) := entry in
           if negb (Node.init_open node)
              && negb (mem node_code (incoming_activation_targets edges))
           then (node_code, Node.open node)
           else entry)
        node_map.

(** Lines 447-452 *)
Definition referenced_codes (edges : list Edge.t) : list string :=
    distinct (map (fun e => _clean_str (PyStr (Edge.from_node_code e))) edges
              ++ map (fun e => _clean_str (PyStr (Edge.to_node_code e))) edges).

Definition missing_codes (edges : list Edge.t) (node_map : node_map_t) : list string :=
    sorted (fun c => c) String.ltb
           (filter (fun code_ref => negb (is_empty code_ref)
                                    && negb (dict_mem node_map code_ref))
                   (referenced_codes edges)).

(** Lines 453-470: one missing code. *)
Definition add_ghost (node_map : node_map_t) (ghost_code : string) : node_map_t :=
    let ghost_type := _node_type_from_code_strict ghost_code in
    if negb (is_objective_or_activity ghost_type) then node_map
    else
      let ghost_id := get code_to_id_global ghost_code in
      dict_set node_map ghost_code
        (Node.mk module_code_norm ghost_id ghost_code ghost_type
                 (match dict_get id_to_label (_clean_str ghost_id) with
                  | Some l => str_or l ghost_code
                  | None => ghost_code
                  end)
                 (parse_objective_code ghost_code (Some ghost_type))
                 (parse_activity_index ghost_code)
                 false "rules" "rules" true).

(** Lines 447-511: ghost synthesis and the tables returned. *)
Definition finish (node_map : node_map_t) (edges : list Edge.t)
    : list Node.t * list Edge.t * list string :=
    let missing := missing_codes edges node_map in
    let node_map1 := fold_left add_ghost missing node_map in
    let warnings :=
      match missing with
      | [] => []
      | _ => [fstring ["Created "; str_of_Z (Z.of_nat (List.length missing));
                       " ghost node(s) for unresolved rules references."]]
      end in
    (values node_map1, edges, warnings).
End Derivation.

(** [next((row for row in rows if isinstance(row, dict) and test(row)), None)] *)
Fixpoint first_dict (test : list (string * pyobj) -> bool) (rows : list pyobj)
  : option (list (string * pyobj)) :=
  match rows with
  | [] => None
  | PyDict row :: rest => if test row then Some row else first_dict test rest
  | _ :: rest => first_dict test rest
  end.

(** Lines 238-244 *)
Definition id_to_codes_of (code_to_id_local : list (string * pyobj))
  : list (string * list string) :=
  fold_left
    (fun acc (item : string * pyobj) =>
       let (code, identifier) := item in
       let code_txt := _clean_str (PyStr code) in
       let id_txt := _clean_str identifier in
       if is_empty code_txt || is_empty id_txt then acc
       else dict_set acc id_txt
              (match dict_get acc id_txt with
               | Some l => l ++ [code_txt]
               | None => [code_txt]
               end))
    code_to_id_local [].

(** Lines 250-254 *)
Definition id_to_label_of (id_index_rows : list Loaders.index_row)
  : list (string * string) :=
  fold_left
    (fun acc row =>
       let key := _clean_str (PyStr (Loaders.id row)) in
       if is_empty key then acc
       else dict_set acc key
              (str_or (_clean_str (Loaders.of_utf8 (Loaders.short_title row)))
                      (_clean_str (Loaders.of_utf8 (Loaders.long_title row)))))
    id_index_rows [].

(** What the derivation path knows before ghost synthesis. *)
Record derivation : Type := {
  d_module_code_norm : string;
  d_code_to_id_global : list (string * pyobj);
  d_id_to_label : list (string * string);
  d_node_map : node_map_t;
  d_edges : list Edge.t
}.

(** Lines 220-445: the node map and the edges once every rule is read and
    the default-open pass is done; [None] when the module has no rules. *)
Definition derive (module_code : string)
           (catalog_payload rules_payload : list (string * pyobj))
  : result (option derivation) :=
  let module_code_norm := _clean_str (PyStr module_code) in
  let rules_modules :=
    match get rules_payload "module_rules" with PyList l => l | _ => [] end in
  match first_dict (fun row => _clean_str (get row "module_code") =? module_code_norm)
                   rules_modules with
  | None => Ok None
  | Some module_rule =>
      let code_to_id_local :=
        match get module_rule "map_id_code" with PyDict d => d | _ => [] end in
      let id_to_codes_local := id_to_codes_of code_to_id_local in
      global_maps <- Loaders.zpdes_code_maps rules_payload ;;
      let code_to_id_global := fst global_maps in
      id_index_rows <- Loaders.catalog_id_index_frames catalog_payload ;;
      let id_to_label := id_to_label_of id_index_rows in
      modules <- iter (or_else (get catalog_payload "modules") (PyList [])) ;;
      let selected_catalog_module :=
        first_dict (fun module => _clean_str (get module "code") =? module_code_norm)
                   modules in
      node_map0 <-
        match selected_catalog_module with
        | Some module =>
            objectives <- iter (or_else (get module "objectives") (PyList [])) ;;
            for_each (seed_objective module_code_norm code_to_id_global) objectives []
        | None => Ok []
        end ;;
      let node_rules :=
        match get module_rule "node_rules" with PyList l => l | _ => [] end in
      let (rule_by_code, node_map1) :=
        fold_left (overlay_rule_node module_code_norm id_to_codes_local id_to_label)
                  node_rules ([], node_map0) in
      st <- for_each (process_rule module_code_norm id_to_codes_local)
                     rule_by_code
                     (node_map1, {| edges := []; edge_seen := [] |}) ;;
      let (node_map2, est) := st in
      Ok (Some {| d_module_code_norm := module_code_norm;
                  d_code_to_id_global := code_to_id_global;
                  d_id_to_label := id_to_label;
                  d_node_map := default_open (edges est) node_map2;
                  d_edges := edges est |})
  end.

(** The rows of the two frames and the warnings.  (Building the node frame
    from the rows is the dataframe engine's work and is not modelled.) *)
Definition _build_dependency_tables_from_rules_payload (module_code : string)
           (catalog_payload rules_payload : list (string * pyobj))
  : result (list Node.t * list Edge.t * list string) :=
  d <- derive module_code catalog_payload rules_payload ;;
  match d with
  | None =>
      Ok ([], [],
          [fstring ["Module '"; _clean_str (PyStr module_code);
                    "' not found in zpdes_rules.module_rules."]])
  | Some dv =>
      Ok (finish (d_module_code_norm dv) (d_code_to_id_global dv) (d_id_to_label dv)
                 (d_node_map dv) (d_edges dv))
  end.

(** [\((\d+(?:\.\d+)?)%\)] at the start of the text: group 2 of
    [DEPENDENCY_TOKEN_RE] and what follows the match. *)
Definition percent_at (s : string) : option (string * string) :=
  match s with
  | String "(" r =>
      match span_digits r with
      | (EmptyString, _) => None
      | (ip, r1) =>
          let (number, r2) :=
            match r1 with
            | String "." r1' =>
                match span_digits r1' with
                | (EmptyString, _) => (ip, r1)
                | (fp, r2) => (append ip (String "." fp), r2)
                end
            | _ => (ip, r1)
            end in
          match r2 with
          | String "%" (String ")" rest) => Some (number, rest)
          | _ => None
          end
      end
  | _ => None
  end.

(** One match of [DEPENDENCY_TOKEN_RE] at the start of the text: groups 1
    and 2, and the number of characters matched. *)
Definition token_at (s : string) : option (string * option string * nat) :=
  match Re.objective_prefix s with
  | None => None
  | Some (o, r1) =>
      let (code, r2) :=
        match Re.letter_digits "A" r1 with
        | Some (a, r) => (append o (String "A" a), r)
        | None => (o, r1)
        end in
      match percent_at r2 with
      | Some (pct, r3) => Some (code, Some pct, (String.length s - String.length r3)%nat)
      | None => Some (code, None, String.length code)
      end
  end.

(** [DEPENDENCY_TOKEN_RE.finditer(text)]: the matches from left to right,
    none overlapping another; [skip] characters belong to the last match. *)
Fixpoint find_tokens (skip : nat) (s : string) : list (string * option string) :=
  match s with
  | EmptyString => []
  | String _ r =>
      match skip with
      | S k => find_tokens k r
      | O =>
          match token_at s with
          | Some (code, pct, len) => (code, pct) :: find_tokens (len - 1) r
          | None => find_tokens 0 r
          end
      end
  end.

(** [x / 100.0] *)
Definition div100 (x : fval) : fval :=
  match x with
  | Fin q => binary64 (q / 100)
  | other => other
  end.

(** [(code, threshold) == (code', threshold')] *)
Definition token_eqb (a b : string * option fval) : bool :=
  (fst a =? fst b) && Pl.opt_eqb fval_eqb (snd a) (snd b).

(** Lines 66-77: one match. *)
Definition add_token (st : list (string * option fval) * list (string * option fval))
           (m : string * option string)
  : result (list (string * option fval) * list (string * option fval)) :=
  let (tokens, seen) := st in
  let (group1, group2) := m in
  let code := _clean_str (PyStr group1) in
  if is_empty code then Ok st
  else
    let pct_raw := _clean_str (match group2 with Some p => PyStr p | None => PyNone end) in
    threshold <- (if is_empty pct_raw then Ok None
                  else match float_of_string pct_raw with
                       | Some x => Ok (Some (div100 x))
                       | None => Raise ValueError
                       end) ;;
    let key := (code, threshold) in
    if existsb (token_eqb key) seen then Ok st
    else Ok ((tokens ++ [key])%list, key :: seen).

(** [parse_dependency_tokens(raw_value)]: the tokens as pairs
    [(code, threshold)]. *)
Definition parse_dependency_tokens (raw_value : pyobj)
  : result (list (string * option fval)) :=
  let text := _clean_str raw_value in
  if is_empty text then Ok []
  else
    st <- for_each add_token (find_tokens 0 text) ([], []) ;;
    Ok (fst st).

(** [filter_dependency_graph_by_objectives(nodes, edges, objective_codes)]
    on the rows of the two tables (lines 673-691).  The set [selected] is
    only tested for membership, so its order does not matter. *)
Definition filter_dependency_graph_by_objectives
           (nodes : list Node.t) (edges : list Edge.t) (objective_codes : list string)
  : list Node.t * list Edge.t :=
  let selected := filter (fun code => negb (is_empty code)) (map strip objective_codes) in
  match selected with
  | [] => ([], [])
  | _ =>
      let filtered_nodes :=
        filter (fun n => match Node.objective_code n with
                         | Some o => mem o selected
                         | None => false
                         end)
               nodes in
      let valid_node_codes := map Node.node_code filtered_nodes in
      (filtered_nodes,
       filter (fun e => mem (Edge.from_node_code e) valid_node_codes
                        && mem (Edge.to_node_code e) valid_node_codes)
              edges)
  end.

End ZpdesDependencies.

(** * derive.py *)

Module Derive.
Import Py.

Definition _ID_PLACEHOLDER_VALUES_LOWER : list string := [""; "none"; "null"; "nan"].

(** [_normalized_id_expr(column)] on one value of the column. *)
Definition _normalized_id_expr (value : option string) : option string :=
  match value with
  | None => None
  | Some text =>
      let normalized := Pl.strip_chars text in
      if mem (lower normalized) _ID_PLACEHOLDER_VALUES_LOWER then None
      else Some normalized
  end.

(** A row of [_hierarchy_map_from_catalog]. *)
Module Hier.
Record t : Type := mk {
  activity_id : option string;
  objective_id_summary : option string;
  objective_label : option string;
  activity_label : option string;
  module_id : option string;
  module_code : option string;
  module_label : option string
}.

Definition eqb (a b : t) : bool :=
  Pl.str_eqb (activity_id a) (activity_id b)
  && Pl.str_eqb (objective_id_summary a) (objective_id_summary b)
  && Pl.str_eqb (objective_label a) (objective_label b)
  && Pl.str_eqb (activity_label a) (activity_label b)
  && Pl.str_eqb (module_id a) (module_id b)
  && Pl.str_eqb (module_code a) (module_code b)
  && Pl.str_eqb (module_label a) (module_label b).
End Hier.

Definition _hierarchy_map_from_catalog (catalog : list (string * pyobj))
  : result (list Hier.t) :=
  activity_hierarchy <- Loaders.catalog_to_summary_frames catalog ;;
  Ok (Pl.distinct_by Hier.eqb
        (map (fun h =>
                Hier.mk (Loaders.h_activity_id h) (Some (Loaders.h_objective_id h))
                        (Loaders.h_objective_label h) (Loaders.h_activity_label h)
                        (Loaders.h_module_id h) (Loaders.h_module_code h)
                        (Loaders.h_module_label h))
             activity_hierarchy)).

(** A row of [_exercise_hierarchy_map_from_catalog]. *)
Module ExHier.
Record t : Type := mk {
  exercise_id : string;
  activity_id_exercise_summary : option string;
  objective_id_exercise_summary : option string;
  module_id_exercise_summary : option string;
  activity_label_exercise_summary : option string;
  objective_label_exercise_summary : option string;
  module_label_exercise_summary : option string;
  module_code_exercise_summary : option string
}.
End ExHier.

(** Lines 66-79: the rows read from [exercise_to_hierarchy]. *)
Definition exercise_rows (exercise_to_hierarchy : list (string * pyobj))
  : result (list (string * (option string * option string * option string))) :=
  for_each
    (fun rows (item : string * pyobj) =>
       let (exercise_id, mapping) := item in
       if is_empty (strip exercise_id) then Ok rows
       else
         match mapping with
         | PyDict m =>
             a <- Loaders.utf8 (get m "activity_id") ;;
             o <- Loaders.utf8 (get m "objective_id") ;;
             md <- Loaders.utf8 (get m "module_id") ;;
             Ok (rows ++ [(exercise_id, (a, o, md))])
         | _ => Ok rows
         end)
    exercise_to_hierarchy [].

Definition _exercise_hierarchy_map_from_catalog (catalog : list (string * pyobj))
  : result (list ExHier.t) :=
  activity_hierarchy <- Loaders.catalog_to_summary_frames catalog ;;
  let exercise_to_hierarchy :=
    match get catalog "exercise_to_hierarchy" with PyDict d => d | _ => [] end in
  rows <- exercise_rows exercise_to_hierarchy ;;
  let map_df := Pl.unique_by String.eqb fst rows in
  let activity_label_lookup :=
    Pl.unique_by Pl.str_eqb Loaders.h_activity_id activity_hierarchy in
  let joined :=
    Pl.left_join (fun r : string * (option string * option string * option string) =>
                    fst (fst (snd r)))
                 Loaders.h_activity_id map_df activity_label_lookup in
  Ok (Pl.unique_by String.eqb ExHier.exercise_id
        (map (fun x : (string * (option string * option string * option string))
                      * option Loaders.hierarchy_row =>
                let '((exercise_id, (a, o, md)), h) := x in
                ExHier.mk exercise_id a
                  (Pl.coalesce [o; Pl.col (fun r => Some (Loaders.h_objective_id r)) h])
                  (Pl.coalesce [md; Pl.col Loaders.h_module_id h])
                  (Pl.col Loaders.h_activity_label h)
                  (Pl.col Loaders.h_objective_label h)
                  (Pl.col Loaders.h_module_label h)
                  (Pl.col Loaders.h_module_code h))
             joined)).

Definition _code_preference_score (code : string) : Z * Z * string :=
  if Re.is_some (Re.match_activity code)
  then (0%Z, (- Z.of_nat (String.length code))%Z, code)
  else if Re.is_some (Re.match_objective code)
  then (1%Z, (- Z.of_nat (String.length code))%Z, code)
  else if Re.match_module code
  then (2%Z, (- Z.of_nat (String.length code))%Z, code)
  else (3%Z, (- Z.of_nat (String.length code))%Z, code).

(** Lines 162-169: the code chosen among the raw codes of one graph id. *)
Definition chosen_code (raw_codes : list pyobj) : option string :=
  let codes :=
    flat_map (fun code => match Loaders.nonblank_str code with
                          | Some s => [strip s]
                          | None => []
                          end) raw_codes in
  match codes with
  | [] => None
  | _ => hd_error (sorted _code_preference_score key3_ltb codes)
  end.

(** [_rules_id_code_frame]: the rows [(graph_id, graph_code)]. *)
Definition _rules_id_code_frame (rules : list (string * pyobj))
  : result (list (string * string)) :=
  maps <- Loaders.zpdes_code_maps rules ;;
  let id_to_codes := snd maps in
  let rows :=
    flat_map
      (fun item : string * pyobj =>
         let (graph_id, raw_codes) := item in
         if is_empty (strip graph_id) then []
         else
           match raw_codes with
           | PyList l =>
               match chosen_code l with
               | Some c => [(graph_id, c)]
               | None => []
               end
           | _ => []
           end)
      id_to_codes in
  Ok (Pl.unique_by String.eqb fst rows).

(** A row of the three frames of [_catalog_code_frames]. *)
Record code_row : Type := {
  cr_code : string;
  cr_id : string;
  cr_label : option string
}.

Definition _catalog_code_frames (catalog rules : list (string * pyobj))
  : result (list code_row * list code_row * list code_row) :=
  maps <- Loaders.zpdes_code_maps rules ;;
  let code_to_id := fst maps in
  index_rows <- Loaders.catalog_id_index_frames catalog ;;
  let index := Pl.unique_by String.eqb Loaders.id index_rows in
  let rows :=
    flat_map
      (fun item : string * pyobj =>
         let (code, identifier) := item in
         if is_empty (strip code) then []
         else match Loaders.nonblank_str identifier with
              | Some i => [(code, i)]
              | None => []
              end)
      code_to_id in
  let codes_labeled :=
    map (fun x : (string * string) * option Loaders.index_row =>
           let '((code, i), ix) := x in
           {| cr_code := code; cr_id := i;
              cr_label := Pl.coalesce [Pl.col Loaders.short_title ix;
                                       Pl.col Loaders.long_title ix;
                                       Some code] |})
        (Pl.left_join (fun r : string * string => Some (snd r))
                      (fun ix : Loaders.index_row => Some (Loaders.id ix))
                      rows index) in
  let pick (shape : string -> bool) :=
    Pl.unique_by String.eqb cr_code (filter (fun r => shape (cr_code r)) codes_labeled) in
  Ok (pick Pl.full_module, pick Pl.full_objective, pick Pl.full_activity).

(** A raw attempt event: the columns of the history file that the fact
    table keeps. *)
Module Raw.
Record t : Type := mk {
  created_at : option Z;  (* microseconds since the epoch *)
  user_id : option string;
  teacher_id : option string;
  classroom_id : option string;
  playlist_or_module_id : option string;
  objective_id : option string;
  activity_id : option string;
  exercise_id : option string;
  module_long_title : option string;
  data_correct : option bool;
  data_duration : option Q;
  session_duration : option Q;
  work_mode : option string;
  attempt_number : option Z;
  student_attempt_index : option Z;
  first_attempt_success_rate : option Q
}.
End Raw.

(** A row of [fact_attempt_core]. *)
Module Fact.
Record t : Type := mk {
  created_at : option Z;
  date_utc : option Z;  (* days since the epoch *)
  user_id : option string;
  teacher_id : option string;
  classroom_id : option string;
  playlist_or_module_id : option string;
  objective_id : option string;
  objective_id_summary : option string;
  objective_label : option string;
  activity_id : option string;
  activity_label : option string;
  exercise_id : option string;
  module_long_title : option string;
  data_correct : option bool;
  data_duration : option Q;
  session_duration : option Q;
  work_mode : option string;
  attempt_number : option Z;
  student_attempt_index : option Z;
  first_attempt_success_rate : option Q;
  module_id : option string;
  module_code : option string;
  module_label : option string;
  mapping_source : string;
  fallback_code_raw : option string
}.
End Fact.

(** The lookup frames [build_fact_attempt_core] joins the events with. *)
Record sources : Type := {
  hierarchy : list Hier.t;
  exercise_hierarchy : list ExHier.t;
  graph_id_code : list (string * string);
  module_code_df : list code_row;
  objective_code_df : list code_row;
  activity_code_df : list code_row
}.

(** [dt.date()] *)
Definition date_of (created_at : option Z) : option Z :=
  match created_at with
  | Some t => Some (t / 86400000000)%Z
  | None => None
  end.

(** The graph code joined on one identifier column. *)
Definition graph_code (src : sources) (key : option string) : option string :=
  match key with
  | None => None
  | Some k =>
      match filter (fun r : string * string => fst r =? k) (graph_id_code src) with
      | r :: _ => Some (snd r)
      | [] => None
      end
  end.

(** The row of a code frame joined on one fallback code. *)
Definition code_lookup (frame : list code_row) (key : option string) : option code_row :=
  match key with
  | None => None
  | Some k =>
      match filter (fun r => cr_code r =? k) frame with
      | r :: _ => Some r
      | [] => None
      end
  end.

(** The tier named by [mapping_source] (lines 418-425). *)
Definition mapping_source_of (has_activity_catalog_mapping has_exercise_catalog_mapping : bool)
           (module_code_fallback : option string) : string :=
  if has_activity_catalog_mapping then "catalog_activity"
  else if has_exercise_catalog_mapping then "catalog_exercise"
  else if Pl.is_not_null module_code_fallback then "rules_code_fallback"
  else "unmapped".

(** Lines 325-456 on one row of the frame joined with the two catalog
    frames: the event with its identifiers normalized, the hierarchy row
    of its activity and the hierarchy row of its exercise. *)
Definition reconcile (src : sources) (ev : Raw.t) (h : option Hier.t) (x : option ExHier.t)
  : Fact.t :=
  let fallback_code_raw :=
    Pl.coalesce [graph_code src (Raw.activity_id ev);
                 graph_code src (Raw.objective_id ev);
                 graph_code src (Raw.exercise_id ev);
                 graph_code src (Raw.playlist_or_module_id ev)] in
  let module_code_fallback := Pl.extract_module fallback_code_raw in
  let objective_code_fallback := Pl.extract_objective fallback_code_raw in
  let activity_code_fallback := Pl.extract_activity fallback_code_raw in
  let m := code_lookup (module_code_df src) module_code_fallback in
  let o := code_lookup (objective_code_df src) objective_code_fallback in
  let a := code_lookup (activity_code_df src) activity_code_fallback in
  let id_of (r : option code_row) := Pl.col (fun c => Some (cr_id c)) r in
  let has_activity_catalog_mapping := Pl.is_not_null (Pl.col Hier.module_code h) in
  let has_exercise_catalog_mapping :=
    Pl.is_not_null (Pl.col ExHier.module_code_exercise_summary x) in
  Fact.mk
    (Raw.created_at ev)
    (date_of (Raw.created_at ev))
    (Raw.user_id ev) (Raw.teacher_id ev) (Raw.classroom_id ev)
    (Raw.playlist_or_module_id ev)
    (Pl.coalesce [Raw.objective_id ev;
                  Pl.col Hier.objective_id_summary h;
                  Pl.col ExHier.objective_id_exercise_summary x;
                  id_of o])
    (Pl.coalesce [Pl.col Hier.objective_id_summary h;
                  Pl.col ExHier.objective_id_exercise_summary x;
                  id_of o])
    (Pl.coalesce [Pl.col Hier.objective_label h;
                  Pl.col ExHier.objective_label_exercise_summary x;
                  Pl.col cr_label o])
    (Pl.coalesce [Raw.activity_id ev;
                  Pl.col ExHier.activity_id_exercise_summary x;
                  id_of a])
    (Pl.coalesce [Pl.col Hier.activity_label h;
                  Pl.col ExHier.activity_label_exercise_summary x;
                  Pl.col cr_label a])
    (Raw.exercise_id ev)
    (Raw.module_long_title ev)
    (Raw.data_correct ev) (Raw.data_duration ev) (Raw.session_duration ev)
    (Raw.work_mode ev) (Raw.attempt_number ev) (Raw.student_attempt_index ev)
    (Raw.first_attempt_success_rate ev)
    (Pl.coalesce [Pl.col Hier.module_id h;
                  Pl.col ExHier.module_id_exercise_summary x;
                  id_of m])
    (Pl.coalesce [Pl.col Hier.module_code h;
                  Pl.col ExHier.module_code_exercise_summary x;
                  module_code_fallback])
    (Pl.coalesce [Pl.col Hier.module_label h;
                  Pl.col ExHier.module_label_exercise_summary x;
                  Pl.col cr_label m])
    (mapping_source_of has_activity_catalog_mapping has_exercise_catalog_mapping
                       module_code_fallback)
    fallback_code_raw.

(** Lines 315-322: the four identifier columns, normalized. *)
Definition normalize_ids (ev : Raw.t) : Raw.t :=
  Raw.mk (Raw.created_at ev) (Raw.user_id ev) (Raw.teacher_id ev) (Raw.classroom_id ev)
         (_normalized_id_expr (Raw.playlist_or_module_id ev))
         (_normalized_id_expr (Raw.objective_id ev))
         (_normalized_id_expr (Raw.activity_id ev))
         (_normalized_id_expr (Raw.exercise_id ev))
         (Raw.module_long_title ev) (Raw.data_correct ev) (Raw.data_duration ev)
         (Raw.session_duration ev) (Raw.work_mode ev) (Raw.attempt_number ev)
         (Raw.student_attempt_index ev) (Raw.first_attempt_success_rate ev).

(** The rows of the fact table that one event gives: one for every
    hierarchy row of its activity. *)
Definition fact_rows_of (src : sources) (raw : Raw.t) : list Fact.t :=
  let ev := normalize_ids raw in
  map (fun eh : Raw.t * option Hier.t =>
         let (e, h) := eh in
         let x :=
           match Pl.left_join Raw.exercise_id (fun r => Some (ExHier.exercise_id r))
                              [e] (exercise_hierarchy src) with
           | (_, r) :: _ => r
           | [] => None
           end in
         reconcile src e h x)
      (Pl.left_join Raw.activity_id Hier.activity_id [ev] (hierarchy src)).

(** Lines 314-458 over the lookup frames. *)
Definition fact_of_sources (src : sources) (events : list Raw.t) : list Fact.t :=
  flat_map (fact_rows_of src) events.

Definition load_sources (catalog rules : list (string * pyobj)) : result sources :=
  hierarchy <- _hierarchy_map_from_catalog catalog ;;
  exercise_hierarchy <- _exercise_hierarchy_map_from_catalog catalog ;;
  graph_id_code <- _rules_id_code_frame rules ;;
  frames <- _catalog_code_frames catalog rules ;;
  let '(module_code_df, objective_code_df, activity_code_df) := frames in
  Ok {| hierarchy := hierarchy; exercise_hierarchy := exercise_hierarchy;
        graph_id_code := graph_id_code; module_code_df := module_code_df;
        objective_code_df := objective_code_df;
        activity_code_df := activity_code_df |}.

(** [build_fact_attempt_core(settings, sample_rows)], with the files the
    settings name given by their contents. *)
Definition build_fact_attempt_core (catalog rules : list (string * pyobj))
           (events : list Raw.t) (sample_rows : option nat) : result (list Fact.t) :=
  src <- load_sources catalog rules ;;
  let lf := match sample_rows with Some n => firstn n events | None => events end in
  Ok (fact_of_sources src lf).

(** A row of [agg_activity_daily]. *)
Module ActivityDaily.
Record t : Type := mk {
  date_utc : option Z;
  activity_id : option string;
  activity_label : option string;
  objective_id : option string;
  objective_label : option string;
  module_id : option string;
  module_code : option string;
  module_label : option string;
  attempts : Z;
  unique_students : Z;
  success_rate : option Q;
  first_attempt_success_rate : option Q;
  first_attempt_count : Z;
  median_duration : option Q;
  repeat_attempt_rate : option Q;
  avg_attempt_number : option Q
}.
End ActivityDaily.

(** The grouping key of [build_agg_activity_daily_from_fact]. *)
Record activity_key : Type := {
  k_date_utc : option Z;
  k_activity_id : option string;
  k_activity_label : option string;
  k_objective_id : option string;
  k_objective_label : option string;
  k_module_id : option string;
  k_module_code : option string;
  k_module_label : option string
}.

Definition activity_key_of (r : Fact.t) : activity_key :=
  {| k_date_utc := Fact.date_utc r;
     k_activity_id := Fact.activity_id r;
     k_activity_label := Fact.activity_label r;
     k_objective_id := Fact.objective_id r;
     k_objective_label := Fact.objective_label r;
     k_module_id := Fact.module_id r;
     k_module_code := Fact.module_code r;
     k_module_label := Fact.module_label r |}.

Definition activity_key_eqb (a b : activity_key) : bool :=
  Pl.opt_eqb Z.eqb (k_date_utc a) (k_date_utc b)
  && Pl.str_eqb (k_activity_id a) (k_activity_id b)
  && Pl.str_eqb (k_activity_label a) (k_activity_label b)
  && Pl.str_eqb (k_objective_id a) (k_objective_id b)
  && Pl.str_eqb (k_objective_label a) (k_objective_label b)
  && Pl.str_eqb (k_module_id a) (k_module_id b)
  && Pl.str_eqb (k_module_code a) (k_module_code b)
  && Pl.str_eqb (k_module_label a) (k_module_label b).

(** [attempt_number == 1], a null comparing as not true. *)
Definition is_first_attempt (r : Fact.t) : bool :=
  match Fact.attempt_number r with Some n => (n =? 1)%Z | None => false end.

(** Lines 466-469: the column [first_attempt_correct_value]. *)
Definition first_attempt_correct_value (r : Fact.t) : option Q :=
  if is_first_attempt r then Pl.float_of_bool (Fact.data_correct r) else None.

(** Lines 470-473: the column [first_attempt_flag]. *)
Definition first_attempt_flag (r : Fact.t) : Z :=
  if is_first_attempt r then 1%Z else 0%Z.

(** [(attempt_number > 1).cast(pl.Float64)] *)
Definition is_repeat (r : Fact.t) : option Q :=
  match Fact.attempt_number r with
  | Some n => Some (if (1 <? n)%Z then 1 else 0)%Q
  | None => None
  end.

(** Lines 487-496: the aggregates of one group. *)
Definition aggregate_activity (k : activity_key) (rows : list Fact.t) : ActivityDaily.t :=
  ActivityDaily.mk
    (k_date_utc k) (k_activity_id k) (k_activity_label k) (k_objective_id k)
    (k_objective_label k) (k_module_id k) (k_module_code k) (k_module_label k)
    (Z.of_nat (List.length rows))
    (Z.of_nat (Pl.n_unique Pl.str_eqb (map Fact.user_id rows)))
    (Pl.mean (map (fun r => Pl.float_of_bool (Fact.data_correct r)) rows))
    (Pl.mean (map first_attempt_correct_value rows))
    (fold_right Z.add 0%Z (map first_attempt_flag rows))
    (Pl.median (map Fact.data_duration rows))
    (Pl.mean (map is_repeat rows))
    (Pl.mean (map (fun r => Pl.float_of_Z (Fact.attempt_number r)) rows)).

(** The order of [sort(["date_utc", "attempts"], descending=[False, True])]:
    nulls first among the dates. *)
Definition daily_order_ltb (a b : option Z * Z) : bool :=
  let (d1, n1) := a in
  let (d2, n2) := b in
  match d1, d2 with
  | None, Some _ => true
  | Some _, None => false
  | None, None => (n2 <? n1)%Z
  | Some x, Some y =>
      if (x <? y)%Z then true
      else if (y <? x)%Z then false
      else (n2 <? n1)%Z
  end.

Definition build_agg_activity_daily_from_fact (fact : list Fact.t) : list ActivityDaily.t :=
  sorted (fun r => (ActivityDaily.date_utc r, ActivityDaily.attempts r)) daily_order_ltb
         (map (fun g : activity_key * list Fact.t => aggregate_activity (fst g) (snd g))
              (Pl.group_by activity_key_eqb activity_key_of fact)).

(** A row of [agg_playlist_module_usage]. *)
Module PlaylistUsage.
Record t : Type := mk {
  playlist_or_module_id : option string;
  module_id : option string;
  module_code : option string;
  module_label : option string;
  attempts : Z;
  unique_students : Z;
  unique_classrooms : Z;
  unique_activities : Z;
  success_rate : option Q;
  median_duration : option Q;
  work_mode : option string
}.
End PlaylistUsage.

(** The grouping key of [build_agg_playlist_module_usage_from_fact]. *)
Record playlist_key : Type := {
  pk_playlist_or_module_id : option string;
  pk_module_id : option string;
  pk_module_code : option string;
  pk_module_label : option string
}.

Definition playlist_key_of (r : Fact.t) : playlist_key :=
  {| pk_playlist_or_module_id := Fact.playlist_or_module_id r;
     pk_module_id := Fact.module_id r;
     pk_module_code := Fact.module_code r;
     pk_module_label := Fact.module_label r |}.

Definition playlist_key_eqb (a b : playlist_key) : bool :=
  Pl.str_eqb (pk_playlist_or_module_id a) (pk_playlist_or_module_id b)
  && Pl.str_eqb (pk_module_id a) (pk_module_id b)
  && Pl.str_eqb (pk_module_code a) (pk_module_code b)
  && Pl.str_eqb (pk_module_label a) (pk_module_label b).

(** Lines 588-594: the column [playlist_has_mapped_module], the value of
    [module_code.is_not_null().any()] over the rows of the same playlist. *)
Definition playlist_has_mapped_module (fact : list Fact.t) (r : Fact.t) : bool :=
  existsb (fun r' => Pl.is_not_null (Fact.module_code r'))
          (filter (fun r' => Pl.str_eqb (Fact.playlist_or_module_id r)
                                        (Fact.playlist_or_module_id r'))
                  fact).

(** Lines 595-597: the filter. *)
Definition keep_playlist_row (fact : list Fact.t) (r : Fact.t) : bool :=
  negb (playlist_has_mapped_module fact r && Pl.is_null (Fact.module_code r)).

(** [drop_nulls().n_unique()] *)
Definition n_unique_not_null (l : list (option string)) : Z :=
  Z.of_nat (Pl.n_unique String.eqb (Pl.drop_nulls l)).

(** Lines 606-623: the column [work_mode]. *)
Definition work_mode_of (rows : list Fact.t) : option string :=
  let modes := Pl.drop_nulls (map Fact.work_mode rows) in
  let work_mode_unique_count := Pl.n_unique String.eqb modes in
  let work_mode_first := match modes with [] => None | m :: _ => Some m end in
  if (work_mode_unique_count =? 0)%nat then Some "unknown"
  else if (work_mode_unique_count =? 1)%nat then work_mode_first
  else Some "mixed".

(** Lines 599-624: the aggregates of one group. *)
Definition aggregate_playlist (k : playlist_key) (rows : list Fact.t) : PlaylistUsage.t :=
  PlaylistUsage.mk
    (pk_playlist_or_module_id k) (pk_module_id k) (pk_module_code k) (pk_module_label k)
    (Z.of_nat (List.length rows))
    (n_unique_not_null (map Fact.user_id rows))
    (n_unique_not_null (map Fact.classroom_id rows))
    (n_unique_not_null (map Fact.activity_id rows))
    (Pl.mean (map (fun r => Pl.float_of_bool (Fact.data_correct r)) rows))
    (Pl.median (map Fact.data_duration rows))
    (work_mode_of rows).

(** The order of [sort(["module_code", "attempts"], descending=[False, True])]:
    nulls first among the module codes. *)
Definition usage_order_ltb (a b : option string * Z) : bool :=
  let (c1, n1) := a in
  let (c2, n2) := b in
  match c1, c2 with
  | None, Some _ => true
  | Some _, None => false
  | None, None => (n2 <? n1)%Z
  | Some x, Some y =>
      if String.ltb x y then true
      else if String.ltb y x then false
      else (n2 <? n1)%Z
  end.

Definition build_agg_playlist_module_usage_from_fact (fact : list Fact.t)
  : list PlaylistUsage.t :=
  sorted (fun r => (PlaylistUsage.module_code r, PlaylistUsage.attempts r)) usage_order_ltb
         (map (fun g : playlist_key * list Fact.t => aggregate_playlist (fst g) (snd g))
              (Pl.group_by playlist_key_eqb playlist_key_of
                           (filter (keep_playlist_row fact) fact))).

(** A row of [agg_module_activity_usage]. *)
Module ModuleActivityUsage.
Record t : Type := mk {
  module_id : option string;
  module_code : option string;
  module_label : option string;
  activity_id : option string;
  activity_label : option string;
  attempts : Z;
  unique_students : Z;
  unique_classrooms : Z;
  unique_playlists : Z;
  activity_share_within_module : Q
}.
End ModuleActivityUsage.

(** The grouping key of [build_agg_module_activity_usage_from_fact]. *)
Record module_activity_key : Type := {
  mk_module_id : option string;
  mk_module_code : option string;
  mk_module_label : option string;
  mk_activity_id : option string;
  mk_activity_label : option string
}.

Definition module_activity_key_of (r : Fact.t) : module_activity_key :=
  {| mk_module_id := Fact.module_id r;
     mk_module_code := Fact.module_code r;
     mk_module_label := Fact.module_label r;
     mk_activity_id := Fact.activity_id r;
     mk_activity_label := Fact.activity_label r |}.

Definition module_activity_key_eqb (a b : module_activity_key) : bool :=
  Pl.str_eqb (mk_module_id a) (mk_module_id b)
  && Pl.str_eqb (mk_module_code a) (mk_module_code b)
  && Pl.str_eqb (mk_module_label a) (mk_module_label b)
  && Pl.str_eqb (mk_activity_id a) (mk_activity_id b)
  && Pl.str_eqb (mk_activity_label a) (mk_activity_label b).

(** [pl.col("attempts").sum().over("module_code")] *)
Definition attempts_over_module (groups : list (module_activity_key * list Fact.t))
           (code : option string) : Z :=
  fold_right Z.add 0%Z
             (map (fun g : module_activity_key * list Fact.t => Z.of_nat (List.length (snd g)))
                  (filter (fun g : module_activity_key * list Fact.t =>
                             Pl.str_eqb code (mk_module_code (fst g)))
                          groups)).

(** Lines 633-643: the aggregates of one group and its share. *)
Definition aggregate_module_activity (groups : list (module_activity_key * list Fact.t))
           (k : module_activity_key) (rows : list Fact.t) : ModuleActivityUsage.t :=
  let attempts := Z.of_nat (List.length rows) in
  ModuleActivityUsage.mk
    (mk_module_id k) (mk_module_code k) (mk_module_label k)
    (mk_activity_id k) (mk_activity_label k)
    attempts
    (n_unique_not_null (map Fact.user_id rows))
    (n_unique_not_null (map Fact.classroom_id rows))
    (n_unique_not_null (map Fact.playlist_or_module_id rows))
    (inject_Z attempts / inject_Z (attempts_over_module groups (mk_module_code k)))%Q.

Definition build_agg_module_activity_usage_from_fact (fact : list Fact.t)
  : list ModuleActivityUsage.t :=
  let groups := Pl.group_by module_activity_key_eqb module_activity_key_of fact in
  sorted (fun r => (ModuleActivityUsage.module_code r, ModuleActivityUsage.attempts r))
         usage_order_ltb
         (map (fun g : module_activity_key * list Fact.t =>
                 aggregate_module_activity groups (fst g) (snd g))
              groups).

End Derive.

(** * objective_activity_matrix.py *)

Module ObjectiveActivityMatrix.
Import Py.

Definition VALID_MATRIX_METRICS : list string :=
  ["attempts"; "success_rate"; "exercise_balanced_success_rate";
   "repeat_attempt_rate"; "first_attempt_success_rate"; "playlist_unique_exercises"].

(** A frame with the names of its columns.  A field of a row whose column
    the frame does not have is never read. *)
Record frame (R : Type) : Type := {
  columns : list string;
  rows : list R
}.
Arguments columns {R} f.
Arguments rows {R} f.

(** A row of [agg_activity_daily] or of [agg_exercise_daily], as the matrix
    reads them. *)
Module Src.
Record t : Type := mk {
  date_utc : option Z;
  module_code : option string;
  objective_id : option string;
  activity_id : option string;
  exercise_id : option string;
  objective_label : option string;
  activity_label : option string;
  attempts : option Q;
  success_rate : option Q;
  repeat_attempt_rate : option Q;
  first_attempt_success_rate : option Q;
  first_attempt_count : option Q
}.
End Src.

(** A row of the cells table. *)
Module Cell.
Record t : Type := mk {
  module_code : option string;
  objective_id : option string;
  objective_label : option string;
  objective_row_label : option string;
  activity_id : option string;
  activity_label : option string;
  activity_col_idx : option Z;
  activity_col_label : option string;
  metric_value : option Q;
  metric_text : option string
}.
End Cell.

Definition _safe_label (label identifier : pyobj) : string :=
  let normalized := strip (str (or_else label (PyStr ""))) in
  if negb (is_empty normalized) then normalized
  else strip (str (or_else identifier (PyStr ""))).

Definition has_key (d : list (string * pyobj)) (k : string) : bool := dict_mem d k.

Fixpoint enumerate_from {A : Type} (start : Z) (l : list A) : list (Z * A) :=
  match l with
  | [] => []
  | x :: rest => (start, x) :: enumerate_from (start + 1)%Z rest
  end.

(** [enumerate(l)] *)
Definition enumerate {A : Type} (l : list A) : list (Z * A) := enumerate_from 0%Z l.

(** [str(row.get(key) or "").strip()] *)
Definition stripped_field (row : list (string * pyobj)) (key : string) : string :=
  strip (str (or_else (get row key) (PyStr ""))).

(** The label read from the [title] of a summary row. *)
Definition title_label (row : list (string * pyobj)) (identifier : string) : string :=
  let title := match get row "title" with PyDict t => t | _ => [] end in
  _safe_label (or_else (get title "short") (get title "long")) (PyStr identifier).

Record summary_maps : Type := {
  objective_order_map : list (string * Z);
  objective_activity_order_map : list (string * list (string * Z));
  objective_label_map : list (string * string);
  activity_label_map : list (string * string)
}.

Definition empty_maps : summary_maps :=
  {| objective_order_map := []; objective_activity_order_map := [];
     objective_label_map := []; activity_label_map := [] |}.

(** Lines 126-141: the activities of one objective of the catalog. *)
Definition catalog_activities (st : list (string * Z) * list (string * string))
           (item : Z * pyobj) : list (string * Z) * list (string * string) :=
  let (activity_order_map, labels) := st in
  let (activity_idx, activity_row) := item in
  match activity_row with
  | PyDict a =>
      let activity_id := stripped_field a "id" in
      if is_empty activity_id then st
      else (dict_set activity_order_map activity_id activity_idx,
            dict_set labels activity_id (title_label a activity_id))
  | _ => st
  end.

(** Lines 111-142: one objective of the catalog module. *)
Definition catalog_objective (maps : summary_maps) (item : Z * pyobj) : result summary_maps :=
  let (objective_idx, objective_row) := item in
  match objective_row with
  | PyDict o =>
      let objective_id := stripped_field o "id" in
      if is_empty objective_id then Ok maps
      else
        objective_activities <- iter (or_else (get o "activities") (PyList [])) ;;
        let (activity_order_map, labels) :=
          fold_left catalog_activities (enumerate objective_activities)
                    ([], activity_label_map maps) in
        Ok {| objective_order_map :=
                dict_set (objective_order_map maps) objective_id objective_idx;
              objective_activity_order_map :=
                dict_set (objective_activity_order_map maps) objective_id activity_order_map;
              objective_label_map :=
                dict_set (objective_label_map maps) objective_id (title_label o objective_id);
              activity_label_map := labels |}
  | _ => Ok maps
  end.

(** [{str(x): idx for idx, x in enumerate(ids)}] *)
Definition order_of (ids : list pyobj) : list (string * Z) :=
  fold_left (fun acc (item : Z * pyobj) => dict_set acc (str (snd item)) (fst item))
            (enumerate ids) [].

(** Lines 163-178: one row of the [objectives] of a summary. *)
Definition summary_objective (st : list (string * list (string * Z)) * list (string * string))
           (row : pyobj)
  : result (list (string * list (string * Z)) * list (string * string)) :=
  let (order_maps, labels) := st in
  match row with
  | PyDict o =>
      let objective_id := stripped_field o "id" in
      if is_empty objective_id then Ok st
      else
        activity_ids <- iter (or_else (get o "activityIds") (PyList [])) ;;
        Ok (dict_set order_maps objective_id (order_of activity_ids),
            dict_set labels objective_id (title_label o objective_id))
  | _ => Ok st
  end.

(** Lines 181-191: one row of the [activities] of a summary. *)
Definition summary_activity (labels : list (string * string)) (row : pyobj)
  : list (string * string) :=
  match row with
  | PyDict a =>
      let activity_id := stripped_field a "id" in
      if is_empty activity_id then labels
      else dict_set labels activity_id (title_label a activity_id)
  | _ => labels
  end.

(** Lines 93: the payload is a learning catalog, with nested objectives. *)
Definition is_catalog_format (modules : pyobj) : bool :=
  match modules with
  | PyList (PyDict first :: _) => has_key first "objectives"
  | _ => false
  end.

Definition _summary_maps (summary_payload : list (string * pyobj)) (module_code : string)
  : result summary_maps :=
  let modules := or_else (get summary_payload "modules") (PyList []) in
  let objectives := or_else (get summary_payload "objectives") (PyList []) in
  let activities := or_else (get summary_payload "activities") (PyList []) in
  let is_module (row : list (string * pyobj)) := stripped_field row "code" =? module_code in
  module_rows <- iter modules ;;
  let module_row := ZpdesDependencies.first_dict is_module module_rows in
  if is_catalog_format modules then
    match module_row with
    | None => Ok empty_maps
    | Some m =>
        module_objectives <- iter (or_else (get m "objectives") (PyList [])) ;;
        for_each catalog_objective (enumerate module_objectives) empty_maps
    end
  else
    order <- match module_row with
             | Some m =>
                 objective_ids <- iter (or_else (get m "objectiveIds") (PyList [])) ;;
                 Ok (order_of objective_ids)
             | None => Ok []
             end ;;
    objective_rows <- iter objectives ;;
    st <- for_each summary_objective objective_rows ([], []) ;;
    activity_rows <- iter activities ;;
    Ok {| objective_order_map := order;
          objective_activity_order_map := fst st;
          objective_label_map := snd st;
          activity_label_map := fold_left summary_activity activity_rows [] |}.

Definition _assert_required_columns {R : Type} (f : frame R) (required_columns : list string)
  : result unit :=
  match filter (fun column => negb (mem column (columns f))) required_columns with
  | [] => Ok tt
  | _ => Raise ValueError
  end.

(** [f"{value:.1f}"] for a finite value. *)
Definition format_1f (q : Q) : string :=
  let n := Z.abs (round_half_even (q * 10)) in
  fstring [if Qle_bool 0 q then "" else "-"; str_of_Z (n / 10)%Z; ".";
           str_of_Z (n mod 10)%Z].

(** [float(value)] for a number of the dataframe engine: the binary64 value
    it is.  (A magnitude beyond the binary64 range, which no column of the
    engine holds, is left as it is.) *)
Definition float_of_Q (q : Q) : Q :=
  match binary64 q with Fin x => x | _ => q end.

(** Lines 202-209.  The product [float(value) * 100] is rounded to binary64
    before [.1f] prints its exact value to one decimal place. *)
Definition format_cell_value (metric : string) (value : option Q) : string :=
  match value with
  | None => ""
  | Some v =>
      let x := float_of_Q v in
      if mem metric ["attempts"; "playlist_unique_exercises"]
      then str_of_Z (round_half_even x)
      else
        match binary64 (x * 100) with
        | Fin p => fstring [format_1f p; "%"]
        | Inf negative => if negative then "-inf%" else "inf%"
        | NaN => "nan%"
        end
  end.

(** A row of [aggregated]: the keys of the dictionary, each holding null
    when the path taken does not produce it. *)
Module Agg.
Record t : Type := mk {
  objective_id : option string;
  activity_id : option string;
  objective_label : option string;
  activity_label : option string;
  attempts_sum : option Q;
  weighted_success_sum : option Q;
  weighted_repeat_sum : option Q;
  weighted_first_attempt_success_sum : option Q;
  first_attempt_count_sum : option Q;
  exercise_balanced_success_rate : option Q;
  playlist_unique_exercises : option Q
}.
End Agg.

(** The filter on the module and the date window. *)
Definition in_window (module_code : string) (start_date end_date : Z)
           (m : option string) (d : option Z) : bool :=
  match m, d with
  | Some code, Some day => (code =? module_code) && (start_date <=? day)%Z && (day <=? end_date)%Z
  | _, _ => false
  end.

Definition src_in_window (module_code : string) (start_date end_date : Z) (r : Src.t) : bool :=
  in_window module_code start_date end_date (Src.module_code r) (Src.date_utc r).

(** Lines 241-260 and 301-308: columns a frame lacks are added. *)
Definition with_default_columns (f : frame Src.t) : list Src.t :=
  map (fun r =>
         Src.mk (Src.date_utc r) (Src.module_code r) (Src.objective_id r) (Src.activity_id r)
                (Src.exercise_id r)
                (if mem "objective_label" (columns f) then Src.objective_label r
                 else Src.objective_id r)
                (if mem "activity_label" (columns f) then Src.activity_label r
                 else Src.activity_id r)
                (Src.attempts r) (Src.success_rate r) (Src.repeat_attempt_rate r)
                (if mem "first_attempt_success_rate" (columns f)
                 then Src.first_attempt_success_rate r else None)
                (if mem "first_attempt_count" (columns f)
                 then Src.first_attempt_count r else Some 0%Q))
      (rows f).

Definition pair_eqb (a b : option string * option string) : bool :=
  Pl.str_eqb (fst a) (fst b) && Pl.str_eqb (snd a) (snd b).

Definition triple_eqb (a b : option string * option string * option string) : bool :=
  pair_eqb (fst a) (fst b) && Pl.str_eqb (snd a) (snd b).

(** The key [(objective_id, activity_id)]; the third grouping column,
    [module_code], holds one value once the frame is filtered. *)
Definition cell_key (r : Src.t) : option string * option string :=
  (Src.objective_id r, Src.activity_id r).

Definition exercise_key (r : Src.t) : option string * option string * option string :=
  (Src.objective_id r, Src.activity_id r, Src.exercise_id r).

(** [pl.col(c).drop_nulls().first()] *)
Definition first_not_null {A : Type} (l : list (option A)) : option A := Pl.coalesce l.

(** Lines 428-446: the attempts-weighted sums of one group. *)
Definition weighted_row (g : (option string * option string) * list Src.t) : Agg.t :=
  let (k, rs) := g in
  Agg.mk (fst k) (snd k)
         (first_not_null (map Src.objective_label rs))
         (first_not_null (map Src.activity_label rs))
         (Some (Pl.sum (map Src.attempts rs)))
         (Some (Pl.sum (map (fun r => Pl.mul (Src.success_rate r) (Src.attempts r)) rs)))
         (Some (Pl.sum (map (fun r => Pl.mul (Src.repeat_attempt_rate r) (Src.attempts r)) rs)))
         (Some (Pl.sum (map (fun r => Pl.mul (Src.first_attempt_success_rate r)
                                             (Src.first_attempt_count r)) rs)))
         (Some (Pl.sum (map Src.first_attempt_count rs)))
         None None.

(** A row of the frame grouped by exercise (lines 330-345). *)
Record exercise_row : Type := {
  x_objective_id : option string;
  x_activity_id : option string;
  x_objective_label : option string;
  x_activity_label : option string;
  x_exercise_success_rate : option Q
}.

Definition exercise_success_rate (rs : list Src.t) : option Q :=
  let exercise_attempts_sum := Pl.sum (map Src.attempts rs) in
  let exercise_weighted_success_sum :=
    Pl.sum (map (fun r => Pl.mul (Src.success_rate r) (Src.attempts r)) rs) in
  if Pl.qltb 0 exercise_attempts_sum
  then Some (exercise_weighted_success_sum / exercise_attempts_sum)%Q
  else None.

Definition exercise_row_of (g : (option string * option string * option string) * list Src.t)
  : exercise_row :=
  let (k, rs) := g in
  {| x_objective_id := fst (fst k);
     x_activity_id := snd (fst k);
     x_objective_label := first_not_null (map Src.objective_label rs);
     x_activity_label := first_not_null (map Src.activity_label rs);
     x_exercise_success_rate := exercise_success_rate rs |}.

(** Lines 346-356: the exercise rows of one activity. *)
Definition balanced_row (g : (option string * option string) * list exercise_row) : Agg.t :=
  let (k, xs) := g in
  Agg.mk (fst k) (snd k)
         (first_not_null (map x_objective_label xs))
         (first_not_null (map x_activity_label xs))
         None None None None None
         (Pl.mean (map x_exercise_success_rate xs))
         None.

(** Lines 316-357 *)
Definition balanced_rows (exercise_filtered : list Src.t) : list Agg.t :=
  map balanced_row
      (Pl.group_by pair_eqb (fun x => (x_objective_id x, x_activity_id x))
         (map exercise_row_of (Pl.group_by triple_eqb exercise_key exercise_filtered))).

Definition not_none_text (v : option string) : bool :=
  match v with Some s => negb (s =? "None") | None => false end.

(** Lines 382-426 *)
Definition playlist_rows (module_code : string) (start_date end_date : Z)
           (fact : frame Derive.Fact.t) : list Agg.t :=
  let playlist_filtered :=
    filter (fun r =>
              in_window module_code start_date end_date
                        (Derive.Fact.module_code r) (Derive.Fact.date_utc r)
              && Pl.str_eqb (Derive.Fact.work_mode r) (Some "playlist")
              && not_none_text (Derive.Fact.objective_id r)
              && not_none_text (Derive.Fact.activity_id r)
              && not_none_text (Derive.Fact.exercise_id r))
           (rows fact) in
  map (fun g : (option string * option string) * list Derive.Fact.t =>
         let (k, rs) := g in
         Agg.mk (fst k) (snd k)
                (if mem "objective_label" (columns fact)
                 then first_not_null (map Derive.Fact.objective_label rs) else None)
                (if mem "activity_label" (columns fact)
                 then first_not_null (map Derive.Fact.activity_label rs) else None)
                None None None None None None
                (Some (inject_Z (Z.of_nat
                   (Pl.n_unique Pl.str_eqb (map Derive.Fact.exercise_id rs))))))
      (Pl.group_by pair_eqb
                   (fun r => (Derive.Fact.objective_id r, Derive.Fact.activity_id r))
                   playlist_filtered).

(** [float(v or 0.0)] *)
Definition or_zero (v : option Q) : Q :=
  match v with Some x => x | None => 0%Q end.

(** Lines 473-498: the value of the cell; [None] where the row is skipped. *)
Definition metric_value_of (metric : string) (row : Agg.t) : option Q :=
  if metric =? "exercise_balanced_success_rate"
  then Agg.exercise_balanced_success_rate row
  else if metric =? "playlist_unique_exercises"
  then Some (or_zero (Agg.playlist_unique_exercises row))
  else
    let attempts_sum := or_zero (Agg.attempts_sum row) in
    if metric =? "attempts" then Some attempts_sum
    else if Qle_bool attempts_sum 0 then Some 0%Q
    else if metric =? "success_rate"
    then Some (or_zero (Agg.weighted_success_sum row) / attempts_sum)%Q
    else if metric =? "first_attempt_success_rate"
    then
      let first_attempt_count_sum := or_zero (Agg.first_attempt_count_sum row) in
      if Qle_bool first_attempt_count_sum 0 then Some 0%Q
      else Some (or_zero (Agg.weighted_first_attempt_success_sum row)
                 / first_attempt_count_sum)%Q
    else Some (or_zero (Agg.weighted_repeat_sum row) / attempts_sum)%Q.

(** An element of [per_objective[objective_id]["activities"]]. *)
Record entry : Type := {
  e_activity_id : string;
  e_activity_label : string;
  e_metric_value : Q
}.

Definition per_objective_t : Type := list (string * (string * list entry)).

(** [row.get(key) or labels.get(identifier)] *)
Definition label_or (label : option string) (summary_label : option string) : pyobj :=
  or_else (Loaders.of_utf8 label) (Loaders.of_utf8 summary_label).

(** [str(v or "").strip()] for a nullable string. *)
Definition stripped (v : option string) : string :=
  strip (str (or_else (Loaders.of_utf8 v) (PyStr ""))).

(** Lines 458-512: one row of [aggregated]. *)
Definition add_row (metric : string) (maps : summary_maps) (per_objective : per_objective_t)
           (row : Agg.t) : per_objective_t :=
  let objective_id := stripped (Agg.objective_id row) in
  let activity_id := stripped (Agg.activity_id row) in
  if is_empty objective_id || is_empty activity_id then per_objective
  else
    let objective_label :=
      _safe_label (label_or (Agg.objective_label row)
                            (dict_get (objective_label_map maps) objective_id))
                  (PyStr objective_id) in
    let activity_label :=
      _safe_label (label_or (Agg.activity_label row)
                            (dict_get (activity_label_map maps) activity_id))
                  (PyStr activity_id) in
    match metric_value_of metric row with
    | None => per_objective
    | Some metric_value =>
        let current :=
          match dict_get per_objective objective_id with
          | Some c => c
          | None => (objective_label, [])
          end in
        dict_set per_objective objective_id
          (fst current,
           snd current ++ [ {| e_activity_id := activity_id;
                               e_activity_label := activity_label;
                               e_metric_value := metric_value |} ])
    end.

(** Lines 517-530 *)
Definition ordered_objectives (maps : summary_maps) (per_objective : per_objective_t)
  : list string :=
  let ordered_summary_objectives :=
    filter (fun objective_id => dict_mem per_objective objective_id)
           (map fst (sorted (fun item : string * Z => snd item) Z.ltb
                            (objective_order_map maps))) in
  let fallback_objectives :=
    sorted (fun objective_id =>
              (lower (match dict_get per_objective objective_id with
                      | Some c => fst c | None => "" end),
               objective_id))
           key2_ltb
           (filter (fun objective_id => negb (dict_mem (objective_order_map maps) objective_id))
                   (keys per_objective)) in
  ordered_summary_objectives ++ fallback_objectives.

(** Lines 532-550: the row labels, with the start of the identifier added
    to a label that several objectives share. *)
Definition objective_base_label_map (per_objective : per_objective_t) (ordered : list string)
  : list (string * string) :=
  fold_left (fun acc objective_id =>
               dict_set acc objective_id
                 (_safe_label (PyStr (match dict_get per_objective objective_id with
                                      | Some c => fst c | None => "" end))
                              (PyStr objective_id)))
            ordered [].

Definition objective_label_counts (base : list (string * string)) : list (string * Z) :=
  fold_left (fun acc base_label =>
               dict_set acc base_label
                 (match dict_get acc base_label with Some n => n | None => 0 end + 1)%Z)
            (values base) [].

Definition objective_row_label_map (base : list (string * string)) : list (string * string) :=
  let counts := objective_label_counts base in
  map (fun item : string * string =>
         let (objective_id, base_label) := item in
         (objective_id,
          if (match dict_get counts base_label with Some n => n | None => 0 end <=? 1)%Z
          then base_label
          else fstring [base_label; " ("; substring 0 8 objective_id; ")"]))
      base.

(** Lines 554-569: the activities of one objective, in column order. *)
Definition ordered_activities (maps : summary_maps) (objective_id : string)
           (activity_rows : list entry) : list entry :=
  let activity_order_map :=
    match dict_get (objective_activity_order_map maps) objective_id with
    | Some m => m
    | None => []
    end in
  let in_summary_activities :=
    filter (fun row => dict_mem activity_order_map (e_activity_id row))
           (sorted (fun row => match dict_get activity_order_map (e_activity_id row) with
                               | Some i => i
                               | None => (10 ^ 9)%Z
                               end)
                   Z.ltb activity_rows) in
  let fallback_activities :=
    sorted (fun row => (lower (e_activity_label row), e_activity_id row)) key2_ltb
           (filter (fun row => negb (dict_mem activity_order_map (e_activity_id row)))
                   activity_rows) in
  in_summary_activities ++ fallback_activities.

(** Lines 552-589 *)
Definition records_of (metric module_code : string) (maps : summary_maps)
           (per_objective : per_objective_t) : list Cell.t :=
  let ordered := ordered_objectives maps per_objective in
  let base := objective_base_label_map per_objective ordered in
  let row_labels := objective_row_label_map base in
  flat_map
    (fun objective_id =>
       let activity_rows :=
         match dict_get per_objective objective_id with
         | Some c => snd c
         | None => []
         end in
       map (fun item : Z * entry =>
              let (idx, activity_row) := item in
              Cell.mk (Some module_code) (Some objective_id)
                      (dict_get base objective_id)
                      (dict_get row_labels objective_id)
                      (Some (e_activity_id activity_row))
                      (Some (_safe_label (PyStr (e_activity_label activity_row))
                                         (PyStr (e_activity_id activity_row))))
                      (Some idx)
                      (Some (fstring ["A"; str_of_Z idx]))
                      (Some (e_metric_value activity_row))
                      (Some (format_cell_value metric (Some (e_metric_value activity_row)))))
           (enumerate_from 1%Z (ordered_activities maps objective_id activity_rows)))
    ordered.

(** Lines 283-446: the rows of [aggregated] for the metric. *)
Definition aggregate (metric module_code : string) (start_date end_date : Z)
           (filtered : list Src.t)
           (agg_exercise_daily : option (frame Src.t))
           (fact_attempt_core : option (frame Derive.Fact.t)) : result (list Agg.t) :=
  if metric =? "exercise_balanced_success_rate" then
    match agg_exercise_daily with
    | None => Raise ValueError
    | Some exercise_frame =>
        _ <- _assert_required_columns exercise_frame
               ["date_utc"; "module_code"; "objective_id"; "activity_id"; "exercise_id";
                "attempts"; "success_rate"] ;;
        Ok (balanced_rows
              (filter (src_in_window module_code start_date end_date)
                      (with_default_columns exercise_frame)))
    end
  else if metric =? "playlist_unique_exercises" then
    match fact_attempt_core with
    | None => Raise ValueError
    | Some fact =>
        _ <- _assert_required_columns fact
               ["date_utc"; "module_code"; "objective_id"; "activity_id"; "exercise_id";
                "work_mode"] ;;
        Ok (playlist_rows module_code start_date end_date fact)
    end
  else Ok (map weighted_row (Pl.group_by pair_eqb cell_key filtered)).

Definition build_objective_activity_cells
           (agg_activity_daily : frame Src.t) (module_code : string)
           (start_date end_date : Z) (metric : string)
           (summary_payload : list (string * pyobj))
           (agg_exercise_daily : option (frame Src.t))
           (fact_attempt_core : option (frame Derive.Fact.t)) : result (list Cell.t) :=
  if negb (mem metric VALID_MATRIX_METRICS) then Raise ValueError
  else
    _ <- _assert_required_columns agg_activity_daily
           ["date_utc"; "module_code"; "objective_id"; "activity_id"; "attempts";
            "success_rate"; "repeat_attempt_rate"] ;;
    _ <- (if metric =? "first_attempt_success_rate"
          then _assert_required_columns agg_activity_daily
                 ["first_attempt_success_rate"; "first_attempt_count"]
          else Ok tt) ;;
    let filtered :=
      filter (src_in_window module_code start_date end_date)
             (with_default_columns agg_activity_daily) in
    match filtered with
    | [] => Ok []
    | _ =>
        aggregated <- aggregate metric module_code start_date end_date filtered
                                agg_exercise_daily fact_attempt_core ;;
        match aggregated with
        | [] => Ok []
        | _ =>
            maps <- _summary_maps summary_payload module_code ;;
            Ok (records_of metric module_code maps
                           (fold_left (add_row metric maps) aggregated []))
        end
    end.

(** ** The ragged payload *)

Record payload : Type := {
  x_labels : list string;
  y_labels : list string;
  z_values : list (list (option Q));
  text_values : list (list string);
  customdata : list (list (list string));
  objective_ids : list string;
  max_activity_cols : Z
}.

Fixpoint replace_nth {A : Type} (n : nat) (v : A) (l : list A) : list A :=
  match l, n with
  | [], _ => []
  | _ :: rest, O => v :: rest
  | x :: rest, S m => x :: replace_nth m v rest
  end.

(** [l[i] = v]: a negative index counts from the end, and an index outside
    the list raises. *)
Definition list_set {A : Type} (l : list A) (i : Z) (v : A) : result (list A) :=
  let n := Z.of_nat (List.length l) in
  let j := if (i <? 0)%Z then (i + n)%Z else i in
  if (0 <=? j)%Z && (j <? n)%Z then Ok (replace_nth (Z.to_nat j) v l)
  else Raise IndexError.

(** [grid[r][c] = v] *)
Definition grid_set {A : Type} (grid : list (list A)) (r : nat) (c : Z) (v : A)
  : result (list (list A)) :=
  match nth_error grid r with
  | Some line => line' <- list_set line c v ;; Ok (replace_nth r line' grid)
  | None => Raise IndexError
  end.

(** [str(v)] for a nullable string: a null prints as [None]. *)
Definition str_of (v : option string) : string := str (Loaders.of_utf8 v).

(** [int(v)] for a nullable integer. *)
Definition int_of (v : option Z) : result Z :=
  match v with Some n => Ok n | None => Raise TypeError end.

Fixpoint index_of (x : string) (l : list string) : option nat :=
  match l with
  | [] => None
  | y :: rest =>
      if y =? x then Some O
      else match index_of x rest with Some i => Some (S i) | None => None end
  end.

(** Lines 627-638: the objectives in order of appearance, their labels, and
    the largest column index. *)
Definition scan_rows (rows : list Cell.t) : result (list string * list string * Z) :=
  for_each
    (fun (st : list string * list string * Z) (row : Cell.t) =>
       let '(objective_ids, objective_labels, max_activity_cols) := st in
       let objective_id := str_of (Cell.objective_id row) in
       let st1 :=
         if mem objective_id objective_ids then (objective_ids, objective_labels)
         else (objective_ids ++ [objective_id],
               objective_labels ++ [str_of (Cell.objective_row_label row)]) in
       idx <- int_of (Cell.activity_col_idx row) ;;
       Ok (fst st1, snd st1, Z.max max_activity_cols idx))
    rows ([], [], 0%Z).

Definition text_or_empty (v : option string) : string :=
  str (or_else (Loaders.of_utf8 v) (PyStr "")).

Definition text_or2 (a b : option string) : string :=
  str (or_else (or_else (Loaders.of_utf8 a) (Loaders.of_utf8 b)) (PyStr "")).

(** Lines 652-667: one cell written into the three grids. *)
Definition place_row (objective_ids : list string)
           (st : list (list (option Q)) * list (list string) * list (list (list string)))
           (row : Cell.t)
  : result (list (list (option Q)) * list (list string) * list (list (list string))) :=
  let '(z, text, custom) := st in
  match index_of (str_of (Cell.objective_id row)) objective_ids with
  | None => Raise IndexError
  | Some row_idx =>
      idx <- int_of (Cell.activity_col_idx row) ;;
      let col_idx := (idx - 1)%Z in
      z1 <- grid_set z row_idx col_idx (Cell.metric_value row) ;;
      text1 <- grid_set text row_idx col_idx (text_or_empty (Cell.metric_text row)) ;;
      custom1 <- grid_set custom row_idx col_idx
                   [text_or2 (Cell.objective_label row) (Cell.objective_id row);
                    text_or_empty (Cell.objective_id row);
                    text_or2 (Cell.activity_label row) (Cell.activity_id row);
                    text_or_empty (Cell.activity_id row);
                    text_or_empty (Cell.activity_col_label row);
                    text_or_empty (Cell.metric_text row)] ;;
      Ok (z1, text1, custom1)
  end.

Definition build_ragged_matrix_payload (cells_df : frame Cell.t) : result payload :=
  match rows cells_df with
  | [] =>
      Ok {| x_labels := []; y_labels := []; z_values := []; text_values := [];
            customdata := []; objective_ids := []; max_activity_cols := 0 |}
  | cell_rows =>
      _ <- _assert_required_columns cells_df
             ["objective_id"; "objective_row_label"; "objective_label"; "activity_id";
              "activity_label"; "activity_col_idx"; "activity_col_label";
              "metric_value"; "metric_text"] ;;
      scanned <- scan_rows cell_rows ;;
      let '(objective_ids, objective_labels, max_activity_cols) := scanned in
      let width := Z.to_nat max_activity_cols in
      let height := List.length objective_ids in
      grids <- for_each (place_row objective_ids) cell_rows
                 (repeat (repeat None width) height,
                  repeat (repeat "" width) height,
                  repeat (repeat [""; ""; ""; ""; ""; ""] width) height) ;;
      let '(z, text, custom) := grids in
      Ok {| x_labels := map (fun idx => fstring ["A"; str_of_Z idx])
                            (map (fun i => Z.of_nat i + 1)%Z (seq 0 width));
            y_labels := objective_labels;
            z_values := z;
            text_values := text;
            customdata := custom;
            objective_ids := objective_ids;
            max_activity_cols := max_activity_cols |}
  end.

End ObjectiveActivityMatrix.

(** * What the specification states *)

Module Spec.
Import Py.

(** A payload none of whose floats is an infinity or NaN. *)
Fixpoint finite_payload (p : pyobj) : bool :=
  match p with
  | PyFloat (Fin _) _ => true
  | PyFloat _ _ => false
  | PyList items => forallb finite_payload items
  | PyDict entries =>
      forallb (fun kv : string * pyobj => let (_, v) := kv in finite_payload v) entries
  | _ => true
  end.

(** The rule payload flags its node open: a number of magnitude below one,
    text that cleans to ["0"], or a list or dictionary one of whose
    elements or values does. *)
Fixpoint init_open_spec (p : pyobj) : bool :=
  match p with
  | PyList items => existsb init_open_spec items
  | PyDict entries =>
      existsb (fun kv : string * pyobj => let (_, v) := kv in init_open_spec v) entries
  | PyBool b => Pl.qltb (Qabs (if b then 1 else 0)) 1
  | PyInt z => Pl.qltb (Qabs (inject_Z z)) 1
  | PyFloat (Fin q) _ => Pl.qltb (Qabs q) 1
  | PyFloat _ _ => false
  | PyStr s => ZpdesDependencies._clean_str (PyStr s) =? "0"
  | PyNone => false
  end.

(** The shape class of a code: 0 for an activity code [M<n>O<n>A<n>], 1 for
    an objective code [M<n>O<n>], 2 for a module code [M<n>], 3 otherwise. *)
Definition shape_class (code : string) : Z :=
  if Re.is_some (Re.match_activity code) then 0%Z
  else if Re.is_some (Re.match_objective code) then 1%Z
  else if Re.match_module code then 2%Z
  else 3%Z.

(** [c] is preferred to [c']: a higher shape class; in the same class, a
    longer code; at the same length, the smaller code in the order of
    strings. *)
Definition preferred_over (c c' : string) : Prop :=
  (shape_class c < shape_class c')%Z
  \/ (shape_class c = shape_class c' /\ (String.length c' < String.length c)%nat)
  \/ (shape_class c = shape_class c' /\ String.length c = String.length c'
      /\ (c <=? c') = true).

(** No element of the list is below its head. *)
Definition head_least {A K : Type} (key : A -> K) (lt : K -> K -> bool) (l : list A)
  : Prop :=
  match l with
  | [] => True
  | m :: _ => forall y, In y l -> lt (key y) (key m) = false
  end.

(** The codes [_rules_id_code_frame] chooses among (derive.py, lines 162-166). *)
Definition candidate_codes (raw_codes : list pyobj) : list string :=
  flat_map (fun code => match Loaders.nonblank_str code with
                        | Some s => [strip s]
                        | None => []
                        end) raw_codes.

(** A nullable number holds the value [q]. *)
Definition is_value (v : option Q) (q : Q) : Prop :=
  match v with Some x => (x == q)%Q | None => False end.

(** [attempt_number == 1] *)
Definition attempt_number_is_1 (r : Derive.Fact.t) : bool :=
  Pl.opt_eqb Z.eqb (Derive.Fact.attempt_number r) (Some 1%Z).

(** The grouping key an aggregate row carries. *)
Definition key_of_row (row : Derive.ActivityDaily.t) : Derive.activity_key :=
  {| Derive.k_date_utc := Derive.ActivityDaily.date_utc row;
     Derive.k_activity_id := Derive.ActivityDaily.activity_id row;
     Derive.k_activity_label := Derive.ActivityDaily.activity_label row;
     Derive.k_objective_id := Derive.ActivityDaily.objective_id row;
     Derive.k_objective_label := Derive.ActivityDaily.objective_label row;
     Derive.k_module_id := Derive.ActivityDaily.module_id row;
     Derive.k_module_code := Derive.ActivityDaily.module_code row;
     Derive.k_module_label := Derive.ActivityDaily.module_label row |}.

(** The fact rows an aggregate row stands for. *)
Definition group_of (fact : list Derive.Fact.t) (row : Derive.ActivityDaily.t)
  : list Derive.Fact.t :=
  filter (fun r => Derive.activity_key_eqb (key_of_row row) (Derive.activity_key_of r)) fact.

(** One attempt on activity [a1], on 2025-01-01. *)
Definition attempt (user : string) (correct : bool) (number : Z) : Derive.Fact.t :=
  Derive.Fact.mk
    (Some 1735725600000000%Z) (Some 20089%Z) (Some user) (Some "t1") (Some "c1")
    (Some "p1") (Some "o1") (Some "o1") (Some "Objective 1") (Some "a1")
    (Some "Activity 1") (Some "e1") None (Some correct) (Some 10%Q) (Some 10%Q)
    (Some "playlist") (Some number) (Some number) None
    (Some "m1") (Some "M1") (Some "Module 1") "catalog_activity" None.

(** Student A fails, then succeeds; student B succeeds at once. *)
Definition two_students : list Derive.Fact.t :=
  [attempt "A" false 1; attempt "A" true 2; attempt "B" true 1].

(** The text a cell shows for an identifier of its source rows: the
    identifier without the whitespace around it, nothing for a null. *)
Definition id_text (v : option string) : string :=
  match v with Some s => strip s | None => "" end.

(** The row belongs to the module and its date lies between the two dates,
    both included; a row without module code or without date does not. *)
Definition inside (module_code : string) (start_date end_date : Z)
           (r : ObjectiveActivityMatrix.Src.t) : bool :=
  Pl.str_eqb (ObjectiveActivityMatrix.Src.module_code r) (Some module_code)
  && match ObjectiveActivityMatrix.Src.date_utc r with
     | Some day => (start_date <=? day)%Z && (day <=? end_date)%Z
     | None => false
     end.

(** The source rows of a frame inside the module and date window, as the
    frame holds them. *)
Definition window (f : ObjectiveActivityMatrix.frame ObjectiveActivityMatrix.Src.t)
           (module_code : string) (start_date end_date : Z)
  : list ObjectiveActivityMatrix.Src.t :=
  filter (inside module_code start_date end_date) (ObjectiveActivityMatrix.rows f).

(** The row has the objective and the activity (a null matching a null). *)
Definition same_cell (o a : option string) (r : ObjectiveActivityMatrix.Src.t) : bool :=
  Pl.str_eqb o (ObjectiveActivityMatrix.Src.objective_id r)
  && Pl.str_eqb a (ObjectiveActivityMatrix.Src.activity_id r).

(** The source rows of one (objective, activity) cell. *)
Definition rows_of_cell (rows : list ObjectiveActivityMatrix.Src.t) (o a : option string)
  : list ObjectiveActivityMatrix.Src.t :=
  filter (same_cell o a) rows.

(** The (objective, activity, exercise) of a row. *)
Definition exercise_of (r : ObjectiveActivityMatrix.Src.t)
  : option string * option string * option string :=
  (ObjectiveActivityMatrix.Src.objective_id r, ObjectiveActivityMatrix.Src.activity_id r,
   ObjectiveActivityMatrix.Src.exercise_id r).

Definition same_exercise (k k' : option string * option string * option string) : bool :=
  Pl.str_eqb (fst (fst k)) (fst (fst k'))
  && Pl.str_eqb (snd (fst k)) (snd (fst k'))
  && Pl.str_eqb (snd k) (snd k').

(** [sum(weight_i)] *)
Definition total (weight : ObjectiveActivityMatrix.Src.t -> option Q)
           (g : list ObjectiveActivityMatrix.Src.t) : Q :=
  Pl.sum (map weight g).

(** [sum(rate_i * weight_i)] *)
Definition weighted_total (rate weight : ObjectiveActivityMatrix.Src.t -> option Q)
           (g : list ObjectiveActivityMatrix.Src.t) : Q :=
  Pl.sum (map (fun r => Pl.mul (rate r) (weight r)) g).

(** The exercises seen in the rows of one (objective, activity) cell. *)
Definition exercises_of (rows : list ObjectiveActivityMatrix.Src.t) (o a : option string)
  : list (option string * option string * option string) :=
  filter (fun k => Pl.str_eqb o (fst (fst k)) && Pl.str_eqb a (snd (fst k)))
         (Pl.distinct_by same_exercise (map exercise_of rows)).

(** The source rows of one (objective, activity, exercise). *)
Definition rows_of_exercise (rows : list ObjectiveActivityMatrix.Src.t)
           (k : option string * option string * option string)
  : list ObjectiveActivityMatrix.Src.t :=
  filter (fun r => same_exercise k (exercise_of r)) rows.

(** The attempts-weighted success rate of the rows of one exercise; null
    when they hold no attempt. *)
Definition exercise_rate (g : list ObjectiveActivityMatrix.Src.t) : option Q :=
  if Pl.qltb 0 (total ObjectiveActivityMatrix.Src.attempts g)
  then Some (weighted_total ObjectiveActivityMatrix.Src.success_rate
                            ObjectiveActivityMatrix.Src.attempts g
             / total ObjectiveActivityMatrix.Src.attempts g)%Q
  else None.

(** The per-exercise rates of one cell that are not null. *)
Definition exercise_rates (rows : list ObjectiveActivityMatrix.Src.t) (o a : option string)
  : list Q :=
  Pl.drop_nulls (map (fun k => exercise_rate (rows_of_exercise rows k))
                     (exercises_of rows o a)).

(** The fixtures of tests/test_objective_activity_matrix.py.  Dates are
    days since the epoch: 2025-01-01 is day 20089. *)
Definition title (s : string) : pyobj := PyDict [("short", PyStr s); ("long", PyStr s)].

Definition summary_payload : list (string * pyobj) :=
  [("modules",
    PyList [PyDict [("id", PyStr "m1"); ("code", PyStr "M1"); ("title", title "Module 1");
                    ("objectiveIds", PyList [PyStr "o2"; PyStr "o1"])]]);
   ("objectives",
    PyList [PyDict [("id", PyStr "o1"); ("title", title "Objective One");
                    ("activityIds", PyList [PyStr "a1"])];
            PyDict [("id", PyStr "o2"); ("title", title "Objective Two");
                    ("activityIds", PyList [PyStr "a3"; PyStr "a2"])]]);
   ("activities",
    PyList [PyDict [("id", PyStr "a1"); ("title", title "Activity One")];
            PyDict [("id", PyStr "a2"); ("title", title "Activity Two")];
            PyDict [("id", PyStr "a3"); ("title", title "Activity Three")]])].

Definition daily (day : Z) (module objective objective_label activity activity_label : string)
           (attempts : Z) (success repeat first : Q) (first_count : Z)
  : ObjectiveActivityMatrix.Src.t :=
  ObjectiveActivityMatrix.Src.mk
    (Some day) (Some module) (Some objective) (Some activity) None
    (Some objective_label) (Some activity_label) (Some (inject_Z attempts))
    (Some success) (Some repeat) (Some first) (Some (inject_Z first_count)).

Definition activity_daily_sample : ObjectiveActivityMatrix.frame ObjectiveActivityMatrix.Src.t :=
  {| ObjectiveActivityMatrix.columns :=
       ["date_utc"; "module_code"; "objective_id"; "objective_label"; "activity_id";
        "activity_label"; "attempts"; "success_rate"; "repeat_attempt_rate";
        "first_attempt_success_rate"; "first_attempt_count"; "module_id"; "module_label";
        "unique_students"; "median_duration"; "avg_attempt_number"];
     ObjectiveActivityMatrix.rows :=
       [daily 20089 "M1" "o1" "Objective One" "a1" "Activity One" 10 0.5 0.2 0.6 5;
        daily 20090 "M1" "o1" "Objective One" "a1" "Activity One" 30 0.8 0.1 0.9 10;
        daily 20089 "M1" "o2" "Objective Two" "a2" "Activity Two" 20 0.7 0.3 0.75 8;
        daily 20089 "M1" "o2" "Objective Two" "a3" "Activity Three" 10 0.6 0.4 0.5 4;
        daily 20089 "M1" "oX" "Fallback Objective" "ax2" "Zeta Activity" 5 0.9 0.1 1.0 2;
        daily 20089 "M1" "oX" "Fallback Objective" "ax1" "Beta Activity" 8 0.2 0.8 0.0 3;
        daily 20089 "M2" "o9" "Other objective" "b1" "Other Activity" 999 0.9 0.1 1.0 1] |}.

Definition exercise (day : Z) (module objective objective_label activity activity_label
                     exercise_id : string) (attempts success repeat : Q)
  : ObjectiveActivityMatrix.Src.t :=
  ObjectiveActivityMatrix.Src.mk
    (Some day) (Some module) (Some objective) (Some activity) (Some exercise_id)
    (Some objective_label) (Some activity_label) (Some attempts)
    (Some success) (Some repeat) None None.

Definition exercise_daily_sample : ObjectiveActivityMatrix.frame ObjectiveActivityMatrix.Src.t :=
  {| ObjectiveActivityMatrix.columns :=
       ["date_utc"; "module_code"; "objective_id"; "objective_label"; "activity_id";
        "activity_label"; "exercise_id"; "attempts"; "success_rate"; "repeat_attempt_rate";
        "median_duration"; "avg_attempt_number"];
     ObjectiveActivityMatrix.rows :=
       [exercise 20089 "M1" "o1" "Objective One" "a1" "Activity One" "e1" 10 0.5 0.2;
        exercise 20090 "M1" "o1" "Objective One" "a1" "Activity One" "e1" 30 0.8 0.1;
        exercise 20089 "M1" "o1" "Objective One" "a1" "Activity One" "e2" 2 1.0 0.0;
        exercise 20089 "M1" "o2" "Objective Two" "a2" "Activity Two" "e3" 5 0.4 0.2;
        exercise 20089 "M2" "o9" "Other objective" "b1" "Other Activity" "e9" 100 0.9 0.1] |}.

(** The objective a cell row belongs to, as the payload keys it. *)
Definition objective_of (r : ObjectiveActivityMatrix.Cell.t) : string :=
  ObjectiveActivityMatrix.str_of (ObjectiveActivityMatrix.Cell.objective_id r).

Definition shape {A : Type} (height width : nat) (grid : list (list A)) : Prop :=
  List.length grid = height /\ Forall (fun line => List.length line = width) grid.

Definition cell_at {A : Type} (grid : list (list A)) (i j : nat) : option A :=
  match nth_error grid i with
  | Some line => nth_error line j
  | None => None
  end.

(** Every row carries a column index, from 1 on. *)
Definition one_based (rows : list ObjectiveActivityMatrix.Cell.t) : Prop :=
  forall r, In r rows ->
            exists k, ObjectiveActivityMatrix.Cell.activity_col_idx r = Some k /\ (1 <= k)%Z.

(** The column index of a row, 0 for a null. *)
Definition col_of (r : ObjectiveActivityMatrix.Cell.t) : Z :=
  match ObjectiveActivityMatrix.Cell.activity_col_idx r with Some k => k | None => 0%Z end.

(** The columns [build_ragged_matrix_payload] requires. *)
Definition cell_columns : list string :=
  ["objective_id"; "objective_row_label"; "objective_label"; "activity_id";
   "activity_label"; "activity_col_idx"; "activity_col_label"; "metric_value";
   "metric_text"].

(** No row of the table is placed at line [i], column [j]. *)
Definition untargeted (rows : list ObjectiveActivityMatrix.Cell.t) (ids : list string)
           (i j : nat) : Prop :=
  forall r, In r rows -> ObjectiveActivityMatrix.index_of (objective_of r) ids = Some i ->
            ObjectiveActivityMatrix.Cell.activity_col_idx r = Some (Z.of_nat j + 1)%Z -> False.

(** A module whose objectives have two and four activities. *)
Definition ragged_catalog : list (string * pyobj) :=
  [("modules",
    PyList [PyDict [("id", PyStr "m1"); ("code", PyStr "M1"); ("title", title "Module 1");
                    ("objectives",
                     PyList [PyDict [("id", PyStr "o1"); ("code", PyStr "M1O1");
                                     ("title", title "Objective One");
                                     ("activities",
                                      PyList [PyDict [("id", PyStr "a1"); ("title", title "A one")];
                                              PyDict [("id", PyStr "a2"); ("title", title "A two")]])];
                             PyDict [("id", PyStr "o2"); ("code", PyStr "M1O2");
                                     ("title", title "Objective Two");
                                     ("activities",
                                      PyList [PyDict [("id", PyStr "b1"); ("title", title "B one")];
                                              PyDict [("id", PyStr "b2"); ("title", title "B two")];
                                              PyDict [("id", PyStr "b3"); ("title", title "B three")];
                                              PyDict [("id", PyStr "b4"); ("title", title "B four")]])]])]])].

Definition ragged_daily : ObjectiveActivityMatrix.frame ObjectiveActivityMatrix.Src.t :=
  {| ObjectiveActivityMatrix.columns :=
       ["date_utc"; "module_code"; "objective_id"; "objective_label"; "activity_id";
        "activity_label"; "attempts"; "success_rate"; "repeat_attempt_rate"];
     ObjectiveActivityMatrix.rows :=
             [daily 20089 "M1" "o1" "Objective One" "a1" "A one" 3 0.5 0.2 0 0;
              daily 20089 "M1" "o1" "Objective One" "a2" "A two" 0 0 0 0 0;
              daily 20089 "M1" "o2" "Objective Two" "b1" "B one" 4 0.5 0.2 0 0;
              daily 20089 "M1" "o2" "Objective Two" "b2" "B two" 5 0.5 0.2 0 0;
              daily 20089 "M1" "o2" "Objective Two" "b3" "B three" 6 0.5 0.2 0 0;
              daily 20089 "M1" "o2" "Objective Two" "b4" "B four" 7 0.5 0.2 0 0] |}.

Definition all_cell_columns : list string :=
  ["module_code"; "objective_id"; "objective_label"; "objective_row_label"; "activity_id";
   "activity_label"; "activity_col_idx"; "activity_col_label"; "metric_value"; "metric_text"].

(** An entry of the per-objective table comes from a row of the aggregate. *)
Definition entry_from (metric : string) (aggregated : list ObjectiveActivityMatrix.Agg.t)
           (oid : string) (e : ObjectiveActivityMatrix.entry) : Prop :=
  exists row, In row aggregated
              /\ oid = ObjectiveActivityMatrix.stripped (ObjectiveActivityMatrix.Agg.objective_id row)
              /\ ObjectiveActivityMatrix.e_activity_id e
                 = ObjectiveActivityMatrix.stripped (ObjectiveActivityMatrix.Agg.activity_id row)
              /\ ObjectiveActivityMatrix.metric_value_of metric row
                 = Some (ObjectiveActivityMatrix.e_metric_value e).

Section DependencyGraph.
Import ZpdesDependencies.

(** [c] is the code at one end of the edge. *)
Definition endpoint (e : Edge.t) (c : string) : Prop :=
  c = Edge.from_node_code e \/ c = Edge.to_node_code e.

(** Some activation edge points at [c]. *)
Definition activation_target (edges : list Edge.t) (c : string) : Prop :=
  exists e, In e edges /\ Edge.edge_type e = "activation" /\ Edge.to_node_code e = c.

Definition nodes_with_code (c : string) (nodes : list Node.t) : list Node.t :=
  filter (fun n => Node.node_code n =? c) nodes.

(** The codes ghost synthesis makes a node for. *)
Definition ghost_shaped (c : string) : bool :=
  is_objective_or_activity (_node_type_from_code_strict c).

(** The node map is keyed by the codes of its nodes, each key once. *)
Definition keyed (m : node_map_t) : Prop :=
  NoDup (keys m) /\ forall k n, In (k, n) m -> Node.node_code n = k.

Definition no_ghost (m : node_map_t) : Prop :=
  forall k n, In (k, n) m -> Node.is_ghost n = false.

(** Edges are stored with cleaned endpoints and one of the two types. *)
Definition clean_edge (e : Edge.t) : Prop :=
  _clean_str (PyStr (Edge.from_node_code e)) = Edge.from_node_code e
  /\ _clean_str (PyStr (Edge.to_node_code e)) = Edge.to_node_code e
  /\ (Edge.edge_type e = "activation" \/ Edge.edge_type e = "deactivation").

Definition clean_edges (st : edge_state) : Prop :=
  forall e, In e (edges st) -> clean_edge e.

(** A node map before ghost synthesis. *)
Definition real_map (m : node_map_t) : Prop := keyed m /\ no_ghost m.

(** Rules whose one node names three sources: an objective the catalog
    does not have, the module itself, and a code without shape. *)
Definition dependency_catalog : list (string * pyobj) :=
  [("meta", PyDict []);
   ("id_label_index",
    PyDict [("o2", PyDict [("type", PyStr "objective"); ("short_title", PyStr "Obj 2")])]);
   ("modules",
    PyList [PyDict [("id", PyStr "m1"); ("code", PyStr "M1"); ("title", title "Module 1");
                    ("objectives",
                     PyList [PyDict [("id", PyStr "o1"); ("code", PyStr "M1O1");
                                     ("title", title "Objective 1");
                                     ("activities",
                                      PyList [PyDict [("id", PyStr "a1");
                                                      ("code", PyStr "M1O1A1");
                                                      ("title", title "Activity 1")]])]])]]);
   ("exercise_to_hierarchy", PyDict [])].

Definition dependency_rules : list (string * pyobj) :=
  [("meta", PyDict []);
   ("module_rules",
    PyList [PyDict [("module_code", PyStr "M1");
                    ("map_id_code",
                     PyDict [("M1", PyStr "m1"); ("M1O1", PyStr "o1"); ("M1O2", PyStr "o2");
                             ("M1O1A1", PyStr "a1"); ("X9", PyStr "x9")]);
                    ("node_rules",
                     PyList [PyDict [("id", PyStr "o1"); ("code", PyStr "M1O1");
                                     ("type", PyStr "objective");
                                     ("rules",
                                      PyDict [("init_ssb", PyList [PyInt 1]);
                                              ("requirements",
                                               PyList [PyDict [("o1",
                                                                PyDict [("o2", PyDict [("sr", PyFloat (Fin (1#2)) "0.5"); ("lvl", PyInt 1)]);
                                                                        ("m1", PyDict [("sr", PyList [PyStr "0.75"])]);
                                                                        ("x9", PyDict [])])]]);
                                              ("deact_requirements",
                                               PyList [PyDict [("a1",
                                                                PyList [PyDict [("dim", PyStr "o1");
                                                                                ("sr", PyFloat (Fin (9#10)) "0.9")]])]])])]])]]);
   ("map_id_code", PyDict [("code_to_id", PyDict [("M1O2", PyStr "o2")]); ("id_to_codes", PyDict [])]);
   ("links_to_catalog", PyDict []); ("unresolved_links", PyDict [])].

End DependencyGraph.

Section FactTable.
Import Derive.

(** The first tier that has a code, with that code. *)
Fixpoint first_tier (tiers : list (string * option string)) : string * option string :=
  match tiers with
  | [] => ("unmapped", None)
  | (name, Some c) :: _ => (name, Some c)
  | (_, None) :: rest => first_tier rest
  end.

(** The hierarchy row joined on the exercise of an event. *)
Definition exercise_row (src : sources) (ev : Raw.t) : option ExHier.t :=
  match Pl.left_join Raw.exercise_id (fun r => Some (ExHier.exercise_id r))
                     [ev] (exercise_hierarchy src) with
  | (_, r) :: _ => r
  | [] => None
  end.

(** The three tiers of an event, in the order of the fallback. *)
Definition module_code_tiers (src : sources) (ev : Raw.t) (h : option Hier.t)
           (fallback_code_raw : option string) : list (string * option string) :=
  [("catalog_activity", Pl.col Hier.module_code h);
   ("catalog_exercise", Pl.col ExHier.module_code_exercise_summary (exercise_row src ev));
   ("rules_code_fallback", Pl.extract_module fallback_code_raw)].

(** A catalog with one module, objective and activity; the exercise
    [ex-1] is mapped to [activity]. *)
Definition fact_catalog (activity : string) : list (string * pyobj) :=
  [("meta", PyDict []);
   ("id_label_index",
    PyDict [("m1", PyDict [("type", PyStr "module"); ("code", PyStr "M1");
                           ("short_title", PyStr "Module 1");
                           ("long_title", PyStr "Module 1")]);
            ("o1", PyDict [("type", PyStr "objective"); ("code", PyStr "M1O1");
                           ("short_title", PyStr "Objective 1");
                           ("long_title", PyStr "Objective 1")]);
            ("a1", PyDict [("type", PyStr "activity"); ("code", PyStr "M1O1A1");
                           ("short_title", PyStr "Activity 1");
                           ("long_title", PyStr "Activity 1")])]);
   ("modules",
    PyList [PyDict [("id", PyStr "m1"); ("code", PyStr "M1");
                    ("title", title "Module 1");
                    ("objectives",
                     PyList [PyDict [("id", PyStr "o1"); ("code", PyStr "M1O1");
                                     ("title", title "Objective 1");
                                     ("activities",
                                      PyList [PyDict [("id", PyStr "a1");
                                                      ("code", PyStr "M1O1A1");
                                                      ("title", title "Activity 1");
                                                      ("exercise_ids",
                                                       PyList [PyStr "ex-1"])]])]])]]);
   ("exercise_to_hierarchy",
    PyDict [("ex-1", PyDict [("activity_id", PyStr activity);
                             ("objective_id", PyStr "o1");
                             ("module_id", PyStr "m1")])]);
   ("conflicts", PyDict [("coverage", PyDict [])]);
   ("orphans", PyList [])].

Definition fact_rules : list (string * pyobj) :=
  [("meta", PyDict []);
   ("module_rules", PyList []);
   ("map_id_code",
    PyDict [("code_to_id",
             PyDict [("M1", PyStr "m1"); ("M1O1", PyStr "o1"); ("M1O1A1", PyStr "a1")]);
            ("id_to_codes",
             PyDict [("m1", PyList [PyStr "M1"]); ("o1", PyList [PyStr "M1O1"]);
                     ("a1", PyList [PyStr "M1O1A1"])])]);
   ("links_to_catalog", PyDict []);
   ("unresolved_links", PyDict [])].

(** An attempt in a playlist: placeholders for the objective and the
    activity, the exercise [ex-1]. *)
Definition playlist_event (playlist : string) : Raw.t :=
  Raw.mk (Some 1735725600000000%Z) (Some "u1") (Some "t1") (Some "c1")
         (Some playlist) (Some "None") (Some "None") (Some "ex-1") None
         (Some true) (Some 12) (Some 12) (Some "playlist") (Some 1%Z) (Some 1%Z) (Some 1).

End FactTable.

Section DependencyTables.
Import ZpdesDependencies.

(** Every character of the text satisfies [p]. *)
Fixpoint all_chars (p : ascii -> bool) (s : string) : bool :=
  match s with
  | EmptyString => true
  | String c r => p c && all_chars p r
  end.

(** The text does not begin with a character satisfying [p]. *)
Definition not_starting (p : ascii -> bool) (s : string) : bool :=
  match s with
  | EmptyString => true
  | String c _ => negb (p c)
  end.

(** The text does not end with a character satisfying [p]. *)
Fixpoint not_ending (p : ascii -> bool) (s : string) : bool :=
  match s with
  | EmptyString => true
  | String c EmptyString => negb (p c)
  | String _ r => not_ending p r
  end.

(** What every edge of the edge table looks like. *)
Definition edge_ok (mc : string) (e : Edge.t) : Prop :=
  Edge.module_code e = mc
  /\ is_empty (Edge.from_node_code e) = false
  /\ is_empty (Edge.to_node_code e) = false
  /\ ((Edge.edge_type e = "activation" /\ Edge.rule_text e = "requirements")
      \/ (Edge.edge_type e = "deactivation" /\ Edge.rule_text e = "deact_requirements"))
  /\ Edge.threshold_value e = option_map round6 (Edge.enrich_sr e)
  /\ Edge.threshold_type e
     = (if Pl.is_not_null (Edge.threshold_value e) then "success_rate" else "unknown")
  /\ Edge.source_primary e = "rules"
  /\ Edge.source_enrichment e = "rules".

(** [y] is [x] rounded to six decimal places as [round(x, 6)] does it: the
    multiple of [10^-6] nearest to [x], the even one of two that are equally
    near, read back as a float; an infinity and NaN stay as they are. *)
Definition six_places (x y : fval) : Prop :=
  match x with
  | Fin q =>
      exists k : Z,
        (Qabs (q * inject_Z 1000000 - inject_Z k) <= 1 # 2)%Q
        /\ ((Qabs (q * inject_Z 1000000 - inject_Z k) == 1 # 2)%Q -> Z.even k = true)
        /\ y = binary64 (inject_Z k / inject_Z 1000000)
  | other => y = other
  end.

(** The threshold of an edge whose rule gives the success rate [sr]. *)
Definition threshold_of (sr th : option fval) : Prop :=
  match sr, th with
  | None, None => True
  | Some x, Some y => six_places x y
  | _, _ => False
  end.

(** The key edges are deduplicated by, read from an edge. *)
Definition edge_key (e : Edge.t) : dedup_key :=
  (Edge.edge_type e, Edge.from_node_code e, Edge.to_node_code e, Edge.threshold_value e).

(** The identifier of the edge at position [i] (from 0) ends in [i + 1]. *)
Definition numbered (mc : string) (es : list Edge.t) : Prop :=
  forall i e,
    nth_error es i = Some e ->
    Edge.edge_id e
    = fstring [mc; ":"; Edge.edge_type e; ":"; Edge.from_node_code e; "->";
               Edge.to_node_code e; ":"; str_of_Z (Z.of_nat i + 1)].

(** The two thresholds are the same value: both null, or equal numbers.
    NaN is the same as nothing, itself included. *)
Definition same_threshold (a b : option fval) : Prop :=
  match a, b with
  | None, None => True
  | Some (Fin x), Some (Fin y) => (x == y)%Q
  | Some (Inf s), Some (Inf s') => s = s'
  | _, _ => False
  end.

(** The two edges repeat each other: same type, same ends, same threshold. *)
Definition same_edge (e e' : Edge.t) : Prop :=
  Edge.edge_type e = Edge.edge_type e'
  /\ Edge.from_node_code e = Edge.from_node_code e'
  /\ Edge.to_node_code e = Edge.to_node_code e'
  /\ same_threshold (Edge.threshold_value e) (Edge.threshold_value e').

(** Rules whose one node has two deactivation conditions that differ in
    nothing, both with NaN for the success rate. *)
Definition nan_rules : list (string * pyobj) :=
  [("module_rules",
    PyList [PyDict [("module_code", PyStr "M1");
                    ("map_id_code", PyDict [("M1O1", PyStr "o1"); ("M1O1A1", PyStr "a1")]);
                    ("node_rules",
                     PyList [PyDict [("id", PyStr "a1"); ("code", PyStr "M1O1A1");
                                     ("type", PyStr "activity");
                                     ("rules",
                                      PyDict [("deact_requirements",
                                               PyList [PyDict [("a1",
                                                                PyList [PyDict [("dim", PyStr "o1");
                                                                                ("sr", PyFloat NaN "nan")];
                                                                        PyDict [("dim", PyStr "o1");
                                                                                ("sr", PyFloat NaN "nan")]])]])])]])]]);
   ("map_id_code", PyDict [("code_to_id", PyDict []); ("id_to_codes", PyDict [])])].

(** No edge repeats an earlier one. *)
Definition pairwise_distinct (es : list Edge.t) : Prop :=
  forall i j ei ej,
    (i < j)%nat -> nth_error es i = Some ei -> nth_error es j = Some ej ->
    ~ same_edge ej ei.

(** What every node of the node table looks like. *)
Definition node_ok (mc : string) (n : Node.t) : Prop :=
  is_empty (Node.node_code n) = false
  /\ Node.module_code n = mc
  /\ (Node.node_type n = "objective" \/ Node.node_type n = "activity")
  /\ Node.source_enrichment n = "rules"
  /\ (Node.source_primary n = "catalog" \/ Node.source_primary n = "rules")
  /\ (Node.is_ghost n = true -> Node.source_primary n = "rules").

(** Every node of the map satisfies [Q]. *)
Definition all_nodes (Q : Node.t -> Prop) (m : node_map_t) : Prop :=
  forall k n, In (k, n) m -> Q n.

(** The rows of [module_rules]. *)
Definition module_rules_of (rules_payload : list (string * pyobj)) : list pyobj :=
  match get rules_payload "module_rules" with PyList l => l | _ => [] end.

(** The objective codes a selection names. *)
Definition selected_codes (objective_codes : list string) : list string :=
  filter (fun code => negb (is_empty code)) (map strip objective_codes).

(** Some node of the table has the code. *)
Definition has_node (nodes : list Node.t) (c : string) : Prop :=
  exists n, In n nodes /\ Node.node_code n = c.

(** Digits, or digits, a point and digits. *)
Definition number_text (t : string) : Prop :=
  exists ip, ip <> "" /\ all_chars isdigit ip = true
             /\ (t = ip
                 \/ exists fp, fp <> "" /\ all_chars isdigit fp = true
                               /\ t = append ip (String "." fp)).

(** The code of a token: an objective code or an activity code, clean. *)
Definition token_code (c : string) : Prop :=
  _clean_str (PyStr c) = c
  /\ (_node_type_from_code_strict c = "objective"
      \/ _node_type_from_code_strict c = "activity").

(** No token repeats an earlier one. *)
Definition distinct_tokens (tokens : list (string * option fval)) : Prop :=
  forall i j ti tj,
    (i < j)%nat -> nth_error tokens i = Some ti -> nth_error tokens j = Some tj ->
    token_eqb tj ti = false.

(** The codes the edges name at one of their ends and no node of the map
    has. *)
Definition unresolved (edges : list Edge.t) (m : node_map_t) (c : string) : Prop :=
  is_empty c = false /\ dict_mem m c = false /\ exists e, In e edges /\ endpoint e c.

(** The warning of ghost synthesis. *)
Definition ghost_warning (n : nat) : string :=
  fstring ["Created "; str_of_Z (Z.of_nat n);
           " ghost node(s) for unresolved rules references."].

End DependencyTables.

Section Aggregates.
Import Derive.

(** The columns of the event that the fact row repeats, the four
    identifiers apart. *)
Definition carries (raw : Raw.t) (row : Fact.t) : Prop :=
  Fact.created_at row = Raw.created_at raw
  /\ Fact.date_utc row = date_of (Raw.created_at raw)
  /\ Fact.user_id row = Raw.user_id raw
  /\ Fact.teacher_id row = Raw.teacher_id raw
  /\ Fact.classroom_id row = Raw.classroom_id raw
  /\ Fact.playlist_or_module_id row = _normalized_id_expr (Raw.playlist_or_module_id raw)
  /\ Fact.exercise_id row = _normalized_id_expr (Raw.exercise_id raw)
  /\ Fact.module_long_title row = Raw.module_long_title raw
  /\ Fact.data_correct row = Raw.data_correct raw
  /\ Fact.data_duration row = Raw.data_duration raw
  /\ Fact.session_duration row = Raw.session_duration raw
  /\ Fact.work_mode row = Raw.work_mode raw
  /\ Fact.attempt_number row = Raw.attempt_number raw
  /\ Fact.student_attempt_index row = Raw.student_attempt_index raw
  /\ Fact.first_attempt_success_rate row = Raw.first_attempt_success_rate raw.

(** The events read: all of them, or the first [sample_rows]. *)
Definition events_read (events : list Raw.t) (sample_rows : option nat) : list Raw.t :=
  match sample_rows with Some n => firstn n events | None => events end.

(** The sum of an integer column. *)
Definition zsum (l : list Z) : Z := fold_right Z.add 0%Z l.

(** A rate, when there is one, lies between 0 and 1. *)
Definition is_rate (v : option Q) : Prop :=
  match v with Some q => (0 <= q <= 1)%Q | None => True end.

(** The sort key of a row of the activity-daily aggregate. *)
Definition daily_key (r : ActivityDaily.t) : option Z * Z :=
  (ActivityDaily.date_utc r, ActivityDaily.attempts r).

(** [b] does not come before [a] in the order of the daily tables: its
    date is not earlier (a null date being the earliest), and on the same
    date it has no more attempts. *)
Definition not_before (a b : option Z * Z) : Prop :=
  match fst a, fst b with
  | None, None => (snd b <= snd a)%Z
  | None, Some _ => True
  | Some _, None => False
  | Some x, Some y => (x < y)%Z \/ (x = y /\ snd b <= snd a)%Z
  end.

(** The grouping key a row of the playlist usage table carries. *)
Definition usage_key_of_row (row : PlaylistUsage.t) : playlist_key :=
  {| pk_playlist_or_module_id := PlaylistUsage.playlist_or_module_id row;
     pk_module_id := PlaylistUsage.module_id row;
     pk_module_code := PlaylistUsage.module_code row;
     pk_module_label := PlaylistUsage.module_label row |}.

(** No attempt of the playlist is mapped to a module. *)
Definition playlist_unmapped (fact : list Fact.t) (playlist : option string) : Prop :=
  forall r, In r fact -> Fact.playlist_or_module_id r = playlist -> Fact.module_code r = None.

(** The attempts the playlist usage table counts: all of them, the
    unmapped attempts of a playlist that has a mapped one apart. *)
Definition counted_attempts (fact : list Fact.t) : list Fact.t :=
  filter (fun r => Pl.is_not_null (Fact.module_code r)
                   || forallb (fun r' => negb (Pl.str_eqb (Fact.playlist_or_module_id r)
                                                          (Fact.playlist_or_module_id r'))
                                         || Pl.is_null (Fact.module_code r'))
                              fact)
         fact.

(** The work modes of the attempts a row stands for. *)
Definition modes_of (fact : list Fact.t) (row : PlaylistUsage.t) : list string :=
  Pl.drop_nulls
    (map Fact.work_mode
         (filter (fun r => playlist_key_eqb (usage_key_of_row row) (playlist_key_of r))
                 (counted_attempts fact))).

(** The rows of the module-activity usage table with a module code. *)
Definition module_rows (out : list ModuleActivityUsage.t) (code : option string)
  : list ModuleActivityUsage.t :=
  filter (fun row => Pl.str_eqb code (ModuleActivityUsage.module_code row)) out.

End Aggregates.

Section CellTables.
Import ObjectiveActivityMatrix.

(** The frame has every column of the list. *)
Definition has_columns {R : Type} (f : frame R) (required : list string) : Prop :=
  forall column, In column required -> In column (columns f).

(** The columns [build_objective_activity_cells] requires of
    [agg_activity_daily] for a metric. *)
Definition matrix_columns (metric : string) : list string :=
  ["date_utc"; "module_code"; "objective_id"; "activity_id"; "attempts";
   "success_rate"; "repeat_attempt_rate"]
  ++ (if metric =? "first_attempt_success_rate"
      then ["first_attempt_success_rate"; "first_attempt_count"]
      else []).

End CellTables.

End Spec.

(** * Properties *)

Import Py.

(** ** Results and loops *)

Lemma bind_ok {A B : Type} (c : result A) (k : A -> result B) (b : B) :
  bind c k = Ok b -> exists a, c = Ok a /\ k a = Ok b.
Proof.
  destruct c as [a|e]; simpl; intros H; [exists a; auto | discriminate].
Qed.

Lemma for_each_invariant {A S : Type} (P : S -> Prop) (body : S -> A -> result S)
      (xs : list A) :
  forall st st',
    P st ->
    (forall s x s', In x xs -> P s -> body s x = Ok s' -> P s') ->
    for_each body xs st = Ok st' -> P st'.
Proof.
  induction xs as [|x xs IH]; simpl; intros st st' Hst Hstep Hrun.
  - now inversion Hrun; subst.
  - apply bind_ok in Hrun as (s1 & Hbody & Hrest).
    eapply IH; [ | | exact Hrest].
    + eapply Hstep; eauto.
    + intros s y s' Hy. apply Hstep. now right.
Qed.

Lemma fold_left_invariant {A S : Type} (P : S -> Prop) (f : S -> A -> S) (xs : list A) :
  forall st,
    P st ->
    (forall s x, In x xs -> P s -> P (f s x)) ->
    P (fold_left f xs st).
Proof.
  induction xs as [|x xs IH]; simpl; intros st Hst Hstep; [exact Hst|].
  apply IH; [apply Hstep; auto | intros s y Hy; apply Hstep; auto].
Qed.

(** ** Sorting *)

Section SortingFacts.
Context {A K : Type} (key : A -> K) (lt : K -> K -> bool).

Lemma insert_sorted_In (x y : A) (l : list A) :
  In y (insert_sorted key lt x l) <-> y = x \/ In y l.
Proof.
  induction l as [|z l IH]; simpl.
  - intuition.
  - destruct (lt (key x) (key z)); simpl; rewrite ?IH; intuition.
Qed.

Lemma sorted_In (y : A) (l : list A) : In y (sorted key lt l) <-> In y l.
Proof.
  unfold sorted.
  assert (G : forall acc, In y (fold_left (fun a x => insert_sorted key lt x a) l acc)
                          <-> In y l \/ In y acc).
  { induction l as [|x l IH]; simpl; intros acc.
    - intuition.
    - rewrite IH, insert_sorted_In. intuition. }
  rewrite G. simpl. intuition.
Qed.

Hypothesis lt_trans : forall a b c, lt a b = true -> lt b c = true -> lt a c = true.

Let head_least := Spec.head_least key lt.

Lemma insert_sorted_head_least (x : A) (l : list A) :
  lt (key x) (key x) = false ->
  head_least l -> head_least (insert_sorted key lt x l).
Proof.
  unfold head_least, Spec.head_least.
  destruct l as [|m l]; simpl; intros Hirr Hl.
  - intros y [->|[]]. exact Hirr.
  - destruct (lt (key x) (key m)) eqn:E; simpl.
    + intros y [->|Hy]; [exact Hirr|].
      destruct (lt (key y) (key x)) eqn:E2; auto.
      rewrite <- (Hl y Hy). symmetry. eapply lt_trans; eauto.
    + intros y [->|Hy]; [apply Hl; now left|].
      apply insert_sorted_In in Hy as [->|Hy]; [exact E|].
      apply Hl. now right.
Qed.

Lemma sorted_head_least (l : list A) :
  (forall x, In x l -> lt (key x) (key x) = false) ->
  head_least (sorted key lt l).
Proof.
  unfold sorted. intros Hirr.
  apply fold_left_invariant with (P := head_least); [exact I|].
  intros s x Hx Hs. apply insert_sorted_head_least; auto.
Qed.

End SortingFacts.

Lemma sorted_ext {A K : Type} (key1 key2 : A -> K) (lt : K -> K -> bool) (l : list A) :
  (forall x, key1 x = key2 x) -> sorted key1 lt l = sorted key2 lt l.
Proof.
  intros Hk. unfold sorted. generalize (@nil A) as acc.
  induction l as [|x l IH]; simpl; intros acc; [reflexivity|].
  rewrite IH. f_equal.
  induction acc as [|y acc IHacc]; simpl; [reflexivity|].
  now rewrite !Hk, IHacc.
Qed.

(** ** The order of sort keys *)

Lemma string_ltb_trans (a b c : string) :
  String.ltb a b = true -> String.ltb b c = true -> String.ltb a c = true.
Proof.
  unfold String.ltb.
  destruct (String.compare a b) eqn:E1; try discriminate.
  destruct (String.compare b c) eqn:E2; try discriminate.
  intros _ _.
  apply String_as_OT.cmp_lt in E1, E2.
  assert (H := String_as_OT.lt_trans _ _ _ E1 E2).
  apply String_as_OT.cmp_lt in H. unfold String_as_OT.cmp in H. now rewrite H.
Qed.

Lemma string_ltb_irrefl (a : string) : String.ltb a a = false.
Proof.
  unfold String.ltb.
  assert (H : String.compare a a = Eq) by (apply String_as_OT.cmp_eq; reflexivity).
  now rewrite H.
Qed.

Lemma string_not_ltb_leb (a b : string) : String.ltb a b = false -> String.leb b a = true.
Proof.
  unfold String.ltb, String.leb. rewrite (String.compare_antisym b a).
  destruct (String.compare a b); simpl; intros; congruence.
Qed.

Lemma key3_ltb_trans (a b c : Z * Z * string) :
  key3_ltb a b = true -> key3_ltb b c = true -> key3_ltb a c = true.
Proof.
  destruct a as [[a1 a2] a3], b as [[b1 b2] b3], c as [[c1 c2] c3]. unfold key3_ltb.
  repeat match goal with
         | |- context [(?x <? ?y)%Z] => destruct (Z.ltb_spec x y)
         end; try lia; try discriminate; auto.
  apply string_ltb_trans.
Qed.

Lemma key3_ltb_irrefl (a : Z * Z * string) : key3_ltb a a = false.
Proof.
  destruct a as [[a1 a2] a3]. unfold key3_ltb.
  rewrite !Z.ltb_irrefl. apply string_ltb_irrefl.
Qed.

(** ** Preferred codes *)

Lemma preference_key_shape (code : string) :
  ZpdesDependencies.preference_key code
  = (Spec.shape_class code, (- Z.of_nat (String.length code))%Z, code).
Proof.
  unfold ZpdesDependencies.preference_key, Spec.shape_class.
  now destruct (Re.is_some (Re.match_activity code)),
              (Re.is_some (Re.match_objective code)), (Re.match_module code).
Qed.

Lemma code_preference_score_key (code : string) :
  Derive._code_preference_score code = ZpdesDependencies.preference_key code.
Proof.
  unfold Derive._code_preference_score, ZpdesDependencies.preference_key.
  now destruct (Re.is_some (Re.match_activity code)),
              (Re.is_some (Re.match_objective code)), (Re.match_module code).
Qed.

Lemma not_below_preferred (m y : string) :
  key3_ltb (ZpdesDependencies.preference_key y) (ZpdesDependencies.preference_key m) = false ->
  Spec.preferred_over m y.
Proof.
  rewrite !preference_key_shape. unfold key3_ltb, Spec.preferred_over.
  repeat match goal with
         | |- context [(?x <? ?y)%Z] => destruct (Z.ltb_spec x y)
         end; try discriminate; intros Hs; try lia.
  right. right. repeat split; try lia. now apply string_not_ltb_leb.
Qed.

Lemma preferred_over_antisym (a b : string) :
  Spec.preferred_over a b -> Spec.preferred_over b a -> a = b.
Proof.
  unfold Spec.preferred_over. intros H1 H2.
  destruct H1 as [H1|[[H1 H1']|(H1 & H1' & H1'')]],
           H2 as [H2|[[H2 H2']|(H2 & H2' & H2'')]]; try lia.
  now apply String.leb_antisym.
Qed.

(** The head of a sorted non-empty list of codes is the preferred one. *)
Lemma sorted_codes_head (codes : list string) :
  codes <> [] ->
  exists c, hd_error (sorted ZpdesDependencies.preference_key key3_ltb codes) = Some c
            /\ In c codes
            /\ (forall c', In c' codes -> Spec.preferred_over c c')
            /\ (forall c2, In c2 codes ->
                           (forall c', In c' codes -> Spec.preferred_over c2 c') -> c2 = c).
Proof.
  intros Hne.
  pose proof (sorted_head_least ZpdesDependencies.preference_key key3_ltb
                                key3_ltb_trans codes
                                (fun x _ => key3_ltb_irrefl _)) as Hleast.
  pose proof (sorted_In ZpdesDependencies.preference_key key3_ltb) as Hin.
  destruct (sorted ZpdesDependencies.preference_key key3_ltb codes) as [|m rest] eqn:E.
  - destruct codes as [|x xs]; [congruence|].
    assert (Hx : In x (sorted ZpdesDependencies.preference_key key3_ltb (x :: xs)))
      by (apply Hin; now left).
    rewrite E in Hx. destruct Hx.
  - exists m. unfold Spec.head_least in Hleast.
    assert (Hm : In m codes) by (apply Hin; rewrite E; now left).
    assert (Hbest : forall c', In c' codes -> Spec.preferred_over m c').
    { intros c' Hc'. apply not_below_preferred, Hleast.
      rewrite <- E. now apply Hin. }
    repeat split; auto.
    intros c2 Hc2 Hall. apply preferred_over_antisym; auto.
Qed.

(** C8. Among the candidate codes of an id, when there is one, the preferred
    code is the one of the highest shape class (activity over objective over
    module over anything else), the longest within that class, and the
    smallest in the order of strings among those; no other candidate has
    that property.  This holds for [_preferred_code_from_list] and for the
    choice made with [_code_preference_score], whose keys are the same. *)
Theorem preferred_code_is_best :
  (forall codes : list string,
      ZpdesDependencies.cleaned_codes codes <> [] ->
      exists c,
        ZpdesDependencies._preferred_code_from_list codes = Some c
        /\ In c (ZpdesDependencies.cleaned_codes codes)
        /\ (forall c', In c' (ZpdesDependencies.cleaned_codes codes) ->
                       Spec.preferred_over c c')
        /\ (forall c2, In c2 (ZpdesDependencies.cleaned_codes codes) ->
                       (forall c', In c' (ZpdesDependencies.cleaned_codes codes) ->
                                   Spec.preferred_over c2 c') -> c2 = c))
  /\ (forall raw_codes : list pyobj,
         Spec.candidate_codes raw_codes <> [] ->
         exists c,
           Derive.chosen_code raw_codes = Some c
           /\ In c (Spec.candidate_codes raw_codes)
           /\ (forall c', In c' (Spec.candidate_codes raw_codes) ->
                          Spec.preferred_over c c')
           /\ (forall c2, In c2 (Spec.candidate_codes raw_codes) ->
                          (forall c', In c' (Spec.candidate_codes raw_codes) ->
                                      Spec.preferred_over c2 c') -> c2 = c))
  /\ (forall code : string,
         Derive._code_preference_score code = ZpdesDependencies.preference_key code).
Proof.
  split; [|split].
  - intros codes Hne. unfold ZpdesDependencies._preferred_code_from_list.
    destruct (sorted_codes_head _ Hne) as (c & Hc).
    exists c. destruct (ZpdesDependencies.cleaned_codes codes); [congruence|exact Hc].
  - intros raw Hne. unfold Derive.chosen_code. fold (Spec.candidate_codes raw).
    destruct (sorted_codes_head _ Hne) as (c & Hhd & Hc).
    exists c. split; [|exact Hc].
    destruct (Spec.candidate_codes raw) as [|x xs] eqn:E; [congruence|].
    rewrite <- Hhd. f_equal.
    apply sorted_ext, code_preference_score_key.
  - exact code_preference_score_key.
Qed.

Lemma preferred_code_is_best_witness :
  ZpdesDependencies.cleaned_codes ["M1"; " M1O1 "; "M1O1A1"; "M1O2A10"; "M1O1A10"; "zzz"] <> []
  /\ exists c,
       ZpdesDependencies._preferred_code_from_list
         ["M1"; " M1O1 "; "M1O1A1"; "M1O2A10"; "M1O1A10"; "zzz"] = Some c
       /\ In c (ZpdesDependencies.cleaned_codes
                  ["M1"; " M1O1 "; "M1O1A1"; "M1O2A10"; "M1O1A10"; "zzz"])
       /\ (forall c', In c' (ZpdesDependencies.cleaned_codes
                              ["M1"; " M1O1 "; "M1O1A1"; "M1O2A10"; "M1O1A10"; "zzz"]) ->
                      Spec.preferred_over c c')
       /\ (forall c2, In c2 (ZpdesDependencies.cleaned_codes
                              ["M1"; " M1O1 "; "M1O1A1"; "M1O2A10"; "M1O1A10"; "zzz"]) ->
                      (forall c', In c' (ZpdesDependencies.cleaned_codes
                                          ["M1"; " M1O1 "; "M1O1A1"; "M1O2A10"; "M1O1A10"; "zzz"]) ->
                                  Spec.preferred_over c2 c') -> c2 = c).
Proof.
  split.
  - vm_compute. discriminate.
  - apply (proj1 preferred_code_is_best). vm_compute. discriminate.
Defined.

(** The code chosen on that list. *)
Example preferred_code_example :
  ZpdesDependencies._preferred_code_from_list
    ["M1"; " M1O1 "; "M1O1A1"; "M1O2A10"; "M1O1A10"; "zzz"] = Some "M1O1A10".
Proof. reflexivity. Qed.

(** ** Rule payloads that open a node *)

Lemma pyobj_induction (P : pyobj -> Prop) :
  P PyNone ->
  (forall b, P (PyBool b)) ->
  (forall z, P (PyInt z)) ->
  (forall x r, P (PyFloat x r)) ->
  (forall s, P (PyStr s)) ->
  (forall items, Forall P items -> P (PyList items)) ->
  (forall entries, Forall (fun kv : string * pyobj => P (snd kv)) entries ->
                   P (PyDict entries)) ->
  forall p, P p.
Proof.
  intros HN HB HI HF HS HL HD.
  fix IH 1.
  intros [ | b | z | x r | s | items | entries ];
    [exact HN | apply HB | apply HI | apply HF | apply HS | | ].
  - apply HL.
    exact ((fix go (l : list pyobj) : Forall P l :=
              match l with
              | [] => Forall_nil P
              | x :: rest => Forall_cons x (IH x) (go rest)
              end) items).
  - apply HD.
    exact ((fix go (l : list (string * pyobj))
              : Forall (fun kv : string * pyobj => P (snd kv)) l :=
              match l with
              | [] => Forall_nil _
              | (k, v) :: rest => Forall_cons (k, v) (IH v) (go rest)
              end) entries).
Qed.

(** Truncation toward zero gives zero exactly below magnitude one. *)
Lemma trunc_zero_iff (q : Q) : trunc q = 0%Z <-> (Qabs q < 1)%Q.
Proof.
  unfold trunc. destruct q as [n d]. simpl.
  rewrite Z.quot_small_iff by discriminate.
  unfold Qlt. simpl. rewrite Z.mul_1_r. simpl. reflexivity.
Qed.

Lemma qltb_iff (a b : Q) : Pl.qltb a b = true <-> (a < b)%Q.
Proof.
  unfold Pl.qltb. rewrite negb_true_iff.
  split.
  - intros H. apply Qnot_le_lt. intros Hle. apply Qle_bool_iff in Hle. congruence.
  - intros H. destruct (Qle_bool b a) eqn:E; auto.
    apply Qle_bool_iff in E. exfalso. eapply Qlt_not_le; eauto.
Qed.

Lemma trunc_zero_qltb (q : Q) : (trunc q =? 0)%Z = Pl.qltb (Qabs q) 1.
Proof.
  destruct (Pl.qltb (Qabs q) 1) eqn:E.
  - apply Z.eqb_eq, trunc_zero_iff, qltb_iff, E.
  - apply Z.eqb_neq. intros H. apply trunc_zero_iff, qltb_iff in H. congruence.
Qed.

Lemma int_zero_qltb (z : Z) : (z =? 0)%Z = Pl.qltb (Qabs (inject_Z z)) 1.
Proof.
  rewrite <- trunc_zero_qltb. unfold trunc. simpl. now rewrite Z.quot_1_r.
Qed.

(** C10. On a payload without infinities and NaN, [_is_init_open_from_rule]
    returns, and returns true exactly when the payload is a number [v] with
    [|v| < 1] (where [int(v)], truncated toward zero, is 0), or text that
    cleans to ["0"], or a list or dictionary with an element or value for
    which this holds in turn. *)
Theorem init_open_from_rule_spec (p : pyobj) :
  Spec.finite_payload p = true ->
  ZpdesDependencies._is_init_open_from_rule p = Ok (Spec.init_open_spec p).
Proof.
  induction p using pyobj_induction; intros Hfin.
  - reflexivity.
  - destruct b; reflexivity.
  - change (Ok (z =? 0)%Z = Ok (Pl.qltb (Qabs (inject_Z z)) 1)).
    f_equal. apply int_zero_qltb.
  - destruct x as [q| |]; try discriminate.
    change (Ok (trunc q =? 0)%Z = Ok (Pl.qltb (Qabs q) 1)).
    f_equal. apply trunc_zero_qltb.
  - reflexivity.
  - simpl in Hfin. simpl.
    induction H as [|x l Hx Hl IH]; [reflexivity|].
    simpl in Hfin. apply andb_true_iff in Hfin as [Hf1 Hf2].
    rewrite (Hx Hf1). simpl.
    destruct (Spec.init_open_spec x); simpl; auto.
  - simpl in Hfin. simpl.
    induction H as [|[k v] l Hx Hl IH]; [reflexivity|].
    simpl in Hfin. apply andb_true_iff in Hfin as [Hf1 Hf2].
    simpl in Hx. rewrite (Hx Hf1). simpl.
    destruct (Spec.init_open_spec v); simpl; auto.
Qed.

Lemma init_open_from_rule_spec_witness :
  ZpdesDependencies._is_init_open_from_rule (PyFloat (Fin (9 # 10)) "0.9") = Ok true
  /\ ZpdesDependencies._is_init_open_from_rule (PyFloat (Fin (- (1 # 2))) "-0.5") = Ok true
  /\ ZpdesDependencies._is_init_open_from_rule (PyFloat (Fin 1) "1.0") = Ok false
  /\ ZpdesDependencies._is_init_open_from_rule (PyInt 0) = Ok true
  /\ ZpdesDependencies._is_init_open_from_rule (PyStr " 0 ") = Ok true
  /\ ZpdesDependencies._is_init_open_from_rule (PyStr "0.0") = Ok false
  /\ ZpdesDependencies._is_init_open_from_rule
       (PyList [PyInt 1; PyDict [("a", PyInt 2); ("b", PyStr "0")]]) = Ok true
  /\ ZpdesDependencies._is_init_open_from_rule
       (PyDict [("a", PyList [PyInt 1; PyFloat (Fin (3 # 2)) "1.5"])]) = Ok false.
Proof.
  exact
    (conj (init_open_from_rule_spec (PyFloat (Fin (9 # 10)) "0.9") eq_refl)
    (conj (init_open_from_rule_spec (PyFloat (Fin (- (1 # 2))) "-0.5") eq_refl)
    (conj (init_open_from_rule_spec (PyFloat (Fin 1) "1.0") eq_refl)
    (conj (init_open_from_rule_spec (PyInt 0) eq_refl)
    (conj (init_open_from_rule_spec (PyStr " 0 ") eq_refl)
    (conj (init_open_from_rule_spec (PyStr "0.0") eq_refl)
    (conj (init_open_from_rule_spec
             (PyList [PyInt 1; PyDict [("a", PyInt 2); ("b", PyStr "0")]]) eq_refl)
          (init_open_from_rule_spec
             (PyDict [("a", PyList [PyInt 1; PyFloat (Fin (3 # 2)) "1.5"])]) eq_refl)))))))).
Defined.

(** ** The activity-daily aggregate *)

Lemma group_by_In {A K : Type} (eqb : K -> K -> bool) (key : A -> K) (rows : list A)
      (g : K * list A) :
  In g (Pl.group_by eqb key rows) ->
  In (fst g) (map key rows) /\ snd g = filter (fun r => eqb (fst g) (key r)) rows.
Proof.
  unfold Pl.group_by. rewrite in_map_iff. intros (k & <- & Hk). split; [|reflexivity].
  simpl. revert Hk. unfold Pl.distinct_by.
  apply fold_left_invariant with
    (P := fun seen : list K => In k seen -> In k (map key rows)).
  - intros [].
  - intros seen x Hx IH. destruct (existsb (eqb x) seen); [exact IH|].
    rewrite in_app_iff. intros [H|[<-|[]]]; auto.
Qed.

Lemma first_attempt_values (rs : list Derive.Fact.t) :
  Pl.drop_nulls (map Derive.first_attempt_correct_value rs)
  = Pl.drop_nulls (map (fun r => Pl.float_of_bool (Derive.Fact.data_correct r))
                       (filter Spec.attempt_number_is_1 rs)).
Proof.
  induction rs as [|r rs IH]; simpl; [reflexivity|].
  unfold Derive.first_attempt_correct_value at 1, Derive.is_first_attempt,
         Spec.attempt_number_is_1 at 1.
  destruct (Derive.Fact.attempt_number r) as [n|]; simpl; [|exact IH].
  destruct (n =? 1)%Z; simpl; [|exact IH].
  destruct (Pl.float_of_bool (Derive.Fact.data_correct r)); simpl; now rewrite IH.
Qed.

(** Every row of the aggregate is the aggregate of the fact rows with its key. *)
Lemma activity_daily_rows (fact : list Derive.Fact.t) (row : Derive.ActivityDaily.t) :
  In row (Derive.build_agg_activity_daily_from_fact fact) ->
  row = Derive.aggregate_activity (Spec.key_of_row row) (Spec.group_of fact row).
Proof.
  unfold Derive.build_agg_activity_daily_from_fact. rewrite sorted_In, in_map_iff.
  intros ([k rs] & <- & Hg). apply group_by_In in Hg as [_ Hg]. simpl in Hg. subst rs.
  simpl. destruct k; reflexivity.
Qed.

(** C7. In every row of the activity-daily aggregate,
    [first_attempt_success_rate] is the mean of [data_correct] over the rows
    of the group with [attempt_number == 1] only (while [success_rate] is the
    mean over the whole group and [attempts] its size).  On the fixture of
    two students the one row, for [a1], has [attempts = 3],
    [success_rate = 2/3] and [first_attempt_success_rate = 1/2]. *)
Theorem first_attempt_rate_over_first_attempts :
  (forall (fact : list Derive.Fact.t) (row : Derive.ActivityDaily.t),
      In row (Derive.build_agg_activity_daily_from_fact fact) ->
      Derive.ActivityDaily.first_attempt_success_rate row
      = Pl.mean (map (fun r => Pl.float_of_bool (Derive.Fact.data_correct r))
                     (filter Spec.attempt_number_is_1 (Spec.group_of fact row)))
      /\ Derive.ActivityDaily.success_rate row
         = Pl.mean (map (fun r => Pl.float_of_bool (Derive.Fact.data_correct r))
                        (Spec.group_of fact row))
      /\ Derive.ActivityDaily.attempts row
         = Z.of_nat (List.length (Spec.group_of fact row)))
  /\ (exists row,
         Derive.build_agg_activity_daily_from_fact Spec.two_students = [row]
         /\ Derive.ActivityDaily.activity_id row = Some "a1"
         /\ Derive.ActivityDaily.attempts row = 3%Z
         /\ Spec.is_value (Derive.ActivityDaily.success_rate row) (2 # 3)
         /\ Spec.is_value (Derive.ActivityDaily.first_attempt_success_rate row) (1 # 2)).
Proof.
  split.
  - intros fact row Hrow. apply activity_daily_rows in Hrow.
    set (rs := Spec.group_of fact row) in *.
    rewrite Hrow at 1 2 3. simpl. repeat split.
    unfold Pl.mean. now rewrite first_attempt_values.
  - eexists. split; [vm_compute; reflexivity|]. vm_compute. repeat split; congruence.
Qed.

Lemma first_attempt_rate_over_first_attempts_witness :
  exists row,
    In row (Derive.build_agg_activity_daily_from_fact Spec.two_students)
    /\ Derive.ActivityDaily.first_attempt_success_rate row
       = Pl.mean (map (fun r => Pl.float_of_bool (Derive.Fact.data_correct r))
                      (filter Spec.attempt_number_is_1
                              (Spec.group_of Spec.two_students row))).
Proof.
  eexists. split.
  - vm_compute. left. reflexivity.
  - apply (proj1 first_attempt_rate_over_first_attempts Spec.two_students).
    vm_compute. left. reflexivity.
Defined.

(** ** Floats *)

(** [binary64] at a value between two floats, at ties among the integers
    and among the subnormal values, and at the overflow threshold. *)
Example binary64_values :
  fval_eqb (binary64 (1 # 10)) (Fin (3602879701896397 # 36028797018963968)) = true
  /\ fval_eqb (binary64 (inject_Z (2 ^ 53 + 1))) (Fin (inject_Z (2 ^ 53))) = true
  /\ fval_eqb (binary64 (inject_Z (2 ^ 53 + 3))) (Fin (inject_Z (2 ^ 53 + 4))) = true
  /\ fval_eqb (binary64 (Qpower (inject_Z 2) (-1075))) (Fin 0) = true
  /\ fval_eqb (binary64 (inject_Z 3 * Qpower (inject_Z 2) (-1075)))
              (Fin (Qpower (inject_Z 2) (-1073))) = true
  /\ fval_eqb (binary64 (inject_Z (2 ^ 1024 - 2 ^ 970 - 1)))
              (Fin (inject_Z (2 ^ 1024 - 2 ^ 971))) = true
  /\ binary64 (inject_Z (2 ^ 1024 - 2 ^ 970)) = Inf false
  /\ binary64 (- inject_Z (2 ^ 1024)) = Inf true.
Proof. vm_compute. repeat split. Qed.

(** [float] reads the nearest binary64 value. *)
Example float_values :
  float_of_string "0.1" = Some (Fin (3602879701896397 # 36028797018963968))
  /\ float_of_string "9007199254740993" = Some (Fin (9007199254740992 # 1))
  /\ float_of_string " -1_0.5e1 " = Some (Fin (-105 # 1))
  /\ float_of_string "1e-400" = Some (Fin 0)
  /\ float_of_string "1e400" = Some (Inf false)
  /\ float_of_int (2 ^ 53 + 1) = Ok (Fin (9007199254740992 # 1))
  /\ float_of_int (2 ^ 1024) = Raise OverflowError.
Proof. vm_compute. repeat split. Qed.

(** [round(x, 6)] rounds the binary64 value, not the decimal that was
    written: [0.2500005] and [2.5e-06] lie above the tie of their decimals,
    [0.1234565] below it, and [0.0078125], which is [1/128], on it. *)
Example round6_values :
  option_map round6 (float_of_string "0.2500005") = float_of_string "0.250001"
  /\ option_map round6 (float_of_string "2.5e-6") = float_of_string "3e-06"
  /\ option_map round6 (float_of_string "0.1234565") = float_of_string "0.123456"
  /\ option_map round6 (float_of_string "0.0078125") = float_of_string "0.007812"
  /\ option_map round6 (float_of_string "1e-7") = Some (Fin 0).
Proof. vm_compute. repeat split. Qed.

(** ** Equality of nullable values *)

Lemma opt_eqb_eq {T : Type} (eqb : T -> T -> bool) :
  (forall a b, eqb a b = true <-> a = b) ->
  forall a b, Pl.opt_eqb eqb a b = true <-> a = b.
Proof.
  intros H [a|] [b|]; simpl; try (split; [discriminate|congruence]); [|tauto].
  rewrite H. split; congruence.
Qed.

Lemma str_eqb_eq (a b : option string) : Pl.str_eqb a b = true <-> a = b.
Proof. apply opt_eqb_eq. apply String.eqb_eq. Qed.

Lemma filter_map_comm {A B : Type} (p : B -> bool) (f : A -> B) (l : list A) :
  filter p (map f l) = map f (filter (fun x => p (f x)) l).
Proof.
  induction l as [|x l IH]; simpl; [reflexivity|].
  destruct (p (f x)); simpl; now rewrite IH.
Qed.

(** ** The cells of the objective-activity matrix *)

Section MatrixFacts.
Import ObjectiveActivityMatrix Spec.

Lemma dict_get_In {V : Type} (d : list (string * V)) (k : string) (v : V) :
  dict_get d k = Some v -> In (k, v) d.
Proof.
  induction d as [|[k' v'] d IH]; simpl; [discriminate|].
  destruct (k' =? k) eqn:E.
  - apply String.eqb_eq in E. intros H. inversion H; subst. now left.
  - intros H. right. auto.
Qed.

Lemma dict_set_In {V : Type} (d : list (string * V)) (k : string) (v : V) (x : string * V) :
  In x (dict_set d k v) -> x = (k, v) \/ In x d.
Proof.
  induction d as [|[k' v'] d IH]; simpl.
  - intros [<-|[]]. now left.
  - destruct (k' =? k); simpl; intros [<-|H]; auto.
    destruct (IH H); auto.
Qed.

Lemma enumerate_from_In {A : Type} (l : list A) :
  forall (start i : Z) (x : A),
    In (i, x) (enumerate_from start l) -> In x l /\ (start <= i)%Z.
Proof.
  induction l as [|y l IH]; simpl; intros start i x; [intros []|].
  intros [H|H].
  - inversion H; subst. split; [now left | lia].
  - apply IH in H as [H1 H2]. split; [now right | lia].
Qed.

Lemma ordered_activities_In (maps : summary_maps) (oid : string) (es : list entry) (e : entry) :
  In e (ordered_activities maps oid es) -> In e es.
Proof.
  unfold ordered_activities. rewrite in_app_iff, !filter_In, !sorted_In, filter_In.
  intuition.
Qed.

Lemma records_of_In (metric module_code : string) (maps : summary_maps)
      (po : per_objective_t) (c : Cell.t) :
  In c (records_of metric module_code maps po) ->
  exists oid lbl es e idx,
    In (oid, (lbl, es)) po /\ In e es
    /\ Cell.objective_id c = Some oid
    /\ Cell.activity_id c = Some (e_activity_id e)
    /\ Cell.metric_value c = Some (e_metric_value e)
    /\ Cell.activity_col_idx c = Some idx /\ (1 <= idx)%Z.
Proof.
  unfold records_of. rewrite in_flat_map. intros (oid & _ & Hc).
  rewrite in_map_iff in Hc. destruct Hc as ([idx e] & <- & He).
  apply enumerate_from_In in He as [He Hidx].
  apply ordered_activities_In in He.
  destruct (dict_get po oid) as [[lbl es]|] eqn:E; [|destruct He].
  apply dict_get_In in E.
  exists oid, lbl, es, e, idx. simpl. auto 10.
Qed.

Lemma add_rows_In (metric : string) (maps : summary_maps) (aggregated : list Agg.t) :
  forall oid lbl es e,
    In (oid, (lbl, es)) (fold_left (add_row metric maps) aggregated []) ->
    In e es -> entry_from metric aggregated oid e.
Proof.
  apply fold_left_invariant with
    (P := fun po : per_objective_t =>
            forall oid lbl es e, In (oid, (lbl, es)) po -> In e es ->
                                 entry_from metric aggregated oid e).
  - intros oid lbl es e [].
  - intros po row Hrow IH oid lbl es e Hin He.
    unfold add_row in Hin.
    destruct (is_empty (stripped (Agg.objective_id row))
              || is_empty (stripped (Agg.activity_id row))); [eauto|].
    destruct (metric_value_of metric row) as [v|] eqn:Ev; [|eauto].
    apply dict_set_In in Hin as [Heq|Hin]; [|eauto].
    inversion Heq; subst; clear Heq.
    apply in_app_iff in He as [He|[<-|[]]].
    + destruct (dict_get po (stripped (Agg.objective_id row))) as [[l0 es0]|] eqn:E.
      * apply dict_get_In in E. eauto.
      * destruct He.
    + exists row. simpl. auto.
Qed.

Lemma cells_from_aggregated
      (agg_activity_daily : frame Src.t) (module_code : string) (start_date end_date : Z)
      (metric : string) (summary_payload : list (string * pyobj))
      (agg_exercise_daily : option (frame Src.t))
      (fact_attempt_core : option (frame Derive.Fact.t)) (cells : list Cell.t) (c : Cell.t) :
  build_objective_activity_cells agg_activity_daily module_code start_date end_date metric
                                 summary_payload agg_exercise_daily fact_attempt_core
  = Ok cells ->
  In c cells ->
  exists aggregated row v idx,
    aggregate metric module_code start_date end_date
              (filter (src_in_window module_code start_date end_date)
                      (with_default_columns agg_activity_daily))
              agg_exercise_daily fact_attempt_core = Ok aggregated
    /\ In row aggregated
    /\ Cell.objective_id c = Some (stripped (Agg.objective_id row))
    /\ Cell.activity_id c = Some (stripped (Agg.activity_id row))
    /\ metric_value_of metric row = Some v
    /\ Cell.metric_value c = Some v
    /\ Cell.activity_col_idx c = Some idx /\ (1 <= idx)%Z.
Proof.
  unfold build_objective_activity_cells. intros Hrun Hc.
  destruct (negb (mem metric VALID_MATRIX_METRICS)); [discriminate|].
  apply bind_ok in Hrun as (_ & _ & Hrun).
  apply bind_ok in Hrun as (_ & _ & Hrun).
  destruct (filter _ _) as [|r0 rs0] eqn:Ef.
  { inversion Hrun; subst. destruct Hc. }
  apply bind_ok in Hrun as (aggregated & Hagg & Hrun).
  destruct aggregated as [|a0 as0] eqn:Ea.
  { inversion Hrun; subst. destruct Hc. }
  apply bind_ok in Hrun as (maps & _ & Hrun).
  inversion Hrun; subst cells; clear Hrun.
  apply records_of_In in Hc as (oid & lbl & es & e & idx & Hpo & He & H1 & H2 & H3 & H4 & H5).
  change (fold_left (add_row metric maps) as0 (add_row metric maps [] a0))
    with (fold_left (add_row metric maps) (a0 :: as0) []) in Hpo.
  destruct (add_rows_In _ _ _ _ _ _ _ Hpo He) as (row & Hrow & -> & Hact & Hv).
  exists (a0 :: as0), row, (e_metric_value e), idx.
  rewrite H2, Hact. auto 10.
Qed.





(** ** The window and the cells, as the specification words them *)

Lemma stripped_id_text (v : option string) : stripped v = id_text v.
Proof. destruct v as [[|c s]|]; reflexivity. Qed.

(** [.1f] prints the binary64 product: [0.0005 * 100] and [0.2875 * 100]
    are not the decimals [0.05] and [28.75], and [0.0015 * 100] is rounded
    to a float below [0.15]. *)
Example format_cell_values :
  format_cell_value "success_rate" (Some (5 # 10000)) = "0.1%"
  /\ format_cell_value "success_rate" (Some (15 # 10000)) = "0.1%"
  /\ format_cell_value "success_rate" (Some (2875 # 10000)) = "28.7%"
  /\ format_cell_value "success_rate" (Some (1 # 8)) = "12.5%"
  /\ format_cell_value "success_rate" (Some (- (4 # 10000))) = "-0.0%"
  /\ format_cell_value "attempts" (Some (5 # 2)) = "2"
  /\ format_cell_value "attempts" (Some (7 # 2)) = "4"
  /\ format_cell_value "attempts" None = "".
Proof. vm_compute. repeat split. Qed.

(** The window holds the rows of the frame of the module whose date lies
    between the two dates. *)
Lemma window_spec (f : frame Src.t) (module_code : string) (start_date end_date : Z)
      (r : Src.t) :
  In r (window f module_code start_date end_date) <->
  In r (rows f) /\ Src.module_code r = Some module_code
  /\ exists day, Src.date_utc r = Some day /\ (start_date <= day <= end_date)%Z.
Proof.
  unfold window, inside. rewrite filter_In, andb_true_iff, str_eqb_eq.
  destruct (Src.date_utc r) as [day|].
  - rewrite andb_true_iff, !Z.leb_le. split.
    + intros (H1 & H2 & H3). eauto 6.
    + intros (H1 & H2 & d & Hd & H3). inversion Hd; subst. tauto.
  - split; [intros (_ & _ & H); discriminate|intros (_ & _ & d & Hd & _); discriminate].
Qed.

(** The rows of a cell are the rows with its objective and its activity. *)
Lemma rows_of_cell_spec (l : list Src.t) (o a : option string) (r : Src.t) :
  In r (rows_of_cell l o a) <-> In r l /\ Src.objective_id r = o /\ Src.activity_id r = a.
Proof.
  unfold rows_of_cell, same_cell. rewrite filter_In, andb_true_iff, !str_eqb_eq.
  split; intros (H1 & H2 & H3); auto.
Qed.

(** The rows of an exercise are the rows with its three identifiers. *)
Lemma rows_of_exercise_spec (l : list Src.t)
      (k : option string * option string * option string) (r : Src.t) :
  In r (rows_of_exercise l k) <-> In r l /\ exercise_of r = k.
Proof.
  unfold rows_of_exercise, same_exercise, exercise_of.
  rewrite filter_In, !andb_true_iff, !str_eqb_eq.
  destruct k as [[o a] x]. cbn [fst snd]. split.
  - intros (H & (-> & ->) & ->). auto.
  - intros (H & E). inversion E; subst. auto.
Qed.

(** The filter of the code keeps the rows of the window. *)
Lemma src_in_window_inside (module_code : string) (start_date end_date : Z) (r : Src.t) :
  src_in_window module_code start_date end_date r = inside module_code start_date end_date r.
Proof.
  unfold src_in_window, in_window, inside.
  destruct (Src.module_code r) as [code|], (Src.date_utc r) as [day|]; simpl;
    try reflexivity.
  - destruct (code =? module_code), (start_date <=? day)%Z, (day <=? end_date)%Z; reflexivity.
  - now rewrite andb_false_r.
Qed.

Lemma window_default_columns (f : frame Src.t) (module_code : string)
      (start_date end_date : Z) :
  filter (src_in_window module_code start_date end_date) (with_default_columns f)
  = with_default_columns
      {| columns := columns f; rows := window f module_code start_date end_date |}.
Proof.
  unfold with_default_columns, window. cbn [columns rows].
  rewrite filter_map_comm. f_equal. apply filter_ext. intros r.
  rewrite src_in_window_inside. reflexivity.
Qed.


Lemma rows_of_exercise_default_columns (f : frame Src.t)
      (k : option string * option string * option string) :
  rows_of_exercise (with_default_columns f) k
  = with_default_columns {| columns := columns f; rows := rows_of_exercise (rows f) k |}.
Proof.
  unfold with_default_columns, rows_of_exercise. cbn [columns rows].
  rewrite filter_map_comm. reflexivity.
Qed.

Lemma exercises_of_default_columns (f : frame Src.t) (o a : option string) :
  exercises_of (with_default_columns f) o a = exercises_of (rows f) o a.
Proof. unfold exercises_of, with_default_columns. now rewrite map_map. Qed.

Lemma default_columns_nil (f : frame Src.t) : with_default_columns f = [] -> rows f = [].
Proof. unfold with_default_columns. apply map_eq_nil. Qed.

(** The columns the weighted rates read are not touched by the defaults. *)
Lemma totals_default_columns (f : frame Src.t) :
  total Src.attempts (with_default_columns f) = total Src.attempts (rows f)
  /\ weighted_total Src.success_rate Src.attempts (with_default_columns f)
     = weighted_total Src.success_rate Src.attempts (rows f)
  /\ weighted_total Src.repeat_attempt_rate Src.attempts (with_default_columns f)
     = weighted_total Src.repeat_attempt_rate Src.attempts (rows f).
Proof.
  unfold total, weighted_total, with_default_columns. rewrite !map_map. repeat split.
Qed.


Lemma exercise_rate_default_columns (f : frame Src.t) :
  exercise_rate (with_default_columns f) = exercise_rate (rows f).
Proof.
  unfold exercise_rate. destruct (totals_default_columns f) as (-> & -> & _). reflexivity.
Qed.

Lemma exercise_rates_default_columns (f : frame Src.t) (o a : option string) :
  map (fun k => exercise_rate (rows_of_exercise (with_default_columns f) k))
      (exercises_of (with_default_columns f) o a)
  = map (fun k => exercise_rate (rows_of_exercise (rows f) k)) (exercises_of (rows f) o a).
Proof.
  rewrite exercises_of_default_columns. apply map_ext. intros k.
  now rewrite rows_of_exercise_default_columns, exercise_rate_default_columns.
Qed.



Lemma aggregate_balanced (module_code : string) (start_date end_date : Z)
      (filtered : list Src.t) (exercise_frame : frame Src.t)
      (fact_attempt_core : option (frame Derive.Fact.t)) (aggregated : list Agg.t) :
  aggregate "exercise_balanced_success_rate" module_code start_date end_date filtered
            (Some exercise_frame) fact_attempt_core = Ok aggregated ->
  aggregated
  = balanced_rows (filter (src_in_window module_code start_date end_date)
                          (with_default_columns exercise_frame)).
Proof.
  unfold aggregate. simpl. intros H. apply bind_ok in H as (_ & _ & H). now inversion H.
Qed.




Lemma Qle_bool_false_lt (a b : Q) : Qle_bool a b = false -> (b < a)%Q.
Proof.
  intros H. apply Qnot_le_lt. intros Hle. apply Qle_bool_iff in Hle. congruence.
Qed.

Lemma guarded_ratio (w t : Q) :
  let v := if Qle_bool t 0 then 0%Q else (w / t)%Q in
  ((0 < t)%Q -> v = (w / t)%Q) /\ ((t == 0)%Q -> v = 0%Q).
Proof.
  simpl. destruct (Qle_bool t 0) eqn:E; split; auto.
  - apply Qle_bool_iff in E. intros H. exfalso. eapply Qlt_not_le; eauto.
  - intros H. apply Qle_bool_false_lt in E. rewrite H in E. now apply Qlt_irrefl in E.
Qed.


Lemma exercise_rate_eq (g : list Src.t) : exercise_success_rate g = exercise_rate g.
Proof. reflexivity. Qed.

Lemma balanced_rows_In (W : list Src.t) (row : Agg.t) :
  In row (balanced_rows W) ->
  exists o a,
    Agg.objective_id row = o /\ Agg.activity_id row = a
    /\ Agg.exercise_balanced_success_rate row
       = Pl.mean (map (fun k => exercise_rate (rows_of_exercise W k)) (exercises_of W o a)).
Proof.
  unfold balanced_rows. rewrite in_map_iff. intros ([[o a] xs] & <- & Hg).
  apply group_by_In in Hg as [_ Hg]. simpl in Hg. subst xs.
  exists o, a. simpl. repeat split. f_equal.
  unfold Pl.group_by. rewrite map_map, filter_map_comm, map_map. simpl.
  unfold exercises_of.
  erewrite filter_ext; [reflexivity|].
  intros [[o' a'] e']. reflexivity.
Qed.

(** C5. For [exercise_balanced_success_rate] the rows of the exercise
    frame inside the window are first collapsed, per (objective, activity,
    exercise), to their attempts-weighted success rate
    [sum(success_rate * attempts) / sum(attempts)]; the cell then holds the
    unweighted arithmetic mean of those rates.  On the fixture, where the
    exercises of activity [a1] have 40 and 2 attempts, the cell holds 69/80
    while the attempts-weighted success rate of the same rows is 31/42. *)
Theorem balanced_cell_values :
  (forall (agg_activity_daily agg_exercise_daily : frame Src.t)
          (module_code : string) (start_date end_date : Z)
          (summary_payload : list (string * pyobj))
          (fact_attempt_core : option (frame Derive.Fact.t))
          (cells : list Cell.t) (c : Cell.t),
      build_objective_activity_cells agg_activity_daily module_code start_date end_date
                                     "exercise_balanced_success_rate" summary_payload
                                     (Some agg_exercise_daily) fact_attempt_core
      = Ok cells ->
      In c cells ->
      exists (o a : option string) (v : Q),
        Cell.objective_id c = Some (id_text o)
        /\ Cell.activity_id c = Some (id_text a)
        /\ Cell.metric_value c = Some v
        /\ let rates :=
             exercise_rates (window agg_exercise_daily module_code start_date end_date) o a in
           rates <> []
           /\ v = (Pl.qsum rates / inject_Z (Z.of_nat (List.length rates)))%Q)
  /\ (exists (cells : list Cell.t) (c : Cell.t),
         build_objective_activity_cells activity_daily_sample "M1" 20089 20119
                                        "exercise_balanced_success_rate" Spec.summary_payload
                                        (Some exercise_daily_sample) None
         = Ok cells
         /\ In c cells
         /\ Cell.objective_id c = Some "o1"
         /\ Cell.activity_id c = Some "a1"
         /\ is_value (Cell.metric_value c) (69 # 80)
         /\ let g := rows_of_cell (window exercise_daily_sample "M1" 20089 20119)
                                  (Some "o1") (Some "a1") in
            (weighted_total Src.success_rate Src.attempts g / total Src.attempts g
             == 31 # 42)%Q
            /\ ~ (69 # 80 == 31 # 42)%Q).
Proof.
  split.
  - intros agg_activity_daily agg_exercise_daily module_code start_date end_date
           summary_payload fact_attempt_core cells c Hrun Hc.
    destruct (cells_from_aggregated _ _ _ _ _ _ _ _ _ _ Hrun Hc)
      as (aggregated & row & v & idx & Hagg & Hrow & Ho & Ha & Hv & Hcv & _).
    apply aggregate_balanced in Hagg. subst aggregated.
    rewrite window_default_columns in Hrow.
    apply balanced_rows_In in Hrow as (o & a & <- & <- & Hmean).
    rewrite exercise_rates_default_columns in Hmean. cbn [rows] in Hmean.
    exists (Agg.objective_id row), (Agg.activity_id row), v.
    rewrite <- !stripped_id_text.
    repeat (split; [assumption|]).
    unfold metric_value_of in Hv. simpl in Hv. rewrite Hmean in Hv.
    unfold Pl.mean in Hv. unfold exercise_rates.
    destruct (Pl.drop_nulls _) as [|x xs] eqn:E; [discriminate|].
    split; [discriminate|]. now injection Hv as <-.
  - eexists. eexists. split; [vm_compute; reflexivity|].
    split; [right; left; reflexivity|].
    vm_compute. repeat split; congruence.
Qed.

Lemma balanced_cell_values_witness :
  exists (cells : list Cell.t) (c : Cell.t),
    build_objective_activity_cells activity_daily_sample "M1" 20089 20119
                                   "exercise_balanced_success_rate" Spec.summary_payload
                                   (Some exercise_daily_sample) None
    = Ok cells
    /\ In c cells
    /\ exists (o a : option string) (v : Q),
         Cell.objective_id c = Some (id_text o)
         /\ Cell.activity_id c = Some (id_text a)
         /\ Cell.metric_value c = Some v
         /\ let rates := exercise_rates (window exercise_daily_sample "M1" 20089 20119) o a in
            rates <> []
            /\ v = (Pl.qsum rates / inject_Z (Z.of_nat (List.length rates)))%Q.
Proof.
  eexists. eexists. split; [vm_compute; reflexivity|].
  split; [right; left; reflexivity|].
  eapply (proj1 balanced_cell_values activity_daily_sample exercise_daily_sample
                "M1" 20089%Z 20119%Z Spec.summary_payload None).
  - vm_compute. reflexivity.
  - right. left. reflexivity.
Defined.



(** ** The ragged payload *)

Lemma for_each_total {A S : Type} (P : S -> Prop) (body : S -> A -> result S)
      (xs : list A) :
  forall st,
    P st ->
    (forall s x, In x xs -> P s -> exists s', body s x = Ok s' /\ P s') ->
    exists st', for_each body xs st = Ok st' /\ P st'.
Proof.
  induction xs as [|x xs IH]; simpl; intros st Hst Hstep.
  - eauto.
  - destruct (Hstep st x (or_introl eq_refl) Hst) as (s1 & Hbody & Hs1).
    rewrite Hbody. simpl. apply IH; [exact Hs1|].
    intros s y Hy. apply Hstep. now right.
Qed.

Lemma replace_nth_length {A : Type} (n : nat) (v : A) (l : list A) :
  List.length (replace_nth n v l) = List.length l.
Proof.
  revert n. induction l as [|x l IH]; intros [|n]; simpl; auto.
Qed.

Lemma nth_error_replace_nth_other {A : Type} (n m : nat) (v : A) (l : list A) :
  n <> m -> nth_error (replace_nth n v l) m = nth_error l m.
Proof.
  revert n m. induction l as [|x l IH]; intros [|n] [|m] H; simpl; auto.
  - congruence.
Qed.

Lemma nth_error_replace_nth_same {A : Type} (n : nat) (v : A) (l : list A) :
  (n < List.length l)%nat -> nth_error (replace_nth n v l) n = Some v.
Proof.
  revert n. induction l as [|x l IH]; intros [|n] H; simpl in *; try lia; auto.
  apply IH. lia.
Qed.

Lemma list_set_ok {A : Type} (l : list A) (c : Z) (v : A) :
  (0 <= c < Z.of_nat (List.length l))%Z ->
  list_set l c v = Ok (replace_nth (Z.to_nat c) v l).
Proof.
  intros H. unfold list_set.
  destruct (Z.ltb_spec c 0); [lia|].
  destruct (Z.leb_spec 0 c); [|lia].
  destruct (Z.ltb_spec c (Z.of_nat (List.length l))); [|lia]. reflexivity.
Qed.

Lemma grid_set_ok {A : Type} (height width : nat) (grid : list (list A))
      (r : nat) (c : Z) (v : A) :
  shape height width grid -> (r < height)%nat -> (0 <= c < Z.of_nat width)%Z ->
  exists grid',
    grid_set grid r c v = Ok grid'
    /\ shape height width grid'
    /\ (forall i j, (i <> r \/ j <> Z.to_nat c) -> cell_at grid' i j = cell_at grid i j).
Proof.
  intros [Hlen Hlines] Hr Hc. unfold grid_set.
  destruct (nth_error grid r) as [line|] eqn:E.
  - assert (Hline : List.length line = width).
    { apply nth_error_In in E. rewrite Forall_forall in Hlines. auto. }
    rewrite list_set_ok by (rewrite Hline; exact Hc). simpl.
    eexists. split; [reflexivity|]. split.
    + split; [now rewrite replace_nth_length|].
      rewrite Forall_forall in *. intros l Hl.
      apply In_nth_error in Hl as [n Hn].
      destruct (Nat.eq_dec r n) as [->|Hne].
      * rewrite nth_error_replace_nth_same in Hn by lia.
        inversion Hn; subst. now rewrite replace_nth_length.
      * rewrite nth_error_replace_nth_other in Hn by exact Hne.
        apply nth_error_In in Hn. auto.
    + intros i j Hij. unfold cell_at.
      destruct (Nat.eq_dec r i) as [->|Hne].
      * rewrite nth_error_replace_nth_same by lia. rewrite E.
        apply nth_error_replace_nth_other. destruct Hij; congruence.
      * now rewrite nth_error_replace_nth_other.
  - apply nth_error_None in E. lia.
Qed.

Lemma index_of_nth (x : string) (l : list string) (i : nat) :
  index_of x l = Some i -> nth_error l i = Some x /\ (i < List.length l)%nat.
Proof.
  revert i. induction l as [|y l IH]; simpl; intros i; [discriminate|].
  destruct (y =? x) eqn:E.
  - apply String.eqb_eq in E. intros H. inversion H; subst. simpl. split; [reflexivity|lia].
  - destruct (index_of x l) as [k|]; [|discriminate].
    intros H. inversion H; subst. simpl. destruct (IH k eq_refl). split; [auto|lia].
Qed.

Lemma index_of_In (x : string) (l : list string) :
  In x l -> exists i, index_of x l = Some i.
Proof.
  induction l as [|y l IH]; simpl; [intros []|].
  destruct (y =? x) eqn:E; [eauto|].
  intros [->|H]; [rewrite String.eqb_refl in E; discriminate|].
  destruct (IH H) as [i ->]. eauto.
Qed.

Lemma scan_rows_ok (rows : list Cell.t) :
  one_based rows ->
  exists labels,
    scan_rows rows
    = Ok (Pl.distinct_by String.eqb (map objective_of rows), labels,
          fold_left Z.max (map col_of rows) 0%Z).
Proof.
  intros Hone. unfold scan_rows, Pl.distinct_by.
  match goal with |- context [for_each ?b _ _] => set (body := b) end.
  set (step := fun (seen : list string) (x : string) =>
                 if existsb (String.eqb x) seen then seen else (seen ++ [x])%list).
  assert (G : forall ids0 labels0 m0,
             exists labels,
               for_each body rows (ids0, labels0, m0)
               = Ok (fold_left step (map objective_of rows) ids0, labels,
                     fold_left Z.max (map col_of rows) m0)).
  { induction rows as [|r rows IH]; intros ids0 labels0 m0; simpl.
    - eauto.
    - destruct (Hone r (or_introl eq_refl)) as (k & Hk & _).
      unfold col_of at 2. rewrite Hk. simpl.
      fold (objective_of r). unfold step at 2, mem.
      destruct (existsb (String.eqb (objective_of r)) ids0); simpl;
        apply IH; intros x Hx; apply Hone; now right. }
  apply G.
Qed.

Lemma fold_max_ge (l : list Z) :
  forall m0, (m0 <= fold_left Z.max l m0)%Z
             /\ (forall x, In x l -> (x <= fold_left Z.max l m0)%Z).
Proof.
  induction l as [|y l IH]; simpl; intros m0.
  - split; [lia|intros x []].
  - destruct (IH (Z.max m0 y)) as [H1 H2]. split; [lia|].
    intros x [->|Hx]; [lia|auto].
Qed.

Lemma fold_max_attained (l : list Z) :
  forall m0, fold_left Z.max l m0 = m0 \/ In (fold_left Z.max l m0) l.
Proof.
  induction l as [|y l IH]; simpl; intros m0; [now left|].
  destruct (IH (Z.max m0 y)) as [H|H]; [|now right; right].
  rewrite H. destruct (Z.max_spec m0 y) as [[_ ->]|[_ ->]]; auto.
Qed.

Lemma distinct_by_In (l : list string) (x : string) :
  In x l -> In x (Pl.distinct_by String.eqb l).
Proof.
  unfold Pl.distinct_by.
  assert (G : forall acc, In x l \/ In x acc ->
                          In x (fold_left (fun seen y => if existsb (String.eqb y) seen
                                                        then seen else (seen ++ [y])%list) l acc)).
  { induction l as [|y l IH]; simpl; intros acc H.
    - destruct H as [[]|H]; exact H.
    - apply IH. destruct H as [[->|H]|H]; auto; right.
      + destruct (existsb (String.eqb x) acc) eqn:E.
        * apply existsb_exists in E as (z & Hz & Ez).
          apply String.eqb_eq in Ez. now subst.
        * apply in_app_iff. right. now left.
      + destruct (existsb (String.eqb y) acc); auto. apply in_app_iff. now left. }
  intros H. apply G. now left.
Qed.

Lemma shape_repeat {A : Type} (height width : nat) (v : A) :
  shape height width (repeat (repeat v width) height).
Proof.
  split; [apply repeat_length|].
  apply Forall_forall. intros l Hl. apply repeat_spec in Hl. subst. apply repeat_length.
Qed.

Lemma cell_at_repeat {A : Type} (height width i j : nat) (v : A) :
  (i < height)%nat -> (j < width)%nat ->
  cell_at (repeat (repeat v width) height) i j = Some v.
Proof.
  intros Hi Hj. unfold cell_at.
  rewrite nth_error_repeat by exact Hi. now apply nth_error_repeat.
Qed.

Lemma place_rows_ok (rows : list Cell.t) (ids : list string) (mx : Z) :
  one_based rows ->
  (forall r, In r rows -> In (objective_of r) ids) ->
  (forall r, In r rows -> (col_of r <= mx)%Z) ->
  exists z text custom,
    for_each (place_row ids) rows
             (repeat (repeat None (Z.to_nat mx)) (List.length ids),
              repeat (repeat "" (Z.to_nat mx)) (List.length ids),
              repeat (repeat [""; ""; ""; ""; ""; ""] (Z.to_nat mx)) (List.length ids))
    = Ok (z, text, custom)
    /\ shape (List.length ids) (Z.to_nat mx) z
    /\ (forall i j, (i < List.length ids)%nat -> (j < Z.to_nat mx)%nat ->
                    untargeted rows ids i j -> cell_at z i j = Some None).
Proof.
  intros Hone Hids Hmax.
  set (height := List.length ids). set (width := Z.to_nat mx).
  pose (P := fun st : list (list (option Q)) * list (list string) * list (list (list string)) =>
               let '(z, text, custom) := st in
               shape height width z /\ shape height width text /\ shape height width custom
               /\ (forall i j, (i < height)%nat -> (j < width)%nat ->
                               untargeted rows ids i j -> cell_at z i j = Some None)).
  destruct (for_each_total P (place_row ids) rows
              (repeat (repeat None width) height, repeat (repeat "" width) height,
               repeat (repeat [""; ""; ""; ""; ""; ""] width) height))
    as ([[z text] custom] & Hrun & Hz & _ & _ & Hcells).
  - simpl. repeat split; try apply shape_repeat.
    intros i j Hi Hj _. now apply cell_at_repeat.
  - intros [[z text] custom] r Hr (Hz & Ht & Hc & Hcells).
    unfold place_row. fold (objective_of r).
    destruct (index_of_In _ _ (Hids r Hr)) as [ri Hri]. rewrite Hri.
    destruct (index_of_nth _ _ _ Hri) as [_ Hlt].
    destruct (Hone r Hr) as (k & Hk & Hk1). rewrite Hk. simpl.
    assert (Hkm : (k <= mx)%Z).
    { specialize (Hmax r Hr). unfold col_of in Hmax. now rewrite Hk in Hmax. }
    assert (Hcol : (0 <= k - 1 < Z.of_nat width)%Z) by (unfold width; lia).
    destruct (grid_set_ok height width z ri (k - 1)%Z (Cell.metric_value r) Hz Hlt Hcol)
      as (z1 & -> & Hz1 & Hsame).
    destruct (grid_set_ok height width text ri (k - 1)%Z
                          (text_or_empty (Cell.metric_text r)) Ht Hlt Hcol)
      as (t1 & -> & Ht1 & _).
    simpl.
    match goal with
    | |- context [grid_set custom ri (k - 1)%Z ?v] =>
        destruct (grid_set_ok height width custom ri (k - 1)%Z v Hc Hlt Hcol)
          as (c1 & -> & Hc1 & _)
    end.
    simpl. eexists. split; [reflexivity|]. simpl.
    repeat split; try assumption; try apply Hz1; try apply Ht1; try apply Hc1.
    intros i j Hi Hj Hun. rewrite Hsame; [auto|].
    destruct (Nat.eq_dec i ri) as [->|]; [|now left]. right.
    intros ->. apply (Hun r Hr Hri). rewrite Hk. f_equal. lia.
  - exists z, text, custom. auto.
Qed.

(** The tables [build_objective_activity_cells] returns number their columns
    from 1. *)
Lemma built_cells_one_based
      (agg_activity_daily : frame Src.t) (module_code : string) (start_date end_date : Z)
      (metric : string) (summary_payload : list (string * pyobj))
      (agg_exercise_daily : option (frame Src.t))
      (fact_attempt_core : option (frame Derive.Fact.t)) (cells : list Cell.t) :
  build_objective_activity_cells agg_activity_daily module_code start_date end_date metric
                                 summary_payload agg_exercise_daily fact_attempt_core
  = Ok cells ->
  one_based cells.
Proof.
  intros Hrun c Hc.
  destruct (cells_from_aggregated _ _ _ _ _ _ _ _ _ _ Hrun Hc)
    as (_ & _ & _ & idx & _ & _ & _ & _ & _ & _ & Hidx & Hle).
  exists idx. split; assumption.
Qed.

(** C9. A cells table that is not empty, whose column indices start at 1,
    gives a payload; its grid [z_values] has one line per distinct objective
    (in order of appearance), every line as long as the largest
    [activity_col_idx] of the table, and a position for which the table has
    no cell holds null.  For a module whose objectives have two and four
    activities both lines have length four, and columns three and four of
    the first line are null (while a cell whose value is zero holds zero). *)
Theorem ragged_payload_grid :
  (forall cells_df : frame Cell.t,
      rows cells_df <> [] ->
      _assert_required_columns cells_df cell_columns = Ok tt ->
      one_based (rows cells_df) ->
      exists p,
        build_ragged_matrix_payload cells_df = Ok p
        /\ objective_ids p = Pl.distinct_by String.eqb (map objective_of (rows cells_df))
        /\ List.length (z_values p) = List.length (objective_ids p)
        /\ (forall line, In line (z_values p) ->
                         Z.of_nat (List.length line) = max_activity_cols p)
        /\ (forall r k, In r (rows cells_df) -> Cell.activity_col_idx r = Some k ->
                        (k <= max_activity_cols p)%Z)
        /\ (exists r, In r (rows cells_df)
                      /\ Cell.activity_col_idx r = Some (max_activity_cols p))
        /\ (forall (i j : nat) (o : string),
               nth_error (objective_ids p) i = Some o ->
               (Z.of_nat j < max_activity_cols p)%Z ->
               (forall r, In r (rows cells_df) -> objective_of r = o ->
                          Cell.activity_col_idx r = Some (Z.of_nat j + 1)%Z -> False) ->
               cell_at (z_values p) i j = Some None))
  /\ (exists cells p,
         build_objective_activity_cells ragged_daily "M1" 20089 20089 "attempts"
                                        ragged_catalog None None = Ok cells
         /\ build_ragged_matrix_payload {| columns := all_cell_columns; rows := cells |} = Ok p
         /\ objective_ids p = ["o1"; "o2"]
         /\ map (@List.length (option Q)) (z_values p) = [4; 4]%nat
         /\ cell_at (z_values p) 0 2 = Some None
         /\ cell_at (z_values p) 0 3 = Some None
         /\ cell_at (z_values p) 0 1 = Some (Some 0%Q)).
Proof.
  split.
  - intros cells_df Hne Hcols Hone.
    unfold build_ragged_matrix_payload.
    destruct (rows cells_df) as [|r0 rs] eqn:Erows; [congruence|].
    fold cell_columns. rewrite Hcols. cbv beta iota zeta delta [bind].
    destruct (scan_rows_ok (r0 :: rs) Hone) as (labels & ->).
    cbv beta iota zeta delta [bind].
    set (ids := Pl.distinct_by String.eqb (map objective_of (r0 :: rs))).
    set (mx := fold_left Z.max (map col_of (r0 :: rs)) 0%Z).
    destruct (fold_max_ge (map col_of (r0 :: rs)) 0%Z) as [Hmx0 Hmxall]. fold mx in Hmx0, Hmxall.
    assert (Hcolmax : forall r, In r (r0 :: rs) -> (col_of r <= mx)%Z).
    { intros r Hr. apply Hmxall. now apply in_map. }
    destruct (place_rows_ok (r0 :: rs) ids mx Hone) as (z & text & custom & Hrun & Hz & Hcells).
    { intros r Hr. apply distinct_by_In. now apply in_map. }
    { exact Hcolmax. }
    rewrite Hrun. cbv beta iota zeta delta [bind]. eexists. split; [reflexivity|]. simpl.
    destruct Hz as [Hlen Hlines].
    split; [reflexivity|]. split; [exact Hlen|].
    split.
    { intros line Hline. rewrite Forall_forall in Hlines. rewrite (Hlines line Hline). lia. }
    split.
    { intros r k Hr Hk. specialize (Hcolmax r Hr). unfold col_of in Hcolmax.
      now rewrite Hk in Hcolmax. }
    split.
    { destruct (fold_max_attained (map col_of (r0 :: rs)) 0%Z) as [H0|Hin];
        [fold mx in H0 | fold mx in Hin].
      - exfalso. destruct (Hone r0 (or_introl eq_refl)) as (k & Hk & Hk1).
        specialize (Hcolmax r0 (or_introl eq_refl)). unfold col_of in Hcolmax.
        rewrite Hk in Hcolmax. lia.
      - apply in_map_iff in Hin as (r & Hr & Hin). exists r. split; [exact Hin|].
        destruct (Hone r Hin) as (k & Hk & _). unfold col_of in Hr. rewrite Hk in Hr.
        now rewrite Hk, Hr. }
    intros i j o Hi Hj Hnone. apply Hcells.
    + apply nth_error_Some. congruence.
    + lia.
    + intros r Hr Hidx Hcol. apply (Hnone r Hr); [|exact Hcol].
      apply index_of_nth in Hidx as [Hidx _]. congruence.
  - eexists. eexists. split; [vm_compute; reflexivity|].
    split; [vm_compute; reflexivity|]. vm_compute. repeat split.
Qed.

Lemma ragged_payload_grid_witness :
  exists cells p,
    build_objective_activity_cells ragged_daily "M1" 20089 20089 "attempts"
                                   ragged_catalog None None = Ok cells
    /\ build_ragged_matrix_payload {| columns := all_cell_columns; rows := cells |} = Ok p
    /\ List.length (z_values p) = List.length (objective_ids p)
    /\ (forall line, In line (z_values p) ->
                     Z.of_nat (List.length line) = max_activity_cols p).
Proof.
  eexists.
  destruct (proj1 ragged_payload_grid
                  {| columns := all_cell_columns;
                     rows := match build_objective_activity_cells
                                     ragged_daily "M1" 20089 20089 "attempts"
                                     ragged_catalog None None with
                             | Ok l => l
                             | Raise _ => []
                             end |})
    as (p & Hp & _ & Hlen & Hlines & _).
  - vm_compute. discriminate.
  - vm_compute. reflexivity.
  - intros r Hr. vm_compute in Hr.
    repeat (destruct Hr as [<-|Hr]; [eexists; split; [reflexivity|vm_compute; discriminate]|]).
    destruct Hr.
  - exists p. split; [vm_compute; reflexivity|]. split; [exact Hp|]. split; assumption.
Defined.

End MatrixFacts.

(** * The dependency graph *)

Section DependencyFacts.
Import ZpdesDependencies Spec.

(** ** Cleaning text *)

Lemma rstrip_by_idempotent (sp : ascii -> bool) (s : string) :
  rstrip_by sp (rstrip_by sp s) = rstrip_by sp s.
Proof.
  induction s as [|c r IH]; [reflexivity|].
  cbn [rstrip_by]. destruct (rstrip_by sp r) as [|c' r'] eqn:E.
  - destruct (sp c) eqn:Ec; [reflexivity|]. cbn. now rewrite Ec.
  - cbn [rstrip_by]. cbn [rstrip_by] in IH. now rewrite IH.
Qed.

Lemma lstrip_by_head (sp : ascii -> bool) (s : string) :
  lstrip_by sp s = "" \/ exists c r, lstrip_by sp s = String c r /\ sp c = false.
Proof.
  induction s as [|c r IH]; simpl; [now left|].
  destruct (sp c) eqn:E; [exact IH|]. right. eauto.
Qed.

Lemma rstrip_by_head (sp : ascii -> bool) (c : ascii) (r : string) :
  sp c = false -> exists r', rstrip_by sp (String c r) = String c r'.
Proof.
  intros Hc. cbn [rstrip_by]. destruct (rstrip_by sp r); [rewrite Hc|]; eauto.
Qed.

Lemma strip_by_idempotent (sp : ascii -> bool) (s : string) :
  strip_by sp (strip_by sp s) = strip_by sp s.
Proof.
  unfold strip_by.
  destruct (lstrip_by_head sp s) as [E | (c & r & E & Hc)]; rewrite E; [reflexivity|].
  destruct (rstrip_by_head sp c r Hc) as (r' & E'). rewrite E'.
  cbn [lstrip_by]. rewrite Hc. rewrite <- E'. apply rstrip_by_idempotent.
Qed.

Lemma clean_str_idempotent (s : string) :
  _clean_str (PyStr (_clean_str (PyStr s))) = _clean_str (PyStr s).
Proof.
  unfold _clean_str. cbn [str].
  destruct (is_empty (strip s) || (lower (strip s) =? "nan")) eqn:E; [reflexivity|].
  unfold strip in *. rewrite strip_by_idempotent. now rewrite E.
Qed.

Lemma ghost_shaped_not_empty (c : string) : ghost_shaped c = true -> is_empty c = false.
Proof. destruct c; [vm_compute; discriminate | reflexivity]. Qed.

(** ** Dictionaries *)

Lemma dict_set_keys {V : Type} (d : list (string * V)) (k : string) (v : V) (x : string) :
  In x (keys (dict_set d k v)) -> x = k \/ In x (keys d).
Proof.
  unfold keys. rewrite in_map_iff. intros ([k' v'] & <- & H).
  apply dict_set_In in H as [H|H].
  - inversion H; subst. now left.
  - right. apply in_map_iff. now exists (k', v').
Qed.

Lemma dict_set_NoDup {V : Type} (d : list (string * V)) (k : string) (v : V) :
  NoDup (keys d) -> NoDup (keys (dict_set d k v)).
Proof.
  induction d as [|[k' v'] d IH]; simpl; intros H.
  - constructor; [intros []|constructor].
  - inversion H as [|? ? Hk Hd]; subst.
    destruct (k' =? k) eqn:E; simpl.
    + apply String.eqb_eq in E. subst. now constructor.
    + constructor; [|auto].
      intros Hin. apply dict_set_keys in Hin as [->|Hin]; [|contradiction].
      now rewrite String.eqb_refl in E.
Qed.

Lemma In_dict_mem {V : Type} (d : list (string * V)) (k : string) (v : V) :
  In (k, v) d -> dict_mem d k = true.
Proof.
  unfold dict_mem. induction d as [|[k' v'] d IH]; simpl; [intros []|].
  intros [H|H].
  - inversion H; subst. now rewrite String.eqb_refl.
  - destruct (k' =? k); auto.
Qed.

Lemma dict_mem_In {V : Type} (d : list (string * V)) (k : string) :
  dict_mem d k = true -> exists v, In (k, v) d.
Proof.
  unfold dict_mem. destruct (dict_get d k) as [v|] eqn:E; [|discriminate].
  intros _. exists v. now apply dict_get_In.
Qed.

Lemma dict_mem_set {V : Type} (d : list (string * V)) (k : string) (v : V) (x : string) :
  dict_mem (dict_set d k v) x = (x =? k) || dict_mem d x.
Proof.
  unfold dict_mem. induction d as [|[k' v'] d IH]; simpl.
  - rewrite (String.eqb_sym k x). now destruct (x =? k).
  - destruct (k' =? k) eqn:E; simpl.
    + apply String.eqb_eq in E. subst k'. rewrite (String.eqb_sym k x).
      now destruct (x =? k).
    + destruct (k' =? x) eqn:E'; [|exact IH].
      now rewrite orb_true_r.
Qed.

(** ** The node map *)

Lemma keyed_dict_set (m : node_map_t) (k : string) (n : Node.t) :
  keyed m -> Node.node_code n = k -> keyed (dict_set m k n).
Proof.
  intros [Hnd Hk] Hn. split; [now apply dict_set_NoDup|].
  intros k' n' H. apply dict_set_In in H as [H|H]; [|auto].
  now inversion H; subst.
Qed.

Lemma no_ghost_dict_set (m : node_map_t) (k : string) (n : Node.t) :
  no_ghost m -> Node.is_ghost n = false -> no_ghost (dict_set m k n).
Proof.
  intros Hm Hn k' n' H. apply dict_set_In in H as [H|H]; [|eauto].
  now inversion H; subst.
Qed.

Lemma filter_nil {A : Type} (f : A -> bool) (l : list A) :
  (forall x, In x l -> f x = false) -> filter f l = [].
Proof.
  induction l as [|x l IH]; simpl; intros H; [reflexivity|].
  rewrite (H x (or_introl eq_refl)). auto.
Qed.

Lemma keyed_unique (m : node_map_t) (c : string) (n : Node.t) :
  keyed m -> In (c, n) m -> nodes_with_code c (values m) = [n].
Proof.
  unfold nodes_with_code, values.
  induction m as [|[k v] m IH]; intros [Hnd Hk] Hin; [destruct Hin|].
  inversion Hnd as [|? ? Hnotin Hnd']; subst.
  assert (Hm : keyed m) by (split; [exact Hnd'|intros; apply Hk; now right]).
  simpl. destruct Hin as [H|H].
  - inversion H; subst.
    rewrite (Hk c n (or_introl eq_refl)), String.eqb_refl. f_equal.
    apply filter_nil. intros n' Hn'. apply in_map_iff in Hn' as ([k' n''] & <- & Hn').
    simpl. destruct (Node.node_code n'' =? c) eqn:E; [|reflexivity].
    apply String.eqb_eq in E. rewrite (proj2 Hm _ _ Hn') in E. subst k'.
    exfalso. apply Hnotin. apply in_map_iff. now exists (c, n'').
  - rewrite (Hk k v (or_introl eq_refl)).
    destruct (k =? c) eqn:E; [|auto].
    apply String.eqb_eq in E. subst k.
    exfalso. apply Hnotin. apply in_map_iff. now exists (c, n).
Qed.

Lemma keyed_absent (m : node_map_t) (c : string) :
  keyed m -> dict_mem m c = false -> nodes_with_code c (values m) = [].
Proof.
  intros [_ Hk] Hc. apply filter_nil. intros n Hn.
  apply in_map_iff in Hn as ([k n'] & <- & Hn). simpl.
  destruct (Node.node_code n' =? c) eqn:E; [|reflexivity].
  apply String.eqb_eq in E. rewrite (Hk _ _ Hn) in E. subst k.
  apply In_dict_mem in Hn. congruence.
Qed.

(** ** The derivation keeps the node map keyed and the edges clean *)

Lemma real_map_dict_set (m : node_map_t) (k : string) (n : Node.t) :
  real_map m -> Node.node_code n = k -> Node.is_ghost n = false ->
  real_map (dict_set m k n).
Proof.
  intros [Hk Hg] Hc Hn. split; [now apply keyed_dict_set | now apply no_ghost_dict_set].
Qed.

Lemma seed_activity_real (mc : string) (ctg : list (string * pyobj)) (oc : string)
      (m : node_map_t) (activity : pyobj) :
  real_map m -> real_map (seed_activity mc ctg oc m activity).
Proof.
  intros Hm. unfold seed_activity. destruct activity; try exact Hm.
  destruct (is_empty _); [exact Hm|]. now apply real_map_dict_set.
Qed.

Lemma seed_objective_real (mc : string) (ctg : list (string * pyobj))
      (m m' : node_map_t) (objective : pyobj) :
  real_map m -> seed_objective mc ctg m objective = Ok m' -> real_map m'.
Proof.
  intros Hm. unfold seed_objective. destruct objective; try (intros H; now inversion H; subst).
  destruct (is_empty _); [intros H; now inversion H; subst|].
  intros H. apply bind_ok in H as (activities & _ & H). inversion H; subst; clear H.
  apply fold_left_invariant.
  - now apply real_map_dict_set.
  - intros s x _ Hs. now apply seed_activity_real.
Qed.

Lemma overlay_rule_node_real (mc : string) (itc : list (string * list string))
      (itl : list (string * string))
      (st : list (string * list (string * pyobj)) * node_map_t) (node : pyobj) :
  real_map (snd st) -> real_map (snd (overlay_rule_node mc itc itl st node)).
Proof.
  destruct st as [rbc m]. simpl. intros Hm. unfold overlay_rule_node.
  destruct node; try exact Hm.
  match goal with |- context [if is_empty ?c then _ else _] => destruct (is_empty c) end;
    [exact Hm|].
  match goal with |- context [if ?b then _ else _] => destruct b end; [|exact Hm].
  simpl. now apply real_map_dict_set.
Qed.

Lemma add_edge_clean (mc : string) (st : edge_state) (edge_type from_code to_code : string)
      (threshold : option fval) (rule_text : string) (lvl : option Z) (sr : option fval) :
  edge_type = "activation" \/ edge_type = "deactivation" ->
  clean_edges st ->
  clean_edges (_add_edge mc st edge_type from_code to_code threshold rule_text lvl sr).
Proof.
  intros Hty Hst. unfold _add_edge.
  destruct (is_empty _ || is_empty _); [exact Hst|].
  destruct (existsb _ _); [exact Hst|].
  intros e He. simpl in He. apply in_app_or in He as [He|[<-|[]]]; [now apply Hst|].
  split; [apply clean_str_idempotent|]. split; [apply clean_str_idempotent|exact Hty].
Qed.

Lemma requirement_edges_clean (mc : string) (itc : list (string * list string))
      (code : string) (rules : list (string * pyobj)) (st st' : edge_state) :
  clean_edges st -> requirement_edges mc itc code rules st = Ok st' -> clean_edges st'.
Proof.
  intros Hst. unfold requirement_edges.
  destruct (get rules "requirements") as [| | | | |l|]; try (intros H; now inversion H; subst).
  destruct l as [|[| | | | | |req_map] l]; try (intros H; now inversion H; subst).
  apply for_each_invariant; [exact Hst|].
  intros s [target_id source_map] s' _ Hs.
  destruct source_map; try (intros H; now inversion H; subst).
  apply for_each_invariant; [exact Hs|].
  intros s2 [source_id condition] s2' _ Hs2 H.
  apply bind_ok in H as (sr & _ & H). apply bind_ok in H as (lvl & _ & H).
  inversion H; subst. apply add_edge_clean; auto.
Qed.

Lemma deact_requirement_edges_clean (mc : string) (itc : list (string * list string))
      (code : string) (rules : list (string * pyobj)) (st st' : edge_state) :
  clean_edges st -> deact_requirement_edges mc itc code rules st = Ok st' -> clean_edges st'.
Proof.
  intros Hst. unfold deact_requirement_edges.
  destruct (get rules "deact_requirements") as [| | | | |l|];
    try (intros H; now inversion H; subst).
  destruct l as [|[| | | | | |deact_map] l]; try (intros H; now inversion H; subst).
  apply for_each_invariant; [exact Hst|].
  intros s [target_id conditions0] s' _ Hs.
  assert (G : forall conds s0 s0',
             clean_edges s0 ->
             for_each
               (fun st2 (condition : pyobj) =>
                  match condition with
                  | PyDict c =>
                      let source_code := _resolve_code_from_id itc (get c "dim") in
                      sr <- _first_numeric (get c "sr") ;;
                      lvl <- _first_int (get c "lvl") ;;
                      Ok (_add_edge mc st2 "deactivation" source_code
                                    (str_or (_resolve_code_from_id itc (PyStr target_id)) code)
                                    sr "deact_requirements" lvl sr)
                  | _ => Ok st2
                  end) conds s0 = Ok s0' -> clean_edges s0').
  { intros conds s0 s0' Hs0. apply for_each_invariant; [exact Hs0|].
    intros s2 condition s2' _ Hs2.
    destruct condition; try (intros H; now inversion H; subst).
    intros H. apply bind_ok in H as (sr & _ & H). apply bind_ok in H as (lvl & _ & H).
    inversion H; subst. apply add_edge_clean; auto. }
  destruct conditions0; try (intros H; now inversion H; subst); now apply G.
Qed.

Lemma process_rule_real (mc : string) (itc : list (string * list string))
      (st st' : node_map_t * edge_state) (item : string * list (string * pyobj)) :
  real_map (fst st) /\ clean_edges (snd st) ->
  process_rule mc itc st item = Ok st' ->
  real_map (fst st') /\ clean_edges (snd st').
Proof.
  destruct st as [m est], item as [code node]. simpl. intros [Hm He] H.
  unfold process_rule in H.
  apply bind_ok in H as (is_open & _ & H).
  apply bind_ok in H as (est1 & H1 & H).
  apply bind_ok in H as (est2 & H2 & H).
  inversion H; subst; clear H. simpl. split.
  - destruct (dict_get m code) as [n|] eqn:E; [|exact Hm].
    destruct is_open; [|exact Hm].
    apply dict_get_In in E. destruct Hm as [[Hnd Hk] Hg].
    apply real_map_dict_set; [now split| |]; simpl; eauto.
  - eapply deact_requirement_edges_clean; [|exact H2].
    eapply requirement_edges_clean; [exact He|exact H1].
Qed.

(** ** The default-open pass *)

Lemma default_open_keys (es : list Edge.t) (m : node_map_t) :
  keys (default_open es m) = keys m.
Proof.
  unfold default_open, keys. rewrite map_map. apply map_ext.
  intros [k n]. now destruct (negb _ && negb _).
Qed.

Lemma default_open_In (es : list Edge.t) (m : node_map_t) (k : string) (n : Node.t) :
  In (k, n) (default_open es m) ->
  exists n0, In (k, n0) m
             /\ Node.node_code n = Node.node_code n0
             /\ Node.is_ghost n = Node.is_ghost n0
             /\ (Node.init_open n = true \/ mem k (incoming_activation_targets es) = true).
Proof.
  unfold default_open. rewrite in_map_iff. intros ([k0 n0] & H & Hin).
  destruct (Node.init_open n0) eqn:Eo; simpl in H.
  - inversion H; subst. exists n. auto.
  - destruct (mem k0 (incoming_activation_targets es)) eqn:Em; simpl in H;
      inversion H; subst.
    + exists n. auto.
    + exists n0. simpl. auto.
Qed.

Lemma default_open_real (es : list Edge.t) (m : node_map_t) :
  real_map m -> real_map (default_open es m).
Proof.
  intros [[Hnd Hk] Hg]. split; [split|].
  - now rewrite default_open_keys.
  - intros k n H. apply default_open_In in H as (n0 & Hin & Hc & _). rewrite Hc. eauto.
  - intros k n H. apply default_open_In in H as (n0 & Hin & _ & Hgh & _). rewrite Hgh. eauto.
Qed.

Lemma incoming_activation_target (es : list Edge.t) (c : string) :
  (forall e, In e es -> clean_edge e) ->
  mem c (incoming_activation_targets es) = true -> activation_target es c.
Proof.
  intros Hes. unfold mem, incoming_activation_targets. rewrite existsb_exists.
  intros (x & Hx & Hc). apply String.eqb_eq in Hc. subst x.
  apply in_map_iff in Hx as (e & Hto & He). apply filter_In in He as [He Hty].
  destruct (Hes e He) as (_ & Hcto & Hcty). exists e. split; [exact He|].
  split; [|congruence].
  destruct Hcty as [E|E]; [exact E|]. rewrite E in Hty. vm_compute in Hty. discriminate.
Qed.

(** ** Ghost synthesis *)

Lemma add_ghost_In (mc : string) (ctg : list (string * pyobj)) (itl : list (string * string))
      (m : node_map_t) (g k : string) (n : Node.t) :
  In (k, n) (add_ghost mc ctg itl m g) ->
  In (k, n) m
  \/ (k = g /\ ghost_shaped g = true /\ Node.node_code n = g
      /\ Node.is_ghost n = true /\ Node.init_open n = false).
Proof.
  unfold add_ghost. fold (ghost_shaped g). destruct (ghost_shaped g); simpl; [|auto].
  intros H. apply dict_set_In in H as [H|H]; [|auto].
  inversion H; subst. right. auto.
Qed.

Lemma add_ghosts_In (mc : string) (ctg : list (string * pyobj)) (itl : list (string * string))
      (l : list string) (m : node_map_t) (k : string) (n : Node.t) :
  In (k, n) (fold_left (add_ghost mc ctg itl) l m) ->
  In (k, n) m
  \/ (In k l /\ ghost_shaped k = true /\ Node.node_code n = k
      /\ Node.is_ghost n = true /\ Node.init_open n = false).
Proof.
  revert m. induction l as [|g l IH]; simpl; intros m H; [auto|].
  apply IH in H as [H|(H1 & H2)]; [|now auto].
  apply add_ghost_In in H as [H|(-> & H)]; auto.
Qed.

Lemma add_ghost_keyed (mc : string) (ctg : list (string * pyobj)) (itl : list (string * string))
      (m : node_map_t) (g : string) :
  keyed m -> keyed (add_ghost mc ctg itl m g).
Proof.
  intros Hm. unfold add_ghost. destruct (negb _); [exact Hm|]. now apply keyed_dict_set.
Qed.

Lemma add_ghost_mem (mc : string) (ctg : list (string * pyobj)) (itl : list (string * string))
      (m : node_map_t) (g c : string) :
  dict_mem (add_ghost mc ctg itl m g) c = (ghost_shaped g && (c =? g)) || dict_mem m c.
Proof.
  unfold add_ghost. fold (ghost_shaped g). destruct (ghost_shaped g); simpl; [|reflexivity].
  apply dict_mem_set.
Qed.

Lemma add_ghosts_mem (mc : string) (ctg : list (string * pyobj)) (itl : list (string * string))
      (l : list string) (c : string) :
  ghost_shaped c = true ->
  forall m, In c l \/ dict_mem m c = true ->
            dict_mem (fold_left (add_ghost mc ctg itl) l m) c = true.
Proof.
  intros Hc. induction l as [|g l IH]; simpl; intros m H.
  - now destruct H.
  - apply IH. destruct H as [[->|H]|H]; [right|now left|right]; rewrite add_ghost_mem.
    + now rewrite Hc, String.eqb_refl.
    + rewrite H. apply orb_true_r.
Qed.

(** ** The derivation as a whole *)

Lemma derive_real (mc : string) (cat rules : list (string * pyobj)) (dv : derivation) :
  derive mc cat rules = Ok (Some dv) ->
  real_map (d_node_map dv)
  /\ (forall e, In e (d_edges dv) -> clean_edge e)
  /\ (forall k n, In (k, n) (d_node_map dv) ->
                  Node.init_open n = true
                  \/ mem k (incoming_activation_targets (d_edges dv)) = true).
Proof.
  unfold derive.
  destruct (first_dict _ _) as [module_rule|]; [|discriminate].
  intros H.
  apply bind_ok in H as (global_maps & _ & H).
  apply bind_ok in H as (id_index_rows & _ & H).
  apply bind_ok in H as (modules & _ & H).
  apply bind_ok in H as (node_map0 & H0 & H).
  assert (R0 : real_map node_map0).
  { destruct (first_dict _ modules) as [module|].
    - apply bind_ok in H0 as (objectives & _ & H0).
      revert H0. apply for_each_invariant.
      + split; [split; [constructor|intros ? ? []]|intros ? ? []].
      + intros s x s' _ Hs. now apply seed_objective_real.
    - inversion H0; subst.
      split; [split; [constructor|intros ? ? []]|intros ? ? []]. }
  destruct (fold_left _ _ ([], node_map0)) as [rule_by_code node_map1] eqn:E1.
  assert (R1 : real_map node_map1).
  { change node_map1 with (snd (rule_by_code, node_map1)). rewrite <- E1.
    apply fold_left_invariant; [exact R0|].
    intros s x _ Hs. now apply overlay_rule_node_real. }
  apply bind_ok in H as ([node_map2 est] & H2 & H).
  assert (R2 : real_map node_map2 /\ clean_edges est).
  { change (real_map (fst (node_map2, est)) /\ clean_edges (snd (node_map2, est))).
    revert H2.
    apply (for_each_invariant
             (fun st : node_map_t * edge_state => real_map (fst st) /\ clean_edges (snd st))).
    - split; [exact R1|intros e []].
    - intros s x s' _ Hs. now apply process_rule_real. }
  destruct R2 as [R2 C2]. inversion H; subst; clear H. simpl.
  split; [now apply default_open_real|]. split; [exact C2|].
  intros k n Hin. apply default_open_In in Hin as (n0 & _ & _ & _ & Ho). exact Ho.
Qed.

Lemma build_from_derivation (mc : string) (cat rules : list (string * pyobj))
      (dv : derivation) :
  derive mc cat rules = Ok (Some dv) ->
  _build_dependency_tables_from_rules_payload mc cat rules
  = Ok (finish (d_module_code_norm dv) (d_code_to_id_global dv) (d_id_to_label dv)
               (d_node_map dv) (d_edges dv)).
Proof.
  intros H. unfold _build_dependency_tables_from_rules_payload. now rewrite H.
Qed.

Lemma missing_code (es : list Edge.t) (m : node_map_t) (e : Edge.t) (c : string) :
  (forall e, In e es -> clean_edge e) ->
  In e es -> endpoint e c ->
  is_empty c = false -> dict_mem m c = false ->
  In c (missing_codes es m).
Proof.
  intros Hes He Hc Hne Hm. unfold missing_codes. apply sorted_In.
  apply filter_In. split; [|now rewrite Hne, Hm].
  unfold referenced_codes, distinct. apply nodup_In. apply in_or_app.
  destruct (Hes e He) as (Hf & Ht & _).
  destruct Hc as [->| ->]; [left|right]; apply in_map_iff; exists e; auto.
Qed.

Lemma add_ghosts_keyed (mc : string) (ctg : list (string * pyobj))
      (itl : list (string * string)) (l : list string) (m : node_map_t) :
  keyed m -> keyed (fold_left (add_ghost mc ctg itl) l m).
Proof.
  intros Hm. apply fold_left_invariant; [exact Hm|].
  intros s x _ Hs. now apply add_ghost_keyed.
Qed.

(** C4. Once the rules of a module are read, the builder returns its tables,
    and for every edge and every code at one of its ends that is shaped
    like an objective or an activity and absent from the node map, the
    edge is in the edge table and the node table holds exactly one node
    with that code, a ghost. *)
Theorem ghost_node_for_missing_endpoint
        (module_code : string) (catalog_payload rules_payload : list (string * pyobj))
        (dv : derivation) :
  derive module_code catalog_payload rules_payload = Ok (Some dv) ->
  exists nodes edges warnings,
    _build_dependency_tables_from_rules_payload module_code catalog_payload rules_payload
    = Ok (nodes, edges, warnings)
    /\ forall (e : Edge.t) (c : string),
        In e (d_edges dv) -> endpoint e c ->
        ghost_shaped c = true ->
        dict_mem (d_node_map dv) c = false ->
        In e edges
        /\ exists n, nodes_with_code c nodes = [n] /\ Node.is_ghost n = true.
Proof.
  intros Hd. destruct (derive_real _ _ _ _ Hd) as ([Hk Hg] & Hes & _).
  eexists. eexists. eexists. split; [rewrite (build_from_derivation _ _ _ _ Hd); reflexivity|].
  intros e c He Hc Hshape Hm. split; [exact He|].
  set (missing := missing_codes (d_edges dv) (d_node_map dv)).
  set (final := fold_left (add_ghost (d_module_code_norm dv) (d_code_to_id_global dv)
                                     (d_id_to_label dv)) missing (d_node_map dv)).
  assert (Hin : In c missing).
  { eapply missing_code; eauto using ghost_shaped_not_empty. }
  assert (Hmem : dict_mem final c = true).
  { apply add_ghosts_mem; auto. }
  apply dict_mem_In in Hmem as (n & Hn). exists n. split.
  - apply keyed_unique; [|exact Hn]. now apply add_ghosts_keyed.
  - apply add_ghosts_In in Hn as [Hn|(_ & _ & _ & Hn & _)]; [|exact Hn].
    apply In_dict_mem in Hn. congruence.
Qed.

Lemma ghost_node_for_missing_endpoint_witness :
  exists dv nodes edges warnings e,
    derive "M1" dependency_catalog dependency_rules = Ok (Some dv)
    /\ _build_dependency_tables_from_rules_payload "M1" dependency_catalog dependency_rules
       = Ok (nodes, edges, warnings)
    /\ In e (d_edges dv)
    /\ Edge.from_node_code e = "M1O2"
    /\ In e edges
    /\ exists n, nodes_with_code "M1O2" nodes = [n] /\ Node.is_ghost n = true.
Proof.
  evar (dv : derivation).
  assert (Hd : derive "M1" dependency_catalog dependency_rules = Ok (Some dv))
    by (subst dv; vm_compute; reflexivity).
  destruct (ghost_node_for_missing_endpoint _ _ _ _ Hd) as (nodes & edges & warnings & Hb & H).
  exists dv, nodes, edges, warnings. eexists.
  split; [exact Hd|]. split; [exact Hb|].
  assert (Hin : In (nth 0 (d_edges dv) (Edge.mk "" "" "" "" "" "" None "" "" "" None None))
                   (d_edges dv)) by (left; reflexivity).
  split; [exact Hin|]. split; [reflexivity|].
  apply (H _ "M1O2" Hin); [now left|reflexivity|reflexivity].
Defined.

(** C3 (as the code has it). Once the rules of a module are read, for every
    edge and every code at one of its ends that is shaped like a module or
    like nothing, and absent from the node map, the node table holds no
    node with that code and the edge is still in the edge table. *)
Theorem unshaped_endpoint_keeps_edge
        (module_code : string) (catalog_payload rules_payload : list (string * pyobj))
        (dv : derivation) :
  derive module_code catalog_payload rules_payload = Ok (Some dv) ->
  exists nodes edges warnings,
    _build_dependency_tables_from_rules_payload module_code catalog_payload rules_payload
    = Ok (nodes, edges, warnings)
    /\ forall (e : Edge.t) (c : string),
        In e (d_edges dv) -> endpoint e c ->
        _node_type_from_code_strict c = "module"
        \/ _node_type_from_code_strict c = "unknown" ->
        dict_mem (d_node_map dv) c = false ->
        nodes_with_code c nodes = [] /\ In e edges.
Proof.
  intros Hd. destruct (derive_real _ _ _ _ Hd) as ([Hk Hg] & Hes & _).
  eexists. eexists. eexists. split; [rewrite (build_from_derivation _ _ _ _ Hd); reflexivity|].
  intros e c He Hc Hshape Hm. split; [|exact He].
  assert (Hs : ghost_shaped c = false).
  { unfold ghost_shaped. now destruct Hshape as [-> | ->]. }
  apply keyed_absent; [now apply add_ghosts_keyed|].
  match goal with |- dict_mem ?m c = false => destruct (dict_mem m c) eqn:E end;
    [|reflexivity].
  apply dict_mem_In in E as (n & Hn).
  apply add_ghosts_In in Hn as [Hn|(_ & Hn & _)]; [|congruence].
  apply In_dict_mem in Hn. congruence.
Qed.

Lemma unshaped_endpoint_keeps_edge_witness :
  exists dv nodes edges warnings e,
    derive "M1" dependency_catalog dependency_rules = Ok (Some dv)
    /\ _build_dependency_tables_from_rules_payload "M1" dependency_catalog dependency_rules
       = Ok (nodes, edges, warnings)
    /\ In e (d_edges dv)
    /\ Edge.from_node_code e = "M1"
    /\ nodes_with_code "M1" nodes = []
    /\ In e edges.
Proof.
  evar (dv : derivation).
  assert (Hd : derive "M1" dependency_catalog dependency_rules = Ok (Some dv))
    by (subst dv; vm_compute; reflexivity).
  destruct (unshaped_endpoint_keeps_edge _ _ _ _ Hd) as (nodes & edges & warnings & Hb & H).
  exists dv, nodes, edges, warnings. eexists.
  split; [exact Hd|]. split; [exact Hb|].
  assert (Hin : In (nth 1 (d_edges dv) (Edge.mk "" "" "" "" "" "" None "" "" "" None None))
                   (d_edges dv)) by (right; left; reflexivity).
  split; [exact Hin|]. split; [reflexivity|].
  apply (H _ "M1" Hin); [now left|now left|reflexivity].
Defined.

(** The edge from the module code [M1], and the one from the code [X9]
    that has no shape, stay in the edge table of the rules above, though
    neither code has a node. *)
Lemma unshaped_endpoint_edge_not_dropped :
  exists nodes edges warnings e1 e2,
    _build_dependency_tables_from_rules_payload "M1" dependency_catalog dependency_rules
    = Ok (nodes, edges, warnings)
    /\ In e1 edges /\ Edge.from_node_code e1 = "M1"
    /\ _node_type_from_code_strict "M1" = "module"
    /\ nodes_with_code "M1" nodes = []
    /\ In e2 edges /\ Edge.from_node_code e2 = "X9"
    /\ _node_type_from_code_strict "X9" = "unknown"
    /\ nodes_with_code "X9" nodes = [].
Proof.
  do 5 eexists. split; [vm_compute; reflexivity|].
  split; [right; left; reflexivity|]. split; [reflexivity|]. split; [reflexivity|].
  split; [reflexivity|].
  split; [right; right; left; reflexivity|]. repeat split.
Qed.

(** C2 (as the code has it). In the node table, a node that is not a ghost
    and that no activation edge of the edge table points at is open at the
    start, and a ghost node never is. *)
Theorem default_open_except_ghosts
        (module_code : string) (catalog_payload rules_payload : list (string * pyobj))
        (nodes : list Node.t) (edges : list Edge.t) (warnings : list string) (n : Node.t) :
  _build_dependency_tables_from_rules_payload module_code catalog_payload rules_payload
  = Ok (nodes, edges, warnings) ->
  In n nodes ->
  (Node.is_ghost n = false ->
   ~ activation_target edges (Node.node_code n) ->
   Node.init_open n = true)
  /\ (Node.is_ghost n = true -> Node.init_open n = false).
Proof.
  unfold _build_dependency_tables_from_rules_payload.
  destruct (derive module_code catalog_payload rules_payload) as [[dv|]|] eqn:Hd;
    simpl; [| |discriminate].
  - destruct (derive_real _ _ _ _ Hd) as ([[_ Hk] Hg] & Hes & Hopen).
    unfold finish. intros H; inversion H; subst; clear H.
    unfold values. rewrite in_map_iff. intros ([k n'] & <- & Hn). simpl.
    apply add_ghosts_In in Hn as [Hn|(_ & _ & _ & Hgh & Hop)].
    + split.
      * intros _ Hno. destruct (Hopen _ _ Hn) as [Ho|Ht]; [exact Ho|].
        exfalso. apply Hno. rewrite (Hk _ _ Hn).
        now apply incoming_activation_target.
      * intros Hgh. rewrite (Hg _ _ Hn) in Hgh. discriminate.
    + split; [intros Hf; congruence|intros _; exact Hop].
  - intros H; inversion H; subst. intros [].
Qed.

Lemma default_open_except_ghosts_witness :
  exists nodes edges warnings n,
    _build_dependency_tables_from_rules_payload "M1" dependency_catalog dependency_rules
    = Ok (nodes, edges, warnings)
    /\ In n nodes
    /\ Node.node_code n = "M1O1A1"
    /\ Node.init_open n = true.
Proof.
  do 4 eexists. split; [vm_compute; reflexivity|].
  split; [right; left; reflexivity|]. split; [reflexivity|].
  refine (proj1 (default_open_except_ghosts "M1" dependency_catalog dependency_rules
                                            _ _ _ _ _ _) _ _).
  - vm_compute. reflexivity.
  - right. left. reflexivity.
  - reflexivity.
  - intros (e & He & Hty & Hto).
    repeat (destruct He as [<-|He]; [discriminate|]). destruct He.
Defined.

(** The ghost node [M1O2] of the rules above: no activation edge points at
    it, and it is not open at the start. *)
Lemma ghost_node_not_default_open :
  exists nodes edges warnings n,
    _build_dependency_tables_from_rules_payload "M1" dependency_catalog dependency_rules
    = Ok (nodes, edges, warnings)
    /\ In n nodes
    /\ Node.node_code n = "M1O2"
    /\ Node.is_ghost n = true
    /\ filter (fun e => (Edge.edge_type e =? "activation")
                        && (Edge.to_node_code e =? "M1O2")) edges = []
    /\ Node.init_open n = false.
Proof.
  do 4 eexists. split; [vm_compute; reflexivity|].
  split; [right; right; left; reflexivity|]. repeat split.
Qed.

End DependencyFacts.

(** * The fact table *)

Section FactFacts.
Import Derive Spec.

Lemma firstn_incl {A : Type} (n : nat) (l : list A) (x : A) : In x (firstn n l) -> In x l.
Proof.
  intros H. rewrite <- (firstn_skipn n l). apply in_or_app. now left.
Qed.

Lemma left_join_null {L R : Type} (key_l : L -> option string) (key_r : R -> option string)
      (l : L) (right : list R) (x : L * option R) :
  key_l l = None -> In x (Pl.left_join key_l key_r [l] right) -> x = (l, None).
Proof.
  unfold Pl.left_join. simpl. intros ->. simpl. now intros [<-|[]].
Qed.

Lemma left_join_fst {L R : Type} (key_l : L -> option string) (key_r : R -> option string)
      (l : L) (right : list R) (x : L * option R) :
  In x (Pl.left_join key_l key_r [l] right) -> fst x = l.
Proof.
  unfold Pl.left_join. simpl. rewrite app_nil_r.
  destruct (key_l l); [|now intros [<-|[]]].
  destruct (filter _ right) as [|r0 rs]; [now intros [<-|[]]|].
  intros H. apply (in_map_iff (fun r => (l, Some r)) (r0 :: rs) x) in H.
  now destruct H as (r1 & <- & _).
Qed.

Lemma reconcile_first_tier (src : sources) (ev : Raw.t) (h : option Hier.t) :
  let row := reconcile src ev h (exercise_row src ev) in
  (Fact.mapping_source row, Fact.module_code row)
  = first_tier (module_code_tiers src ev h (Fact.fallback_code_raw row)).
Proof.
  unfold reconcile, module_code_tiers, mapping_source_of. cbn [Fact.mapping_source
    Fact.module_code Fact.fallback_code_raw first_tier].
  destruct (Pl.col Hier.module_code h) as [c|]; [reflexivity|].
  destruct (Pl.col ExHier.module_code_exercise_summary (exercise_row src ev)) as [c|];
    [reflexivity|].
  destruct (Pl.extract_module _) as [c|]; reflexivity.
Qed.

(** C1 (as the code has it). Every row of the fact table comes from an
    event and a hierarchy row joined on its activity, and its
    [mapping_source] names the first of the three tiers that has a module
    code, which is the row's [module_code]: the hierarchy row of the
    activity, the hierarchy row of the exercise, the module code of the
    rules fallback; [unmapped] when none has one.  So an event without an
    activity whose exercise has a hierarchy row with a module code is
    [catalog_exercise], whatever the rules fallback resolves. *)
Theorem mapping_source_first_tier
        (catalog rules : list (string * pyobj)) (events : list Raw.t)
        (sample_rows : option nat) (fact : list Fact.t) (row : Fact.t) :
  build_fact_attempt_core catalog rules events sample_rows = Ok fact ->
  In row fact ->
  exists (src : sources) (raw : Raw.t) (h : option Hier.t),
    load_sources catalog rules = Ok src
    /\ In raw events
    /\ In (normalize_ids raw, h)
          (Pl.left_join Raw.activity_id Hier.activity_id [normalize_ids raw] (hierarchy src))
    /\ (Fact.mapping_source row, Fact.module_code row)
       = first_tier (module_code_tiers src (normalize_ids raw) h (Fact.fallback_code_raw row))
    /\ (Raw.activity_id (normalize_ids raw) = None ->
        forall c,
          Pl.col ExHier.module_code_exercise_summary (exercise_row src (normalize_ids raw))
          = Some c ->
          Fact.mapping_source row = "catalog_exercise" /\ Fact.module_code row = Some c).
Proof.
  unfold build_fact_attempt_core. intros H Hrow.
  apply bind_ok in H as (src & Hsrc & H). inversion H; subst fact; clear H.
  unfold fact_of_sources in Hrow. apply in_flat_map in Hrow as (raw & Hraw & Hrow).
  unfold fact_rows_of in Hrow. apply in_map_iff in Hrow as ([e h] & Hr & Hin).
  assert (He : e = normalize_ids raw) by (now apply left_join_fst in Hin).
  subst e. fold (exercise_row src (normalize_ids raw)) in Hr.
  exists src, raw, h. split; [exact Hsrc|]. split.
  { destruct sample_rows; [now apply firstn_incl in Hraw|exact Hraw]. }
  split; [exact Hin|].
  pose proof (reconcile_first_tier src (normalize_ids raw) h) as Ht. cbv zeta in Ht.
  rewrite Hr in Ht. split; [exact Ht|].
  intros Hnull c Hc. apply (left_join_null _ _ _ _ _ Hnull) in Hin.
  inversion Hin; subst h. unfold module_code_tiers in Ht. rewrite Hc in Ht.
  simpl in Ht. now inversion Ht.
Qed.

Lemma mapping_source_first_tier_witness :
  exists (row : Fact.t) (src : sources) (raw : Raw.t),
    build_fact_attempt_core (fact_catalog "a1") fact_rules [playlist_event "m1"] None
    = Ok [row]
    /\ load_sources (fact_catalog "a1") fact_rules = Ok src
    /\ Raw.activity_id (normalize_ids raw) = None
    /\ Pl.col ExHier.module_code_exercise_summary (exercise_row src (normalize_ids raw))
       = Some "M1"
    /\ Fact.fallback_code_raw row = Some "M1"
    /\ Fact.mapping_source row = "catalog_exercise"
    /\ Fact.module_code row = Some "M1".
Proof.
  evar (row : Fact.t).
  assert (Hrun : build_fact_attempt_core (fact_catalog "a1") fact_rules
                                         [playlist_event "m1"] None = Ok [row])
    by (subst row; vm_compute; reflexivity).
  destruct (mapping_source_first_tier _ _ _ _ _ row Hrun (or_introl eq_refl))
    as (src & raw & h & Hsrc & Hraw & Hin & Ht & Hex).
  evar (src0 : sources).
  assert (Hs : load_sources (fact_catalog "a1") fact_rules = Ok src0)
    by (subst src0; vm_compute; reflexivity).
  rewrite Hs in Hsrc. injection Hsrc as Hsrc. subst src.
  destruct Hraw as [<-|[]].
  exists row, src0, (playlist_event "m1"). split; [exact Hrun|]. split; [exact Hs|].
  assert (Hc : Pl.col ExHier.module_code_exercise_summary
                      (exercise_row src0 (normalize_ids (playlist_event "m1"))) = Some "M1")
    by (vm_compute; reflexivity).
  split; [reflexivity|]. split; [exact Hc|]. split; [reflexivity|].
  exact (Hex eq_refl "M1" Hc).
Defined.

(** The exercise [ex-1] is in [exercise_to_hierarchy], mapped to an
    activity that the module tree does not have: the event, without
    activity and objective, gets its module id from the exercise and its
    module code from the rules, and is [rules_code_fallback]. *)
Lemma exercise_without_hierarchy_row_falls_back :
  exists (row : Fact.t),
    build_fact_attempt_core (fact_catalog "a9") fact_rules [playlist_event "m1"] None
    = Ok [row]
    /\ Raw.activity_id (normalize_ids (playlist_event "m1")) = None
    /\ Raw.objective_id (normalize_ids (playlist_event "m1")) = None
    /\ Raw.exercise_id (normalize_ids (playlist_event "m1")) = Some "ex-1"
    /\ dict_mem (match get (fact_catalog "a9") "exercise_to_hierarchy" with
                 | PyDict d => d
                 | _ => []
                 end) "ex-1" = true
    /\ Fact.module_id row = Some "m1"
    /\ Fact.module_code row = Some "M1"
    /\ Fact.mapping_source row = "rules_code_fallback".
Proof.
  eexists. split; [vm_compute; reflexivity|]. repeat split.
Qed.

End FactFacts.

Section CodeFacts.
Import ZpdesDependencies Spec.

(** ** Text without surrounding whitespace *)

Lemma rstrip_by_not_ending (sp : ascii -> bool) (s : string) :
  not_ending sp (rstrip_by sp s) = true.
Proof.
  induction s as [|c r IH]; [reflexivity|].
  cbn [rstrip_by]. destruct (rstrip_by sp r) as [|c' r'] eqn:E.
  - destruct (sp c) eqn:Ec; [reflexivity|]. simpl. now rewrite Ec.
  - exact IH.
Qed.

Lemma rstrip_by_fixed (sp : ascii -> bool) (s : string) :
  not_ending sp s = true -> rstrip_by sp s = s.
Proof.
  induction s as [|c r IH]; [reflexivity|].
  intros H. cbn [rstrip_by]. destruct r as [|c' r'].
  - simpl in *. now destruct (sp c).
  - rewrite IH; [reflexivity|exact H].
Qed.

Lemma lstrip_by_fixed (sp : ascii -> bool) (s : string) :
  not_starting sp s = true -> lstrip_by sp s = s.
Proof.
  destruct s as [|c r]; [reflexivity|]. simpl. now destruct (sp c).
Qed.

Lemma strip_by_fixed (sp : ascii -> bool) (s : string) :
  not_starting sp s = true -> not_ending sp s = true -> strip_by sp s = s.
Proof.
  intros H1 H2. unfold strip_by. rewrite lstrip_by_fixed by exact H1.
  now apply rstrip_by_fixed.
Qed.

Lemma strip_by_not_starting (sp : ascii -> bool) (s : string) :
  not_starting sp (strip_by sp s) = true.
Proof.
  unfold strip_by.
  destruct (lstrip_by_head sp s) as [E | (c & r & E & Hc)]; rewrite E; [reflexivity|].
  destruct (rstrip_by_head sp c r Hc) as (r' & E'). rewrite E'. simpl. now rewrite Hc.
Qed.

Lemma strip_by_not_ending (sp : ascii -> bool) (s : string) :
  not_ending sp (strip_by sp s) = true.
Proof. apply rstrip_by_not_ending. Qed.

Lemma all_chars_not_ending (sp : ascii -> bool) (s : string) :
  all_chars (fun c => negb (sp c)) s = true -> not_ending sp s = true.
Proof.
  induction s as [|c r IH]; [reflexivity|]. simpl.
  intros H. apply andb_true_iff in H as [Hc Hr]. destruct r; [exact Hc|auto].
Qed.

(** The text [_clean_str] builds from the printed value. *)
Lemma clean_str_of_text (v : pyobj) :
  v <> PyNone -> _clean_str v = _clean_str (PyStr (str v)).
Proof. destruct v; intros H; try reflexivity. congruence. Qed.

Lemma clean_str_not_ending (value : pyobj) :
  not_ending isspace (_clean_str value) = true.
Proof.
  assert (G : forall s, not_ending isspace (_clean_str (PyStr s)) = true).
  { intros s. unfold _clean_str. cbn [str].
    destruct (is_empty (strip s) || (lower (strip s) =? "nan")); [reflexivity|].
    unfold strip. apply strip_by_not_ending. }
  destruct value eqn:Ev; try (rewrite clean_str_of_text by discriminate; apply G).
  reflexivity.
Qed.

(** X1. [_clean_str] gives a normal form: cleaning its result again changes
    nothing, and the result has no whitespace at either end and is not
    [nan] in any letter case. *)
Theorem clean_str_normal_form (value : pyobj) :
  _clean_str (PyStr (_clean_str value)) = _clean_str value
  /\ strip (_clean_str value) = _clean_str value
  /\ not_starting isspace (_clean_str value) = true
  /\ not_ending isspace (_clean_str value) = true
  /\ (lower (_clean_str value) =? "nan") = false.
Proof.
  assert (G : forall s,
             _clean_str (PyStr (_clean_str (PyStr s))) = _clean_str (PyStr s)
             /\ strip (_clean_str (PyStr s)) = _clean_str (PyStr s)
             /\ not_starting isspace (_clean_str (PyStr s)) = true
             /\ not_ending isspace (_clean_str (PyStr s)) = true
             /\ (lower (_clean_str (PyStr s)) =? "nan") = false).
  { intros s. split; [apply clean_str_idempotent|].
    unfold _clean_str. cbn [str].
    destruct (is_empty (strip s) || (lower (strip s) =? "nan")) eqn:E;
      [repeat split|].
    apply orb_false_iff in E as [_ E].
    unfold strip in *. rewrite strip_by_idempotent.
    repeat split; auto using strip_by_not_starting, strip_by_not_ending. }
  destruct (value) eqn:Ev; try (rewrite clean_str_of_text by discriminate; apply G).
  repeat split.
Qed.

(** ** Codes *)

Lemma span_digits_spec (s : string) :
  s = append (fst (span_digits s)) (snd (span_digits s))
  /\ all_chars isdigit (fst (span_digits s)) = true
  /\ not_starting isdigit (snd (span_digits s)) = true.
Proof.
  induction s as [|c r IH]; [repeat split|].
  simpl. destruct (isdigit c) eqn:Ec.
  - destruct (span_digits r) as [ds rest]. simpl in *.
    destruct IH as (H1 & H2 & H3). rewrite Ec, H2. repeat split; auto. now f_equal.
  - simpl. rewrite Ec. repeat split.
Qed.

Lemma span_digits_app (ds rest : string) :
  all_chars isdigit ds = true -> not_starting isdigit rest = true ->
  span_digits (append ds rest) = (ds, rest).
Proof.
  induction ds as [|c r IH]; simpl; intros Hd Hr.
  - destruct rest as [|c r]; [reflexivity|]. simpl in *.
    now destruct (isdigit c).
  - apply andb_true_iff in Hd as [Hc Hd]. rewrite Hc, IH; auto.
Qed.

(** A letter and digits, as [letter_digits] reads them. *)
Lemma letter_digits_spec (l : ascii) (s ds rest : string) :
  Re.letter_digits l s = Some (ds, rest) ->
  s = String l (append ds rest)
  /\ ds <> "" /\ all_chars isdigit ds = true /\ not_starting isdigit rest = true.
Proof.
  unfold Re.letter_digits. destruct s as [|c r]; [discriminate|].
  destruct (Ascii.eqb c l) eqn:Ec; [|discriminate].
  apply Ascii.eqb_eq in Ec. subst c.
  pose proof (span_digits_spec r) as (H1 & H2 & H3).
  destruct (span_digits r) as [[|d ds'] rest']; [discriminate|].
  intros H; inversion H; subst. simpl in *.
  split; [now f_equal|]. split; [discriminate|]. split; assumption.
Qed.

Lemma letter_digits_app (l : ascii) (ds rest : string) :
  ds <> "" -> all_chars isdigit ds = true -> not_starting isdigit rest = true ->
  Re.letter_digits l (String l (append ds rest)) = Some (ds, rest).
Proof.
  intros Hne Hd Hr. unfold Re.letter_digits. rewrite Ascii.eqb_refl.
  rewrite span_digits_app by assumption. destruct ds; [congruence|reflexivity].
Qed.

Lemma append_assoc (a b c : string) : append (append a b) c = append a (append b c).
Proof. induction a as [|x a IH]; simpl; [reflexivity|now rewrite IH]. Qed.

Lemma append_empty_r (a : string) : append a "" = a.
Proof. induction a as [|x a IH]; simpl; [reflexivity|now rewrite IH]. Qed.

Lemma all_chars_app (p : ascii -> bool) (a b : string) :
  all_chars p (append a b) = all_chars p a && all_chars p b.
Proof.
  induction a as [|x a IH]; simpl; [reflexivity|]. now rewrite IH, andb_assoc.
Qed.

Lemma all_chars_impl (p q : ascii -> bool) (s : string) :
  (forall c, p c = true -> q c = true) -> all_chars p s = true -> all_chars q s = true.
Proof.
  intros Hpq. induction s as [|c r IH]; simpl; [reflexivity|].
  intros H. apply andb_true_iff in H as [Hc Hr]. now rewrite (Hpq c Hc), IH.
Qed.

Lemma isdigit_not_space (c : ascii) : isdigit c = true -> negb (isspace c) = true.
Proof.
  unfold isdigit, isspace, in_range. generalize (code c). intros n H.
  apply andb_true_iff in H as [H1 H2].
  apply Nat.leb_le in H1, H2.
  repeat match goal with
         | |- context [(?a <=? ?b)%nat] => destruct (Nat.leb_spec a b)
         | |- context [(?a =? ?b)%nat] => destruct (Nat.eqb_spec a b)
         end; simpl; try reflexivity; lia.
Qed.

(** What [objective_prefix] reads is an objective code of its own. *)
Lemma objective_prefix_spec (s o rest : string) :
  Re.objective_prefix s = Some (o, rest) ->
  s = append o rest
  /\ Re.objective_prefix o = Some (o, "")
  /\ all_chars (fun c => negb (isspace c)) o = true
  /\ not_starting isdigit rest = true
  /\ exists r, o = String "M" r.
Proof.
  unfold Re.objective_prefix, Re.module_prefix.
  destruct (Re.letter_digits "M" s) as [[m r1]|] eqn:Em; [|discriminate].
  destruct (Re.letter_digits "O" r1) as [[d r2]|] eqn:Eo; [|discriminate].
  intros H; inversion H; subst; clear H.
  apply letter_digits_spec in Em as (Es & Hm & Hmd & _).
  apply letter_digits_spec in Eo as (Er & Hd & Hdd & Hr).
  subst s r1. split; [|split; [|split; [|split]]].
  - simpl. f_equal. rewrite !append_assoc. reflexivity.
  - cbn [append]. unfold Re.objective_prefix, Re.module_prefix.
    rewrite (letter_digits_app "M" m (String "O" d)); auto.
    pose proof (letter_digits_app "O" d "" Hd Hdd eq_refl) as Hod.
    rewrite append_empty_r in Hod. now rewrite Hod.
  - simpl. rewrite all_chars_app. simpl.
    rewrite (all_chars_impl _ _ m isdigit_not_space Hmd).
    now rewrite (all_chars_impl _ _ d isdigit_not_space Hdd).
  - exact Hr.
  - simpl. eauto.
Qed.

Lemma objective_shaped_clean (o : string) :
  Re.objective_prefix o = Some (o, "") -> _clean_str (PyStr o) = o.
Proof.
  intros H. destruct (objective_prefix_spec _ _ _ H) as (_ & _ & Hns & _ & (r & ->)).
  unfold _clean_str. cbn [str]. unfold strip.
  rewrite strip_by_fixed; [reflexivity|reflexivity|].
  now apply all_chars_not_ending.
Qed.

Lemma at_end_clean (v : pyobj) (o rest : string) :
  _clean_str v = append o rest -> Re.at_end rest = true -> rest = "".
Proof.
  intros E Hend. destruct rest as [|c [|c' r]]; [reflexivity| |discriminate].
  simpl in Hend. apply Nat.eqb_eq in Hend.
  pose proof (clean_str_not_ending v) as Hne.
  rewrite E in Hne. exfalso. clear E.
  induction o as [|x o IH]; simpl in Hne.
  - unfold isspace, in_range in Hne. rewrite Hend in Hne. discriminate.
  - destruct (append o (String c "")) eqn:Eo; [destruct o; discriminate|auto].
Qed.

(** X2. The objective code [parse_objective_code] reads from a node code
    is an objective code itself: read again, with any node type, it gives
    itself, and it has no activity index. *)
Theorem parse_objective_code_fixed_point
        (node_code : string) (node_type node_type' : option string) (o : string) :
  parse_objective_code node_code node_type = Some o ->
  parse_objective_code o node_type' = Some o
  /\ parse_activity_index o = None
  /\ _node_type_from_code_strict o = "objective".
Proof.
  intros H.
  assert (Ho : Re.objective_prefix o = Some (o, "")).
  { unfold parse_objective_code in H.
    set (code := _clean_str (PyStr node_code)) in *.
    destruct (is_empty code); [discriminate|].
    assert (Hobj : forall x, Re.match_objective code = Some x ->
                             Re.objective_prefix x = Some (x, "") /\ code = x).
    { unfold Re.match_objective. intros x Hx.
      destruct (Re.objective_prefix code) as [[o' rest]|] eqn:E; [|discriminate].
      destruct (Re.at_end rest) eqn:Hend; [|discriminate]. inversion Hx; subst o'.
      destruct (objective_prefix_spec _ _ _ E) as (Es & Hx' & _).
      split; [exact Hx'|]. unfold code in Es.
      rewrite (at_end_clean _ _ _ Es Hend) in Es. now rewrite append_empty_r in Es. }
    destruct (match node_type with Some t => t =? "objective" | None => false end
              && Re.is_some (Re.match_objective code)) eqn:Eb.
    - inversion H; subst o. apply andb_true_iff in Eb as [_ Eb].
      destruct (Re.match_objective code) as [x|] eqn:Ex; [|discriminate].
      destruct (Hobj x eq_refl) as [Hx <-]. exact Hx.
    - destruct (Re.match_activity code) as [[o' a]|] eqn:Ea.
      + inversion H; subst o'. unfold Re.match_activity, Re.activity_prefix in Ea.
        destruct (Re.objective_prefix code) as [[o' r1]|] eqn:E; [|discriminate].
        destruct (Re.letter_digits "A" r1) as [[a' r2]|]; [|discriminate].
        destruct (Re.at_end r2); [|discriminate]. inversion Ea; subst.
        now destruct (objective_prefix_spec _ _ _ E) as (_ & Hx & _).
      + destruct (Re.match_objective code) as [x|] eqn:Ex; [|discriminate].
        inversion H; subst x. now destruct (Hobj o eq_refl). }
  assert (Hc : _clean_str (PyStr o) = o) by now apply objective_shaped_clean.
  assert (Hm : Re.match_objective o = Some o)
    by (unfold Re.match_objective; now rewrite Ho).
  assert (Ha : Re.match_activity o = None)
    by (unfold Re.match_activity, Re.activity_prefix; now rewrite Ho).
  assert (Hne : is_empty o = false).
  { destruct (objective_prefix_spec _ _ _ Ho) as (_ & _ & _ & _ & (r & ->)). reflexivity. }
  repeat split.
  - unfold parse_objective_code. rewrite Hc, Hne, Hm, Ha. simpl.
    now destruct (match node_type' with Some t => t =? "objective" | None => false end).
  - unfold parse_activity_index. now rewrite Hc, Ha.
  - unfold _node_type_from_code_strict. now rewrite Hc, Ha, Hm.
Qed.

Lemma parse_objective_code_fixed_point_witness :
  parse_objective_code " M12O3A45 " None = Some "M12O3"
  /\ parse_objective_code "M12O3" (Some "activity") = Some "M12O3"
  /\ parse_activity_index "M12O3" = None
  /\ _node_type_from_code_strict "M12O3" = "objective".
Proof.
  split; [reflexivity|].
  exact (parse_objective_code_fixed_point " M12O3A45 " None (Some "activity") "M12O3"
                                          eq_refl).
Defined.

(** X3. The preferred code depends on the candidates as a set only: two
    lists with the same cleaned candidates, in any order and with any
    repetitions, give the same code. *)
Theorem preferred_code_order_independent (codes codes' : list string) :
  (forall c, In c (cleaned_codes codes) <-> In c (cleaned_codes codes')) ->
  _preferred_code_from_list codes = _preferred_code_from_list codes'.
Proof.
  intros Hsame. unfold _preferred_code_from_list.
  destruct (cleaned_codes codes) as [|x xs] eqn:E, (cleaned_codes codes') as [|y ys] eqn:E'.
  - reflexivity.
  - exfalso. apply (proj2 (Hsame y)). now left.
  - exfalso. apply (proj1 (Hsame x)). now left.
  - destruct (sorted_codes_head (x :: xs)) as (c & Hc & Hin & Hbest & _); [discriminate|].
    destruct (sorted_codes_head (y :: ys)) as (c' & Hc' & Hin' & Hbest' & Huniq');
      [discriminate|].
    rewrite Hc, Hc'. f_equal. apply Huniq'; [now apply Hsame|].
    intros c2 Hc2. apply Hbest. now apply Hsame.
Qed.

Lemma preferred_code_order_independent_witness :
  _preferred_code_from_list ["M1"; " M1O1 "; "M1O1A1"; ""]
  = _preferred_code_from_list ["M1O1A1"; "M1O1"; "M1"; "M1O1A1"].
Proof.
  apply preferred_code_order_independent. intros c. vm_compute. tauto.
Defined.

End CodeFacts.

Section TableFacts.
Import ZpdesDependencies Spec.

(** ** An invariant of the edge list *)

Section EdgeInvariant.
Variable mc : string.
Variable itc : list (string * list string).
Variable P : edge_state -> Prop.
Hypothesis P_add :
  forall st ty text from to th lvl,
    (ty = "activation" /\ text = "requirements")
    \/ (ty = "deactivation" /\ text = "deact_requirements") ->
    P st -> P (_add_edge mc st ty from to th text lvl th).

Lemma requirement_edges_inv (code : string) (rules : list (string * pyobj))
      (st st' : edge_state) :
  P st -> requirement_edges mc itc code rules st = Ok st' -> P st'.
Proof.
  intros Hst. unfold requirement_edges.
  destruct (get rules "requirements") as [| | | | |l|]; try (intros H; now inversion H; subst).
  destruct l as [|[| | | | | |req_map] l]; try (intros H; now inversion H; subst).
  apply for_each_invariant; [exact Hst|].
  intros s [target_id source_map] s' _ Hs.
  destruct source_map; try (intros H; now inversion H; subst).
  apply for_each_invariant; [exact Hs|].
  intros s2 [source_id condition] s2' _ Hs2 H.
  apply bind_ok in H as (sr & _ & H). apply bind_ok in H as (lvl & _ & H).
  inversion H; subst. apply P_add; auto.
Qed.

Lemma deact_requirement_edges_inv (code : string) (rules : list (string * pyobj))
      (st st' : edge_state) :
  P st -> deact_requirement_edges mc itc code rules st = Ok st' -> P st'.
Proof.
  intros Hst. unfold deact_requirement_edges.
  destruct (get rules "deact_requirements") as [| | | | |l|];
    try (intros H; now inversion H; subst).
  destruct l as [|[| | | | | |deact_map] l]; try (intros H; now inversion H; subst).
  apply for_each_invariant; [exact Hst|].
  intros s [target_id conditions0] s' _ Hs.
  assert (G : forall conds s0 s0',
             P s0 ->
             for_each
               (fun st2 (condition : pyobj) =>
                  match condition with
                  | PyDict c =>
                      let source_code := _resolve_code_from_id itc (get c "dim") in
                      sr <- _first_numeric (get c "sr") ;;
                      lvl <- _first_int (get c "lvl") ;;
                      Ok (_add_edge mc st2 "deactivation" source_code
                                    (str_or (_resolve_code_from_id itc (PyStr target_id)) code)
                                    sr "deact_requirements" lvl sr)
                  | _ => Ok st2
                  end) conds s0 = Ok s0' -> P s0').
  { intros conds s0 s0' Hs0. apply for_each_invariant; [exact Hs0|].
    intros s2 condition s2' _ Hs2.
    destruct condition; try (intros H; now inversion H; subst).
    intros H. apply bind_ok in H as (sr & _ & H). apply bind_ok in H as (lvl & _ & H).
    inversion H; subst. apply P_add; auto. }
  destruct conditions0; try (intros H; now inversion H; subst); now apply G.
Qed.

Lemma process_rule_edges_inv (st st' : node_map_t * edge_state)
      (item : string * list (string * pyobj)) :
  P (snd st) -> process_rule mc itc st item = Ok st' -> P (snd st').
Proof.
  destruct st as [m est], item as [code node]. simpl. intros He H.
  unfold process_rule in H.
  apply bind_ok in H as (is_open & _ & H).
  apply bind_ok in H as (est1 & H1 & H).
  apply bind_ok in H as (est2 & H2 & H).
  inversion H; subst; clear H. simpl.
  eapply deact_requirement_edges_inv; [|exact H2].
  eapply requirement_edges_inv; [exact He|exact H1].
Qed.
End EdgeInvariant.

Lemma derive_edges_inv (P : edge_state -> Prop) (mc : string)
      (cat rules : list (string * pyobj)) (dv : derivation) :
  (forall st ty text from to th lvl,
      (ty = "activation" /\ text = "requirements")
      \/ (ty = "deactivation" /\ text = "deact_requirements") ->
      P st -> P (_add_edge (_clean_str (PyStr mc)) st ty from to th text lvl th)) ->
  P {| edges := []; edge_seen := [] |} ->
  derive mc cat rules = Ok (Some dv) ->
  d_module_code_norm dv = _clean_str (PyStr mc)
  /\ exists est, d_edges dv = edges est /\ P est.
Proof.
  intros Hadd H0. unfold derive.
  destruct (first_dict _ _) as [module_rule|]; [|discriminate].
  intros H.
  apply bind_ok in H as (global_maps & _ & H).
  apply bind_ok in H as (id_index_rows & _ & H).
  apply bind_ok in H as (modules & _ & H).
  apply bind_ok in H as (node_map0 & _ & H).
  destruct (fold_left _ _ ([], node_map0)) as [rule_by_code node_map1].
  apply bind_ok in H as ([node_map2 est] & H2 & H).
  inversion H; subst; clear H. simpl. split; [reflexivity|].
  exists est. split; [reflexivity|].
  change (P (snd (node_map2, est))). revert H2.
  apply (for_each_invariant (fun st : node_map_t * edge_state => P (snd st))); [exact H0|].
  intros s x s' _ Hs. now apply process_rule_edges_inv.
Qed.

Lemma build_tables_cases (mc : string) (cat rules : list (string * pyobj))
      (nodes : list Node.t) (es : list Edge.t) (warnings : list string) :
  _build_dependency_tables_from_rules_payload mc cat rules = Ok (nodes, es, warnings) ->
  (derive mc cat rules = Ok None /\ nodes = [] /\ es = [])
  \/ exists dv, derive mc cat rules = Ok (Some dv)
                /\ es = d_edges dv
                /\ nodes = values (fold_left (add_ghost (d_module_code_norm dv)
                                                        (d_code_to_id_global dv)
                                                        (d_id_to_label dv))
                                             (missing_codes (d_edges dv) (d_node_map dv))
                                             (d_node_map dv)).
Proof.
  unfold _build_dependency_tables_from_rules_payload.
  destruct (derive mc cat rules) as [[dv|]|]; simpl; [| |discriminate].
  - unfold finish. intros H; inversion H; subst. right. exists dv. auto.
  - intros H; inversion H; subst. left. auto.
Qed.

Lemma clean_not_empty (s : string) (b : bool) :
  is_empty (_clean_str (PyStr s)) || b = false -> is_empty (_clean_str (PyStr s)) = false.
Proof. now destruct (is_empty _). Qed.

(** [round_half_even] gives a nearest integer, the even one at a tie. *)
Lemma round_half_even_nearest (q : Q) :
  (Qabs (q - inject_Z (round_half_even q)) <= 1 # 2)%Q
  /\ ((Qabs (q - inject_Z (round_half_even q)) == 1 # 2)%Q ->
      Z.even (round_half_even q) = true).
Proof.
  unfold round_half_even.
  pose proof (Qfloor_le q) as Hlo. pose proof (Qlt_floor q) as Hhi.
  set (f := Qfloor q) in *.
  rewrite inject_Z_plus in Hhi. change (inject_Z 1) with 1%Q in Hhi.
  assert (Hup : (inject_Z (f + 1) == inject_Z f + 1)%Q)
    by (rewrite inject_Z_plus; reflexivity).
  destruct (Qcompare (q - inject_Z f) (1 # 2)) eqn:E.
  - apply Qeq_alt in E. destruct (Z.even f) eqn:Ev.
    + split; [|auto]. apply Qabs_Qle_condition. split; lra.
    + split; [apply Qabs_Qle_condition; rewrite Hup; split; lra|].
      intros _. rewrite Z.even_add, Ev. reflexivity.
  - apply Qlt_alt in E. split; [apply Qabs_Qle_condition; split; lra|].
    intros Ht. rewrite Qabs_pos in Ht by lra. lra.
  - apply Qgt_alt in E. split; [apply Qabs_Qle_condition; rewrite Hup; split; lra|].
    intros Ht. rewrite Qabs_neg in Ht by (rewrite Hup; lra). rewrite Hup in Ht. lra.
Qed.

Lemma round6_six_places (x : fval) : six_places x (round6 x).
Proof.
  destruct x as [q| |]; simpl; auto.
  exists (round_half_even (q * inject_Z 1000000)).
  destruct (round_half_even_nearest (q * inject_Z 1000000)) as [H1 H2]. auto.
Qed.

Lemma same_edge_dedup (e e' : Edge.t) :
  dedup_eqb (edge_key e) (edge_key e') = true <-> same_edge e e'.
Proof.
  unfold dedup_eqb, edge_key, same_edge, same_threshold.
  rewrite !andb_true_iff, !String.eqb_eq.
  destruct (Edge.threshold_value e) as [[x|s|]|], (Edge.threshold_value e') as [[y|s'|]|];
    simpl; rewrite ?Qeq_bool_iff, ?Bool.eqb_true_iff; intuition congruence.
Qed.

(** X4. Every edge of the edge table carries the cleaned module code, two
    codes that are not empty, one of the two edge types with the rule text
    that goes with it, and a threshold that is the success rate of the rule
    rounded to six decimals as [round(x, 6)] rounds a binary64 value (the
    nearest multiple of [10^-6], the even one at a tie, read back as a
    float), named [success_rate] when there is one and [unknown] when there
    is none. *)
Theorem edge_table_well_formed
        (module_code : string) (catalog_payload rules_payload : list (string * pyobj))
        (nodes : list Node.t) (edges : list Edge.t) (warnings : list string) (e : Edge.t) :
  _build_dependency_tables_from_rules_payload module_code catalog_payload rules_payload
  = Ok (nodes, edges, warnings) ->
  In e edges ->
  edge_ok (_clean_str (PyStr module_code)) e
  /\ threshold_of (Edge.enrich_sr e) (Edge.threshold_value e).
Proof.
  intros H He.
  assert (Hok : edge_ok (_clean_str (PyStr module_code)) e);
    [|split; [exact Hok|];
      destruct Hok as (_ & _ & _ & _ & -> & _);
      destruct (Edge.enrich_sr e); simpl; [apply round6_six_places|exact I]].
  apply build_tables_cases in H as [(_ & _ & ->)|(dv & Hd & -> & _)];
    [destruct He|].
  destruct (derive_edges_inv
              (fun st => forall e, In e (ZpdesDependencies.edges st) ->
                                   edge_ok (_clean_str (PyStr module_code)) e)
              module_code catalog_payload rules_payload dv) as (_ & est & Hes & Hall);
    [| intros ? [] | exact Hd | rewrite Hes in He; auto].
  intros st ty text from to th lvl Hty Hst. unfold _add_edge.
  destruct (is_empty (_clean_str (PyStr from)) || is_empty (_clean_str (PyStr to))) eqn:Ee;
    [exact Hst|].
  destruct (existsb _ _); [exact Hst|].
  intros e0 He0. simpl in He0. apply in_app_or in He0 as [He0|[<-|[]]]; [now apply Hst|].
  apply orb_false_iff in Ee as [Ef Et].
  unfold edge_ok. simpl. repeat split; auto; now destruct th.
Qed.

Lemma edge_table_well_formed_witness :
  exists nodes edges warnings e,
    _build_dependency_tables_from_rules_payload "M1" dependency_catalog dependency_rules
    = Ok (nodes, edges, warnings)
    /\ In e edges
    /\ edge_ok "M1" e
    /\ threshold_of (Edge.enrich_sr e) (Edge.threshold_value e).
Proof.
  do 4 eexists. split; [vm_compute; reflexivity|]. split; [left; reflexivity|].
  refine (edge_table_well_formed "M1" dependency_catalog dependency_rules _ _ _ _ _ _).
  - vm_compute. reflexivity.
  - left. reflexivity.
Defined.

Lemma nth_error_snoc {A : Type} (l : list A) (x : A) (i : nat) (y : A) :
  nth_error (l ++ [x]) i = Some y ->
  ((i < List.length l)%nat /\ nth_error l i = Some y) \/ (i = List.length l /\ y = x).
Proof.
  intros H. destruct (Nat.lt_ge_cases i (List.length l)) as [Hlt|Hge].
  - left. split; [exact Hlt|]. now rewrite nth_error_app1 in H.
  - right. rewrite nth_error_app2 in H by exact Hge.
    destruct (i - List.length l)%nat as [|k] eqn:E; simpl in H.
    + split; [lia|congruence].
    + destruct k; discriminate.
Qed.

(** X5. The edge table holds no edge twice: no edge has the type, the two
    codes and the same threshold as an earlier one, two nulls or two equal
    numbers being the same threshold and NaN being the same as nothing (so
    edges that differ by a NaN threshold only are all kept); and the
    identifier of each edge ends in its position in the table, counted
    from 1. *)
Theorem edge_table_deduplicated
        (module_code : string) (catalog_payload rules_payload : list (string * pyobj))
        (nodes : list Node.t) (edges : list Edge.t) (warnings : list string) :
  _build_dependency_tables_from_rules_payload module_code catalog_payload rules_payload
  = Ok (nodes, edges, warnings) ->
  pairwise_distinct edges /\ numbered (_clean_str (PyStr module_code)) edges.
Proof.
  intros H. apply build_tables_cases in H as [(_ & _ & ->)|(dv & Hd & -> & _)].
  { split; [intros i j ei ej _ Hi|intros i e Hi]; destruct i; discriminate. }
  destruct (derive_edges_inv
              (fun st => edge_seen st = rev (map edge_key (ZpdesDependencies.edges st))
                         /\ pairwise_distinct (ZpdesDependencies.edges st)
                         /\ numbered (_clean_str (PyStr module_code))
                                     (ZpdesDependencies.edges st))
              module_code catalog_payload rules_payload dv)
    as (_ & est & Hes & _ & Hpd & Hnum);
    [| | exact Hd | rewrite Hes; now split].
  - intros st ty text from to th lvl Hty (Hseen & Hpd & Hnum). unfold _add_edge.
    destruct (is_empty _ || is_empty _); [now repeat split|].
    destruct (existsb _ (edge_seen st)) eqn:Ex; [now repeat split|].
    simpl. split; [|split].
    + rewrite map_app, rev_app_distr, Hseen. reflexivity.
    + intros i j ei ej Hij Hi Hj.
      apply nth_error_snoc in Hj as [[Hj Hj']|[-> ->]].
      * rewrite nth_error_app1 in Hi by lia. eauto.
      * rewrite nth_error_app1 in Hi by lia.
        rewrite Hseen in Ex. intros Ek. apply same_edge_dedup in Ek.
        match type of Ex with existsb (dedup_eqb ?k) _ = false => set (key := k) in * end.
        change (dedup_eqb key (edge_key ei) = true) in Ek.
        assert (Hex : existsb (dedup_eqb key)
                              (rev (map edge_key (ZpdesDependencies.edges st))) = true).
        { apply existsb_exists. exists (edge_key ei). split; [|exact Ek].
          apply in_rev. rewrite rev_involutive. apply in_map.
          eapply nth_error_In; eauto. }
        rewrite Hex in Ex. discriminate.
    + intros i e Hi. apply nth_error_snoc in Hi as [[_ Hi]|[-> ->]]; [now apply Hnum|].
      reflexivity.
  - split; [reflexivity|]. split; [intros i j ei ej _ Hi|intros i e Hi];
      destruct i; discriminate.
Qed.

Lemma edge_table_deduplicated_witness :
  exists nodes edges warnings,
    _build_dependency_tables_from_rules_payload "M1" dependency_catalog dependency_rules
    = Ok (nodes, edges, warnings)
    /\ List.length edges = 4%nat
    /\ pairwise_distinct edges /\ numbered "M1" edges.
Proof.
  do 3 eexists. split; [vm_compute; reflexivity|]. split; [reflexivity|].
  refine (edge_table_deduplicated "M1" dependency_catalog dependency_rules _ _ _ _).
  vm_compute. reflexivity.
Defined.

(** Two edges that differ in nothing but carry NaN are both kept. *)
Example nan_thresholds_kept :
  exists nodes e1 e2,
    _build_dependency_tables_from_rules_payload "M1" dependency_catalog nan_rules
    = Ok (nodes, [e1; e2], [])
    /\ Edge.edge_id e1 = "M1:deactivation:M1O1->M1O1A1:1"
    /\ Edge.edge_id e2 = "M1:deactivation:M1O1->M1O1A1:2"
    /\ Edge.threshold_value e1 = Some NaN
    /\ Edge.threshold_value e2 = Some NaN.
Proof. do 3 eexists. split; [vm_compute; reflexivity|]. repeat split. Qed.

(** ** The nodes of the node table *)

Lemma all_nodes_dict_set (Q : Node.t -> Prop) (m : node_map_t) (k : string) (n : Node.t) :
  all_nodes Q m -> Q n -> all_nodes Q (dict_set m k n).
Proof.
  intros Hm Hn k' n' H. apply dict_set_In in H as [H|H]; [|eauto].
  now inversion H; subst.
Qed.

Lemma objective_or_activity (t : string) :
  is_objective_or_activity t = true -> t = "objective" \/ t = "activity".
Proof.
  unfold is_objective_or_activity. intros H. apply orb_true_iff in H as [H|H];
    apply String.eqb_eq in H; auto.
Qed.

Lemma node_ok_open (mc : string) (n : Node.t) : node_ok mc n -> node_ok mc (Node.open n).
Proof. unfold node_ok. destruct n; simpl. tauto. Qed.

Lemma seed_activity_ok (mc : string) (ctg : list (string * pyobj)) (oc : string)
      (m : node_map_t) (activity : pyobj) :
  all_nodes (node_ok mc) m -> all_nodes (node_ok mc) (seed_activity mc ctg oc m activity).
Proof.
  intros Hm. unfold seed_activity. destruct activity; try exact Hm.
  destruct (is_empty (_clean_str (get entries "code"))) eqn:E; [exact Hm|].
  apply all_nodes_dict_set; [exact Hm|].
  unfold node_ok. simpl. repeat split; auto. discriminate.
Qed.

Lemma seed_objective_ok (mc : string) (ctg : list (string * pyobj))
      (m m' : node_map_t) (objective : pyobj) :
  all_nodes (node_ok mc) m -> seed_objective mc ctg m objective = Ok m' ->
  all_nodes (node_ok mc) m'.
Proof.
  intros Hm. unfold seed_objective. destruct objective; try (intros H; now inversion H; subst).
  destruct (is_empty (_clean_str (get entries "code"))) eqn:E;
    [intros H; now inversion H; subst|].
  intros H. apply bind_ok in H as (activities & _ & H). inversion H; subst; clear H.
  apply fold_left_invariant.
  - apply all_nodes_dict_set; [exact Hm|].
    unfold node_ok. simpl. repeat split; auto. discriminate.
  - intros s x _ Hs. now apply seed_activity_ok.
Qed.

Lemma overlay_rule_node_ok (mc : string) (itc : list (string * list string))
      (itl : list (string * string))
      (st : list (string * list (string * pyobj)) * node_map_t) (node : pyobj) :
  all_nodes (node_ok mc) (snd st) ->
  all_nodes (node_ok mc) (snd (overlay_rule_node mc itc itl st node)).
Proof.
  destruct st as [rbc m]. simpl. intros Hm. unfold overlay_rule_node.
  destruct node; try exact Hm.
  match goal with |- context [if is_empty ?c then _ else _] =>
                  destruct (is_empty c) eqn:Ec end; [exact Hm|].
  match goal with |- context [if negb ?a && ?b then _ else _] =>
                  destruct (negb a && b) eqn:Eb end; [|exact Hm].
  simpl. apply all_nodes_dict_set; [exact Hm|].
  apply andb_true_iff in Eb as [_ Eb].
  unfold node_ok. simpl.
  split; [exact Ec|]. split; [reflexivity|]. split.
  { match goal with |- context [if ?b then ?t else _] => destruct b eqn:Et end;
      now apply objective_or_activity. }
  split; [reflexivity|]. split; [now right|discriminate].
Qed.

Lemma process_rule_ok (mc : string) (itc : list (string * list string))
      (st st' : node_map_t * edge_state) (item : string * list (string * pyobj)) :
  all_nodes (node_ok mc) (fst st) ->
  process_rule mc itc st item = Ok st' ->
  all_nodes (node_ok mc) (fst st').
Proof.
  destruct st as [m est], item as [code node]. simpl. intros Hm H.
  unfold process_rule in H.
  apply bind_ok in H as (is_open & _ & H).
  apply bind_ok in H as (est1 & _ & H).
  apply bind_ok in H as (est2 & _ & H).
  inversion H; subst; clear H. simpl.
  destruct (dict_get m code) as [n|] eqn:E; [|exact Hm].
  destruct is_open; [|exact Hm].
  apply dict_get_In in E. apply all_nodes_dict_set; [exact Hm|].
  apply node_ok_open. eauto.
Qed.

Lemma default_open_ok (mc : string) (es : list Edge.t) (m : node_map_t) :
  all_nodes (node_ok mc) m -> all_nodes (node_ok mc) (default_open es m).
Proof.
  intros Hm k n H. unfold default_open in H. apply in_map_iff in H as ([k0 n0] & H & Hin).
  destruct (negb (Node.init_open n0) && _); inversion H; subst;
    [apply node_ok_open|]; eauto.
Qed.

Lemma add_ghost_ok (mc : string) (ctg : list (string * pyobj)) (itl : list (string * string))
      (m : node_map_t) (g : string) :
  all_nodes (node_ok mc) m -> all_nodes (node_ok mc) (add_ghost mc ctg itl m g).
Proof.
  intros Hm. unfold add_ghost. fold (ghost_shaped g).
  destruct (ghost_shaped g) eqn:Eg; simpl; [|exact Hm].
  apply all_nodes_dict_set; [exact Hm|].
  unfold node_ok. simpl. repeat split; auto.
  - now apply ghost_shaped_not_empty.
  - now apply objective_or_activity.
Qed.

Lemma derive_nodes_ok (mc : string) (cat rules : list (string * pyobj)) (dv : derivation) :
  derive mc cat rules = Ok (Some dv) ->
  d_module_code_norm dv = _clean_str (PyStr mc)
  /\ all_nodes (node_ok (_clean_str (PyStr mc))) (d_node_map dv).
Proof.
  unfold derive.
  destruct (first_dict _ _) as [module_rule|]; [|discriminate].
  intros H.
  apply bind_ok in H as (global_maps & _ & H).
  apply bind_ok in H as (id_index_rows & _ & H).
  apply bind_ok in H as (modules & _ & H).
  apply bind_ok in H as (node_map0 & H0 & H).
  set (ok := all_nodes (node_ok (_clean_str (PyStr mc)))).
  assert (R0 : ok node_map0).
  { destruct (first_dict _ modules) as [module|].
    - apply bind_ok in H0 as (objectives & _ & H0).
      revert H0. apply for_each_invariant; [intros ? ? []|].
      intros s x s' _ Hs. now apply seed_objective_ok.
    - inversion H0; subst. intros ? ? []. }
  destruct (fold_left _ _ ([], node_map0)) as [rule_by_code node_map1] eqn:E1.
  assert (R1 : ok node_map1).
  { change node_map1 with (snd (rule_by_code, node_map1)). rewrite <- E1.
    apply (fold_left_invariant
             (fun st : list (string * list (string * pyobj)) * node_map_t => ok (snd st)));
      [exact R0|].
    intros s x _ Hs. now apply overlay_rule_node_ok. }
  apply bind_ok in H as ([node_map2 est] & H2 & H).
  assert (R2 : ok node_map2).
  { change (ok (fst (node_map2, est))). revert H2.
    apply (for_each_invariant (fun st : node_map_t * edge_state => ok (fst st)));
      [exact R1|].
    intros s x s' _ Hs. now apply process_rule_ok. }
  inversion H; subst; clear H. simpl. split; [reflexivity|].
  now apply default_open_ok.
Qed.

Lemma keyed_codes (m : node_map_t) : keyed m -> map Node.node_code (values m) = keys m.
Proof.
  intros [_ Hk]. unfold values, keys. rewrite map_map. apply map_ext_in.
  intros [k n] Hin. simpl. now apply Hk.
Qed.

(** X6. No two nodes of the node table have the same code; every node has a
    code that is not empty, carries the cleaned module code, is an
    objective or an activity (never a module), and a ghost node names the
    rules as its source. *)
Theorem node_table_well_formed
        (module_code : string) (catalog_payload rules_payload : list (string * pyobj))
        (nodes : list Node.t) (edges : list Edge.t) (warnings : list string) :
  _build_dependency_tables_from_rules_payload module_code catalog_payload rules_payload
  = Ok (nodes, edges, warnings) ->
  NoDup (map Node.node_code nodes)
  /\ forall n, In n nodes -> node_ok (_clean_str (PyStr module_code)) n.
Proof.
  unfold _build_dependency_tables_from_rules_payload.
  destruct (derive module_code catalog_payload rules_payload) as [[dv|]|] eqn:Hd;
    simpl; [| |discriminate].
  - unfold finish. intros H; inversion H; subst; clear H.
    destruct (derive_real _ _ _ _ Hd) as ([Hk _] & _ & _).
    destruct (derive_nodes_ok _ _ _ _ Hd) as (Hmc & Hok). split.
    + rewrite keyed_codes by now apply add_ghosts_keyed.
      now apply add_ghosts_keyed.
    + intros n Hn. unfold values in Hn. apply in_map_iff in Hn as ([k n'] & <- & Hn).
      simpl. revert k n' Hn.
      change (all_nodes (node_ok (_clean_str (PyStr module_code)))
                        (fold_left (add_ghost (d_module_code_norm dv) (d_code_to_id_global dv)
                                              (d_id_to_label dv))
                                   (missing_codes (d_edges dv) (d_node_map dv))
                                   (d_node_map dv))).
      rewrite Hmc. apply fold_left_invariant; [exact Hok|].
      intros s x _ Hs. now apply add_ghost_ok.
  - intros H; inversion H; subst. split; [constructor|intros n []].
Qed.

Lemma node_table_well_formed_witness :
  exists nodes edges warnings,
    _build_dependency_tables_from_rules_payload "M1" dependency_catalog dependency_rules
    = Ok (nodes, edges, warnings)
    /\ List.length nodes = 3%nat
    /\ NoDup (map Node.node_code nodes)
    /\ forall n, In n nodes -> node_ok "M1" n.
Proof.
  do 3 eexists. split; [vm_compute; reflexivity|]. split; [reflexivity|].
  refine (node_table_well_formed "M1" dependency_catalog dependency_rules _ _ _ _).
  vm_compute. reflexivity.
Defined.

(** ** A module without rules *)

Lemma first_dict_none (test : list (string * pyobj) -> bool) (rows : list pyobj) :
  (forall row, In (PyDict row) rows -> test row = false) -> first_dict test rows = None.
Proof.
  induction rows as [|r rows IH]; simpl; intros H; [reflexivity|].
  destruct r; try (apply IH; intros; apply H; now right).
  rewrite (H entries (or_introl eq_refl)). apply IH. intros; apply H; now right.
Qed.

(** X7. When no row of [module_rules] is a dictionary with the cleaned
    module code, the builder returns two empty tables and one warning that
    names the module, whatever the rest of the two payloads holds: it does
    not read the catalog or the code maps, and does not raise. *)
Theorem module_without_rules
        (module_code : string) (catalog_payload rules_payload : list (string * pyobj)) :
  (forall row, In (PyDict row) (module_rules_of rules_payload) ->
               (_clean_str (get row "module_code") =? _clean_str (PyStr module_code))
               = false) ->
  _build_dependency_tables_from_rules_payload module_code catalog_payload rules_payload
  = Ok ([], [],
        [fstring ["Module '"; _clean_str (PyStr module_code);
                  "' not found in zpdes_rules.module_rules."]]).
Proof.
  intros H. unfold _build_dependency_tables_from_rules_payload, derive.
  fold (module_rules_of rules_payload).
  now rewrite (first_dict_none _ _ H).
Qed.

Lemma module_without_rules_witness :
  _build_dependency_tables_from_rules_payload
    " M7 " [("modules", PyInt 3)]
    [("module_rules", PyList [PyStr "M7"; PyDict [("module_code", PyStr "M70")]]);
     ("map_id_code", PyNone)]
  = Ok ([], [], ["Module 'M7' not found in zpdes_rules.module_rules."]).
Proof.
  apply (module_without_rules
           " M7 " [("modules", PyInt 3)]
           [("module_rules", PyList [PyStr "M7"; PyDict [("module_code", PyStr "M70")]]);
            ("map_id_code", PyNone)]).
  intros row [H|[H|[]]]; [discriminate|]. inversion H; subst. reflexivity.
Defined.

End TableFacts.

Section FilterFacts.
Import ZpdesDependencies Spec.

Lemma mem_In (x : string) (l : list string) : mem x l = true <-> In x l.
Proof.
  unfold mem. rewrite existsb_exists. split.
  - intros (y & Hy & E). apply String.eqb_eq in E. now subst.
  - intros H. exists x. split; [exact H|apply String.eqb_refl].
Qed.

(** X8. The graph filtered by objectives is a subgraph closed on itself:
    its nodes are the nodes of the table whose objective code is selected,
    and its edges are the edges of the table whose two ends are nodes that
    were kept, so no edge is left dangling and none between two kept nodes
    is lost. *)
Theorem filtered_graph_closed
        (nodes : list Node.t) (edges : list Edge.t) (objective_codes : list string) :
  let filtered := filter_dependency_graph_by_objectives nodes edges objective_codes in
  (forall n, In n (fst filtered) <->
             In n nodes
             /\ exists o, Node.objective_code n = Some o
                          /\ In o (selected_codes objective_codes))
  /\ (forall e, In e (snd filtered) <->
                In e edges
                /\ has_node (fst filtered) (Edge.from_node_code e)
                /\ has_node (fst filtered) (Edge.to_node_code e)).
Proof.
  unfold filter_dependency_graph_by_objectives. fold (selected_codes objective_codes).
  destruct (selected_codes objective_codes) as [|s0 sel] eqn:Es; cbn [fst snd].
  - split.
    + intros n. split; [intros []|]. intros (_ & o & _ & []).
    + intros e. split; [intros []|]. intros (_ & (n & [] & _) & _).
  - assert (Hn : forall n,
               In n (filter (fun n => match Node.objective_code n with
                                      | Some o => mem o (s0 :: sel)
                                      | None => false
                                      end) nodes)
               <-> In n nodes /\ exists o, Node.objective_code n = Some o
                                           /\ In o (s0 :: sel)).
    { intros n. rewrite filter_In. split.
      - intros [Hin Ho]. split; [exact Hin|].
        destruct (Node.objective_code n) as [o|]; [|discriminate].
        exists o. split; [reflexivity|]. now apply mem_In.
      - intros (Hin & o & Ho & Hsel). split; [exact Hin|]. rewrite Ho. now apply mem_In. }
    split; [exact Hn|].
    intros e. rewrite filter_In, andb_true_iff, !mem_In, !in_map_iff.
    unfold has_node. split.
    + intros (He & (n1 & E1 & H1) & (n2 & E2 & H2)). eauto 10.
    + intros (He & (n1 & H1 & E1) & (n2 & H2 & E2)). eauto 10.
Qed.

(** X9. Filtering a graph that is already filtered by the same selection
    changes nothing, and a selection of blank codes only gives two empty
    tables. *)
Theorem filtered_graph_idempotent
        (nodes : list Node.t) (edges : list Edge.t) (objective_codes : list string) :
  (let (nodes', edges') := filter_dependency_graph_by_objectives nodes edges objective_codes in
   filter_dependency_graph_by_objectives nodes' edges' objective_codes = (nodes', edges'))
  /\ (selected_codes objective_codes = [] ->
      filter_dependency_graph_by_objectives nodes edges objective_codes = ([], [])).
Proof.
  unfold filter_dependency_graph_by_objectives. fold (selected_codes objective_codes).
  destruct (selected_codes objective_codes) as [|s0 sel] eqn:Es; [now split|].
  split; [|discriminate].
  set (keep := fun n => match Node.objective_code n with
                        | Some o => mem o (s0 :: sel)
                        | None => false
                        end).
  set (nodes' := filter keep nodes).
  assert (Hnn : filter keep nodes' = nodes').
  { unfold nodes'. clear. induction nodes as [|n ns IH]; simpl; [reflexivity|].
    destruct (keep n) eqn:E; simpl; [rewrite E|]; now rewrite ?IH. }
  rewrite Hnn. f_equal.
  set (inside := fun e => mem (Edge.from_node_code e) (map Node.node_code nodes')
                          && mem (Edge.to_node_code e) (map Node.node_code nodes')).
  clear. induction edges as [|e es IH]; simpl; [reflexivity|].
  destruct (inside e) eqn:E; simpl; [rewrite E|]; now rewrite ?IH.
Qed.

End FilterFacts.

Section TokenFacts.
Import ZpdesDependencies Spec.

(** ** Numbers in text *)

Lemma digit_cases (c : ascii) :
  isdigit c = true ->
  In c ["0"; "1"; "2"; "3"; "4"; "5"; "6"; "7"; "8"; "9"]%char.
Proof.
  destruct c as [[] [] [] [] [] [] [] []]; intros H; try discriminate H; simpl; tauto.
Qed.

Ltac digit_case H :=
  apply digit_cases in H;
  repeat (destruct H as [<-|H]; [|]); [..|destruct H].

Lemma span_number_digits (ds rest : string) :
  all_chars isdigit ds = true ->
  (rest = "" \/ exists x, rest = String "." x) ->
  span_number (append ds rest) = (ds, rest).
Proof.
  intros Hd Hr. induction ds as [|c ds IH].
  - destruct Hr as [->|(x & ->)]; reflexivity.
  - simpl in Hd. apply andb_true_iff in Hd as [Hc Hd]. specialize (IH Hd).
    cbn [append]. cbn [span_number]. rewrite Hc.
    destruct ds as [|c2 ds2].
    + cbn [append] in *. destruct Hr as [->|(x & ->)]; reflexivity.
    + cbn [append] in *. simpl in Hd. apply andb_true_iff in Hd as [Hc2 _].
      assert (Hnu : c2 <> "_"%char) by (intros ->; discriminate).
      destruct (Ascii.eqb_spec c2 "_"); [contradiction|].
      digit_case Hc2; now rewrite IH.
Qed.

Lemma split_sign_digit (c : ascii) (r : string) :
  isdigit c = true -> split_sign (String c r) = (false, String c r).
Proof. intros H. digit_case H; reflexivity. Qed.

Lemma lower_digit_text (c : ascii) (r : string) :
  isdigit c = true ->
  (lower (String c r) =? "inf") = false
  /\ (lower (String c r) =? "infinity") = false
  /\ (lower (String c r) =? "nan") = false.
Proof. intros H. digit_case H; repeat split. Qed.

Lemma number_text_chars (t : string) :
  number_text t ->
  exists c r, t = String c r /\ isdigit c = true
              /\ all_chars (fun c => negb (isspace c)) t = true.
Proof.
  intros (ip & Hne & Hd & Ht).
  destruct ip as [|c ip']; [congruence|].
  pose proof Hd as Hd'. simpl in Hd'. apply andb_true_iff in Hd' as [Hc _].
  pose proof (all_chars_impl _ _ _ isdigit_not_space Hd) as Hs.
  destruct Ht as [->|(fp & _ & Hf & ->)].
  - exists c, ip'. auto.
  - exists c, (append ip' (String "." fp)). repeat split; auto.
    change (String c (append ip' (String "." fp))) with (append (String c ip') (String "." fp)).
    rewrite all_chars_app, Hs. simpl.
    apply (all_chars_impl _ _ _ isdigit_not_space Hf).
Qed.

Lemma number_text_clean (t : string) : number_text t -> _clean_str (PyStr t) = t.
Proof.
  intros H. pose proof (number_text_chars t H) as (c & r & -> & Hc & Hs).
  unfold _clean_str. cbn [str].
  assert (E : strip (String c r) = String c r).
  { unfold strip. apply strip_by_fixed; [|now apply all_chars_not_ending].
    simpl in *. now apply andb_true_iff in Hs as [Hs _]. }
  rewrite E. destruct (lower_digit_text c r Hc) as (_ & _ & ->). reflexivity.
Qed.

(** [float] reads every number the pattern matches. *)
Lemma float_of_number_text (t : string) :
  number_text t -> exists x, float_of_string t = Some x.
Proof.
  intros H. pose proof (number_text_chars t H) as (c & r & Et & Hc & Hs).
  assert (E : strip t = t).
  { subst t. unfold strip. apply strip_by_fixed; [|now apply all_chars_not_ending].
    simpl in *. now apply andb_true_iff in Hs as [Hs _]. }
  assert (Hsplit : split_sign t = (false, t))
    by (rewrite Et; now apply split_sign_digit).
  assert (Hlow : (lower t =? "inf") = false /\ (lower t =? "infinity") = false
                 /\ (lower t =? "nan") = false)
    by (rewrite Et; now apply lower_digit_text).
  unfold float_of_string. rewrite E, Hsplit.
  destruct Hlow as (-> & -> & ->). cbn [orb]. clear Et E Hsplit Hs.
  destruct H as (ip & Hne & Hd & [->|(fp & Hfne & Hf & ->)]).
  - pose proof (span_number_digits ip "" Hd (or_introl eq_refl)) as Hsp.
    rewrite append_empty_r in Hsp. rewrite Hsp.
    destruct ip; [congruence|]. cbn. eauto.
  - rewrite (span_number_digits ip (String "." fp) Hd) by eauto.
    pose proof (span_number_digits fp "" Hf (or_introl eq_refl)) as Hsp.
    rewrite append_empty_r in Hsp. rewrite Hsp.
    destruct ip as [|ci ip']; [congruence|].
    destruct fp as [|cf fp']; [congruence|].
    simpl in Hf. apply andb_true_iff in Hf as [Hcf _].
    digit_case Hcf; cbn; eauto.
Qed.

(** ** The matches of the pattern *)

Lemma percent_at_spec (s num rest : string) :
  percent_at s = Some (num, rest) -> number_text num.
Proof.
  unfold percent_at. destruct s as [|c r]; [discriminate|].
  destruct (Ascii.eqb_spec c "("); [subst c|].
  2:{ destruct c as [[] [] [] [] [] [] [] []]; try discriminate. congruence. }
  pose proof (span_digits_spec r) as (_ & Hd & _).
  destruct (span_digits r) as [[|c0 ip'] r1]; [discriminate|]. simpl fst in Hd.
  assert (Hip : String c0 ip' <> "") by discriminate.
  destruct r1 as [|c1 r1'].
  - discriminate.
  - destruct (Ascii.eqb_spec c1 ".").
    + subst c1. pose proof (span_digits_spec r1') as (_ & Hf & _).
      destruct (span_digits r1') as [[|cf fp'] r2]; simpl fst in Hf.
      * discriminate.
      * intros H. exists (String c0 ip'). repeat split; auto. right.
        exists (String cf fp'). repeat split; auto; [discriminate|].
        destruct r2 as [|x [|y r3]]; try discriminate;
          destruct x as [[] [] [] [] [] [] [] []]; try discriminate;
          destruct y as [[] [] [] [] [] [] [] []]; try discriminate;
          cbn in H; injection H as <- _; reflexivity.
    + intros H. exists (String c0 ip'). repeat split; auto. left.
      destruct c1 as [[] [] [] [] [] [] [] []]; try discriminate; try congruence;
        destruct r1' as [|y r3]; try discriminate;
        destruct y as [[] [] [] [] [] [] [] []]; try discriminate;
        cbn in H. injection H as <- _. reflexivity.
Qed.

Lemma objective_prefix_app (o rest : string) :
  Re.objective_prefix o = Some (o, "") -> not_starting isdigit rest = true ->
  Re.objective_prefix (append o rest) = Some (o, rest).
Proof.
  intros Ho Hr. pose proof Ho as Ho'. revert Ho'.
  unfold Re.objective_prefix at 1. unfold Re.module_prefix.
  destruct (Re.letter_digits "M" o) as [[m r1]|] eqn:Em; [|discriminate].
  destruct (Re.letter_digits "O" r1) as [[d r2]|] eqn:Eo; [|discriminate].
  intros H. injection H as Eq Er2. subst r2.
  apply letter_digits_spec in Em as (Es & Hm & Hmd & _).
  apply letter_digits_spec in Eo as (Er & Hd & Hdd & _).
  rewrite append_empty_r in Er. subst r1. clear Eq.
  rewrite Es at 1. cbn [append]. rewrite append_assoc. cbn [append].
  unfold Re.objective_prefix, Re.module_prefix.
  rewrite (letter_digits_app "M" m (String "O" (append d rest))); auto.
  rewrite (letter_digits_app "O" d rest); auto.
  do 2 f_equal. rewrite Es. reflexivity.
Qed.

Lemma token_code_objective (o : string) :
  Re.objective_prefix o = Some (o, "") -> token_code o.
Proof.
  intros Ho. split; [now apply objective_shaped_clean|]. left.
  unfold _node_type_from_code_strict. rewrite (objective_shaped_clean o Ho).
  unfold Re.match_activity, Re.activity_prefix, Re.match_objective. now rewrite Ho.
Qed.

Lemma token_code_activity (o a : string) :
  Re.objective_prefix o = Some (o, "") ->
  a <> "" -> all_chars isdigit a = true ->
  token_code (append o (String "A" a)).
Proof.
  intros Ho Ha Had.
  destruct (objective_prefix_spec _ _ _ Ho) as (_ & _ & Hns & _ & (r & Er)).
  assert (Hc : _clean_str (PyStr (append o (String "A" a))) = append o (String "A" a)).
  { unfold _clean_str. cbn [str]. unfold strip.
    rewrite strip_by_fixed.
    - rewrite Er. reflexivity.
    - rewrite Er. reflexivity.
    - apply all_chars_not_ending. rewrite all_chars_app, Hns. simpl.
      apply (all_chars_impl _ _ _ isdigit_not_space Had). }
  split; [exact Hc|]. right.
  unfold _node_type_from_code_strict. rewrite Hc.
  unfold Re.match_activity, Re.activity_prefix.
  rewrite (objective_prefix_app o (String "A" a) Ho eq_refl).
  pose proof (letter_digits_app "A" a "" Ha Had eq_refl) as Hl.
  rewrite append_empty_r in Hl. now rewrite Hl.
Qed.

Lemma token_at_spec (s code : string) (pct : option string) (len : nat) :
  token_at s = Some (code, pct, len) ->
  token_code code /\ forall p, pct = Some p -> number_text p.
Proof.
  unfold token_at.
  destruct (Re.objective_prefix s) as [[o r1]|] eqn:Eo; [|discriminate].
  destruct (objective_prefix_spec _ _ _ Eo) as (_ & Ho & _).
  assert (G : forall c r2,
             token_code c ->
             match percent_at r2 with
             | Some (pct0, r3) =>
                 Some (c, Some pct0, (String.length s - String.length r3)%nat)
             | None => Some (c, None, String.length c)
             end = Some (code, pct, len) ->
             token_code code /\ forall p, pct = Some p -> number_text p).
  { intros c r2 Hc. destruct (percent_at r2) as [[pct0 r3]|] eqn:Ep;
      intros H; inversion H; subst; (split; [exact Hc|]); intros p Hp; inversion Hp; subst.
    eapply percent_at_spec; eauto. }
  destruct (Re.letter_digits "A" r1) as [[a r]|] eqn:Ea.
  - apply letter_digits_spec in Ea as (_ & Ha & Had & _).
    apply G. now apply token_code_activity.
  - apply G. now apply token_code_objective.
Qed.

Lemma find_tokens_spec (s : string) :
  forall skip m,
    In m (find_tokens skip s) ->
    token_code (fst m) /\ forall p, snd m = Some p -> number_text p.
Proof.
  induction s as [|c r IH]; intros skip m; [intros []|].
  cbn [find_tokens]. destruct skip as [|k]; [|apply IH].
  destruct (token_at (String c r)) as [[[code pct] len]|] eqn:E; [|apply IH].
  intros [<-|H]; [|eapply IH; eauto].
  simpl. eapply token_at_spec; eauto.
Qed.

(** X10. [parse_dependency_tokens] never raises: every number the pattern
    matches can be read.  Each token it returns has the code of an
    objective or of an activity, and no token repeats the code and
    threshold of an earlier one. *)
Theorem dependency_tokens_well_formed (raw_value : pyobj) :
  exists tokens,
    parse_dependency_tokens raw_value = Ok tokens
    /\ (forall code threshold, In (code, threshold) tokens -> token_code code)
    /\ distinct_tokens tokens.
Proof.
  unfold parse_dependency_tokens.
  destruct (is_empty (_clean_str raw_value)).
  { exists []. split; [reflexivity|]. split; [intros ? ? []|].
    intros i j ti tj _ Hi. destruct i; discriminate. }
  set (P := fun st : list (string * option fval) * list (string * option fval) =>
              (forall code threshold, In (code, threshold) (fst st) -> token_code code)
              /\ snd st = rev (fst st)
              /\ distinct_tokens (fst st)).
  destruct (for_each_total P add_token (find_tokens 0 (_clean_str raw_value)) ([], []))
    as (st & Hrun & Hst & _ & Hd).
  - split; [intros ? ? []|]. split; [reflexivity|].
    intros i j ti tj _ Hi. destruct i; discriminate.
  - intros [tokens seen] [g1 g2] Hm (Hcodes & Hseen & Hdist). simpl in Hseen. subst seen.
    apply find_tokens_spec in Hm as [[Hclean Hty] Hnum]. cbn [fst snd] in Hclean, Hty, Hnum.
    unfold add_token. rewrite Hclean.
    assert (Hne : is_empty g1 = false).
    { destruct g1; [|reflexivity]. destruct Hty as [Hty|Hty]; discriminate Hty. }
    rewrite Hne.
    assert (Hth : exists th,
               (if is_empty (_clean_str match g2 with Some p => PyStr p | None => PyNone end)
                then Ok None
                else match float_of_string
                             (_clean_str match g2 with Some p => PyStr p | None => PyNone end)
                     with
                     | Some x => Ok (Some (div100 x))
                     | None => Raise ValueError
                     end) = Ok th).
    { destruct g2 as [p|]; [|simpl; eauto].
      rewrite (number_text_clean p (Hnum p eq_refl)).
      destruct (is_empty p); [eauto|].
      destruct (float_of_number_text p (Hnum p eq_refl)) as (x & ->). eauto. }
    destruct Hth as (th & ->). cbn [bind].
    destruct (existsb (token_eqb (g1, th)) (rev tokens)) eqn:Ex.
    + eexists. split; [reflexivity|]. split; [exact Hcodes|]. split; [reflexivity|exact Hdist].
    + eexists. split; [reflexivity|]. unfold P. cbn [fst snd]. split; [|split].
      * intros code threshold Hin. apply in_app_or in Hin as [Hin|[Hin|[]]]; [eauto|].
        inversion Hin; subst. now split.
      * rewrite rev_app_distr. reflexivity.
      * intros i j ti tj Hij Hi Hj.
        destruct (Nat.lt_ge_cases j (List.length tokens)) as [Hlt|Hge].
        -- rewrite nth_error_app1 in Hi, Hj by lia. eauto.
        -- rewrite nth_error_app2 in Hj by exact Hge.
           destruct (j - List.length tokens)%nat as [|k] eqn:Ej; simpl in Hj;
             [|destruct k; discriminate].
           inversion Hj; subst tj. rewrite nth_error_app1 in Hi by lia.
           destruct (token_eqb (g1, th) ti) eqn:Ek; [|reflexivity].
           assert (Hex : existsb (token_eqb (g1, th)) (rev tokens) = true).
           { apply existsb_exists. exists ti. split; [|exact Ek].
             apply in_rev. rewrite rev_involutive. eapply nth_error_In; eauto. }
           rewrite Hex in Ex. discriminate.
  - exists (fst st). rewrite Hrun. cbn [bind]. split; [reflexivity|]. split; assumption.
Qed.

(** The tokens of the test of the repository. *)
Example dependency_tokens_sample :
  parse_dependency_tokens (PyStr "M31O1A1, M31O1A2(75%), M31O2")
  = Ok [("M31O1A1", None); ("M31O1A2", Some (Fin (3 # 4))); ("M31O2", None)].
Proof. vm_compute. reflexivity. Qed.

End TokenFacts.

Section FactRowFacts.
Import Derive Spec.

(** X11. [_normalized_id_expr] gives a normal form: an identifier that is
    already normalized stays as it is, and the identifier kept is never
    empty, never one of the placeholders [none], [null], [nan] in any
    letter case, and has no whitespace around it. *)
Theorem normalized_id_normal_form (value : option string) :
  _normalized_id_expr (_normalized_id_expr value) = _normalized_id_expr value
  /\ forall t, _normalized_id_expr value = Some t ->
               t <> ""
               /\ mem (lower t) _ID_PLACEHOLDER_VALUES_LOWER = false
               /\ Pl.strip_chars t = t.
Proof.
  destruct value as [text|]; [|split; [reflexivity|intros t Ht; discriminate Ht]].
  assert (Hn : _normalized_id_expr (Some text)
               = if mem (lower (Pl.strip_chars text)) _ID_PLACEHOLDER_VALUES_LOWER
                 then None else Some (Pl.strip_chars text)) by reflexivity.
  rewrite Hn.
  destruct (mem (lower (Pl.strip_chars text)) _ID_PLACEHOLDER_VALUES_LOWER) eqn:E.
  - split; [reflexivity|intros t Ht; discriminate Ht].
  - assert (Hs : Pl.strip_chars (Pl.strip_chars text) = Pl.strip_chars text)
      by apply strip_by_idempotent.
    split.
    + unfold _normalized_id_expr. now rewrite Hs, E.
    + intros t Ht. inversion Ht; subst t. repeat split; auto.
      intros H0. rewrite H0 in E. discriminate.
Qed.

(** ** The rows of the fact table *)

Lemma fact_row_reconcile (catalog rules : list (string * pyobj)) (events : list Raw.t)
      (sample_rows : option nat) (fact : list Fact.t) :
  build_fact_attempt_core catalog rules events sample_rows = Ok fact ->
  exists src,
    load_sources catalog rules = Ok src
    /\ fact = flat_map (fact_rows_of src) (events_read events sample_rows)
    /\ forall raw, exists h x rest,
         fact_rows_of src raw = reconcile src (normalize_ids raw) h x :: rest
         /\ forall row, In row (fact_rows_of src raw) ->
                        exists h' x', row = reconcile src (normalize_ids raw) h' x'.
Proof.
  unfold build_fact_attempt_core. intros H.
  apply bind_ok in H as (src & Hsrc & H). inversion H; subst fact; clear H.
  exists src. split; [exact Hsrc|]. split; [reflexivity|].
  intros raw. unfold fact_rows_of, Pl.left_join. cbn [flat_map]. rewrite app_nil_r.
  set (ev := normalize_ids raw).
  destruct (Raw.activity_id ev) as [a|].
  - destruct (filter _ (hierarchy src)) as [|h0 hs] eqn:Ef.
    + cbn [map]. do 3 eexists. split; [reflexivity|].
      intros row [<-|[]]. eauto.
    + cbn [map]. do 3 eexists. split; [reflexivity|].
      intros row Hrow.
      change (In row (map (fun eh : Raw.t * option Hier.t =>
                             let (e, h) := eh in
                             reconcile src e h
                               match Pl.left_join Raw.exercise_id
                                                  (fun r => Some (ExHier.exercise_id r))
                                                  [e] (exercise_hierarchy src) with
                               | (_, r) :: _ => r
                               | [] => None
                               end)
                          (map (fun r => (ev, Some r)) (h0 :: hs)))) in Hrow.
      rewrite map_map in Hrow. apply in_map_iff in Hrow as (h & <- & _). eauto.
  - cbn [map]. do 3 eexists. split; [reflexivity|].
    intros row [<-|[]]. eauto.
Qed.

(** X12. The fact table drops no event: every event that is read gives at
    least one row, which repeats the columns of the event, with the
    playlist and exercise identifiers normalized; so the table has at
    least as many rows as events were read. *)
Theorem fact_keeps_every_event
        (catalog rules : list (string * pyobj)) (events : list Raw.t)
        (sample_rows : option nat) (fact : list Fact.t) :
  build_fact_attempt_core catalog rules events sample_rows = Ok fact ->
  (forall raw, In raw (events_read events sample_rows) ->
               exists row, In row fact /\ carries raw row)
  /\ (List.length (events_read events sample_rows) <= List.length fact)%nat.
Proof.
  intros H. apply fact_row_reconcile in H as (src & _ & -> & Hrows). split.
  - intros raw Hraw. destruct (Hrows raw) as (h & x & rest & E & _).
    exists (reconcile src (normalize_ids raw) h x). split.
    + apply in_flat_map. exists raw. split; [exact Hraw|]. rewrite E. now left.
    + unfold carries, reconcile. simpl. repeat split.
  - induction (events_read events sample_rows) as [|raw l IH]; simpl; [lia|].
    rewrite length_app. destruct (Hrows raw) as (h & x & rest & -> & _). simpl. lia.
Qed.

Lemma fact_keeps_every_event_witness :
  exists fact row,
    build_fact_attempt_core (fact_catalog "a1") fact_rules
                            [playlist_event "m1"; playlist_event "m2"] (Some 1%nat)
    = Ok fact
    /\ In row fact /\ carries (playlist_event "m1") row
    /\ (1 <= List.length fact)%nat.
Proof.
  evar (fact : list Fact.t).
  assert (Hrun : build_fact_attempt_core (fact_catalog "a1") fact_rules
                                         [playlist_event "m1"; playlist_event "m2"]
                                         (Some 1%nat) = Ok fact)
    by (subst fact; vm_compute; reflexivity).
  destruct (fact_keeps_every_event _ _ _ _ _ Hrun) as [Hall Hlen].
  destruct (Hall (playlist_event "m1") (or_introl eq_refl)) as (row & Hin & Hc).
  exists fact, row. split; [exact Hrun|]. split; [exact Hin|]. split; [exact Hc|exact Hlen].
Defined.

(** X13. In every row of the fact table [mapping_source] is one of the
    four tier names, and it is [unmapped] exactly when the row has no
    module code. *)
Theorem mapping_source_values
        (catalog rules : list (string * pyobj)) (events : list Raw.t)
        (sample_rows : option nat) (fact : list Fact.t) (row : Fact.t) :
  build_fact_attempt_core catalog rules events sample_rows = Ok fact ->
  In row fact ->
  In (Fact.mapping_source row)
     ["catalog_activity"; "catalog_exercise"; "rules_code_fallback"; "unmapped"]
  /\ (Fact.mapping_source row = "unmapped" <-> Fact.module_code row = None).
Proof.
  intros H Hrow. apply fact_row_reconcile in H as (src & _ & -> & Hrows).
  apply in_flat_map in Hrow as (raw & _ & Hrow).
  destruct (Hrows raw) as (_ & _ & _ & _ & Hall).
  destruct (Hall row Hrow) as (h & x & ->).
  unfold reconcile, mapping_source_of.
  cbn [Fact.mapping_source Fact.module_code].
  destruct (Pl.col Hier.module_code h) as [c|];
    [simpl; split; [tauto|split; discriminate]|].
  destruct (Pl.col ExHier.module_code_exercise_summary x) as [c|];
    [simpl; split; [tauto|split; discriminate]|].
  destruct (Pl.extract_module _) as [c|]; simpl; split; try tauto; split; auto; discriminate.
Qed.

Lemma mapping_source_values_witness :
  exists fact row,
    build_fact_attempt_core (fact_catalog "a9") fact_rules [playlist_event "p1"] None
    = Ok fact
    /\ In row fact
    /\ Fact.mapping_source row = "unmapped"
    /\ Fact.module_code row = None.
Proof.
  do 2 eexists. split; [vm_compute; reflexivity|]. split; [left; reflexivity|].
  split; [reflexivity|].
  refine (proj1 (proj2 (mapping_source_values (fact_catalog "a9") fact_rules
                                              [playlist_event "p1"] None _ _ _ _)) _).
  - vm_compute. reflexivity.
  - left. reflexivity.
  - reflexivity.
Defined.

End FactRowFacts.

Section AggregateFacts.
Import Derive Spec.

(** ** Grouping *)

Section GroupFacts.
Context {A K : Type} (eqb : K -> K -> bool) (key : A -> K).
Hypothesis eqb_eq : forall a b, eqb a b = true <-> a = b.

Lemma existsb_eqb_In (x : K) (l : list K) : existsb (eqb x) l = true <-> In x l.
Proof.
  rewrite existsb_exists. split.
  - intros (y & Hy & E). apply eqb_eq in E. now subst.
  - intros H. exists x. split; [exact H|now apply eqb_eq].
Qed.

Lemma distinct_by_acc (l : list K) :
  forall acc,
    NoDup acc ->
    NoDup (fold_left (fun seen x => if existsb (eqb x) seen then seen else (seen ++ [x])%list) l acc)
    /\ forall x, In x (fold_left (fun seen x => if existsb (eqb x) seen
                                                then seen else (seen ++ [x])%list) l acc)
                 <-> In x acc \/ In x l.
Proof.
  induction l as [|y l IH]; simpl; intros acc Hacc.
  - split; [exact Hacc|]. intros x. tauto.
  - destruct (existsb (eqb y) acc) eqn:E.
    + destruct (IH acc Hacc) as [H1 H2]. split; [exact H1|].
      intros x. rewrite H2. apply existsb_eqb_In in E.
      split; [tauto|]. intros [H|[<-|H]]; auto.
    + assert (Hy : ~ In y acc).
      { intros H. apply existsb_eqb_In in H. congruence. }
      assert (Hnd : NoDup ((acc ++ [y])%list)).
      { apply NoDup_app; [exact Hacc|repeat constructor; intros []|].
        intros x Hx [<-|[]]. contradiction. }
      destruct (IH _ Hnd) as [H1 H2]. split; [exact H1|].
      intros x. rewrite H2, in_app_iff. simpl. tauto.
Qed.

Lemma distinct_by_spec (l : list K) :
  NoDup (Pl.distinct_by eqb l) /\ forall x, In x (Pl.distinct_by eqb l) <-> In x l.
Proof.
  unfold Pl.distinct_by. destruct (distinct_by_acc l [] (NoDup_nil K)) as [H1 H2].
  split; [exact H1|]. intros x. rewrite H2. simpl. tauto.
Qed.

Lemma count_one (ks : list K) (x : K) :
  NoDup ks -> In x ks ->
  list_sum (map (fun k => if eqb k x then 1 else 0)%nat ks) = 1%nat.
Proof.
  induction ks as [|k ks IH]; simpl; intros Hnd Hin; [destruct Hin|].
  inversion Hnd as [|? ? Hk Hnd']; subst.
  destruct Hin as [->|Hin].
  - rewrite (proj2 (eqb_eq x x) eq_refl).
    assert (G : forall l, ~ In x l ->
                          list_sum (map (fun k => if eqb k x then 1 else 0)%nat l) = 0%nat).
    { induction l as [|y l IHl]; simpl; intros Hl; [reflexivity|].
      destruct (eqb y x) eqn:E; [apply eqb_eq in E; subst; tauto|].
      apply IHl. tauto. }
    now rewrite G.
  - destruct (eqb k x) eqn:E; [apply eqb_eq in E; subst; contradiction|].
    now apply IH.
Qed.

Lemma groups_total_length (ks : list K) (rows : list A) :
  NoDup ks -> (forall r, In r rows -> In (key r) ks) ->
  list_sum (map (fun k => List.length (filter (fun r => eqb k (key r)) rows)) ks)
  = List.length rows.
Proof.
  intros Hnd. induction rows as [|r rows IH]; simpl; intros Hin.
  - clear. induction ks as [|k ks IHk]; simpl; auto.
  - rewrite <- IH by auto.
    pose proof (count_one ks (key r) Hnd (Hin r (or_introl eq_refl))) as Hone.
    assert (G : list_sum (map (fun k => List.length (if eqb k (key r)
                                                     then r :: filter (fun r0 => eqb k (key r0)) rows
                                                     else filter (fun r0 => eqb k (key r0)) rows))
                              ks)
                = (list_sum (map (fun k => if eqb k (key r) then 1 else 0)%nat ks)
                   + list_sum (map (fun k => List.length (filter (fun r0 => eqb k (key r0)) rows))
                                   ks))%nat).
    { clear. induction ks as [|k ks IHk]; simpl; [reflexivity|].
      destruct (eqb k (key r)); simpl; rewrite IHk; lia. }
    rewrite G, Hone. reflexivity.
Qed.

Lemma group_by_total_length (rows : list A) :
  list_sum (map (fun g : K * list A => List.length (snd g)) (Pl.group_by eqb key rows))
  = List.length rows.
Proof.
  unfold Pl.group_by. rewrite map_map. simpl.
  destruct (distinct_by_spec (map key rows)) as [Hnd Hin].
  apply groups_total_length; [exact Hnd|].
  intros r Hr. apply Hin. now apply in_map.
Qed.

Lemma group_by_keys_NoDup (rows : list A) :
  NoDup (map fst (Pl.group_by eqb key rows)).
Proof.
  unfold Pl.group_by. rewrite map_map. simpl. rewrite map_id.
  apply distinct_by_spec.
Qed.

Lemma group_by_nonempty (rows : list A) (g : K * list A) :
  In g (Pl.group_by eqb key rows) ->
  snd g <> [] /\ (forall r, In r (snd g) <-> In r rows /\ key r = fst g).
Proof.
  unfold Pl.group_by. rewrite in_map_iff. intros (k & <- & Hk). simpl.
  apply (proj1 (proj2 (distinct_by_spec (map key rows)) k)) in Hk. apply in_map_iff in Hk as (r & <- & Hr).
  assert (Hall : forall r0, In r0 (filter (fun r1 => eqb (key r) (key r1)) rows)
                            <-> In r0 rows /\ key r0 = key r).
  { intros r0. rewrite filter_In, eqb_eq. intuition. }
  split; [|exact Hall].
  intros E. assert (H : In r (filter (fun r1 => eqb (key r) (key r1)) rows))
    by (apply Hall; auto).
  rewrite E in H. destruct H.
Qed.
Lemma group_by_has_key (rows : list A) (r : A) :
  In r rows -> exists g, In g (Pl.group_by eqb key rows) /\ fst g = key r.
Proof.
  intros Hr. unfold Pl.group_by.
  exists (key r, filter (fun r0 => eqb (key r) (key r0)) rows). split; [|reflexivity].
  apply in_map_iff. exists (key r). split; [reflexivity|].
  apply distinct_by_spec. now apply in_map.
Qed.

Lemma distinct_two (l : list K) (a b : K) :
  In a l -> In b l -> a <> b -> (2 <= List.length (Pl.distinct_by eqb l))%nat.
Proof.
  intros Ha Hb Hab. destruct (distinct_by_spec l) as [Hnd Hin].
  apply Hin in Ha. apply Hin in Hb.
  destruct (Pl.distinct_by eqb l) as [|x [|y d]]; simpl; [destruct Ha| |lia].
  destruct Ha as [<-|[]], Hb as [<-|[]]. congruence.
Qed.

Lemma distinct_one (l : list K) (a : K) :
  In a l -> (forall b, In b l -> b = a) -> List.length (Pl.distinct_by eqb l) = 1%nat.
Proof.
  intros Ha Hall. destruct (distinct_by_spec l) as [Hnd Hin].
  apply Hin in Ha.
  destruct (Pl.distinct_by eqb l) as [|x [|y d]]; simpl; [destruct Ha|reflexivity|].
  assert (x = a) by (apply Hall, Hin; simpl; auto).
  assert (y = a) by (apply Hall, Hin; simpl; auto).
  subst. inversion Hnd; subst. simpl in *. tauto.
Qed.
End GroupFacts.

Lemma distinct_by_length {K : Type} (eqb : K -> K -> bool) (l : list K) :
  (List.length (Pl.distinct_by eqb l) <= List.length l)%nat
  /\ (l <> [] -> 1 <= List.length (Pl.distinct_by eqb l))%nat.
Proof.
  unfold Pl.distinct_by.
  assert (G : forall acc,
             let out := fold_left (fun seen x => if existsb (eqb x) seen
                                                 then seen else (seen ++ [x])%list) l acc in
             (List.length acc <= List.length out <= List.length acc + List.length l)%nat).
  { induction l as [|y l IH]; simpl; intros acc; [lia|].
    destruct (existsb (eqb y) acc).
    - specialize (IH acc). simpl in IH. lia.
    - specialize (IH ((acc ++ [y])%list)). simpl in IH. rewrite length_app in IH. simpl in IH. lia. }
  split; [specialize (G []); simpl in G; lia|].
  destruct l as [|y l]; [congruence|]. intros _. simpl.
  match goal with |- (1 <= List.length (fold_left ?f l ?a))%nat =>
                  pose proof (G0 := True) end.
  clear G.
  assert (G : forall (l0 : list K) acc,
             (List.length acc
              <= List.length (fold_left (fun seen x => if existsb (eqb x) seen
                                                       then seen else (seen ++ [x])%list) l0 acc))%nat).
  { induction l0 as [|z l0 IH]; simpl; intros acc; [lia|].
    destruct (existsb (eqb z) acc); [apply IH|].
    specialize (IH ((acc ++ [z])%list)). rewrite length_app in IH. simpl in IH. lia. }
  specialize (G l [y]). simpl in G. exact G.
Qed.

Lemma zsum_of_nat {A : Type} (f : A -> nat) (l : list A) :
  zsum (map (fun x => Z.of_nat (f x)) l) = Z.of_nat (list_sum (map f l)).
Proof.
  induction l as [|x l IH]; [reflexivity|].
  change (list_sum (map f (x :: l))) with (f x + list_sum (map f l))%nat.
  rewrite Nat2Z.inj_add, <- IH. reflexivity.
Qed.

(** ** Sorting keeps the rows and puts them in order *)

Section SortFacts.
Context {A K : Type} (key : A -> K) (lt : K -> K -> bool).

Lemma insert_sorted_sum (f : A -> Z) (x : A) (l : list A) :
  zsum (map f (insert_sorted key lt x l)) = (f x + zsum (map f l))%Z.
Proof.
  induction l as [|y l IH]; simpl; [reflexivity|].
  destruct (lt (key x) (key y)); simpl; [reflexivity|]. rewrite IH. lia.
Qed.

Lemma sorted_sum (f : A -> Z) (l : list A) :
  zsum (map f (sorted key lt l)) = zsum (map f l).
Proof.
  unfold sorted.
  assert (G : forall acc,
             zsum (map f (fold_left (fun a x => insert_sorted key lt x a) l acc))
             = (zsum (map f l) + zsum (map f acc))%Z).
  { induction l as [|x l IH]; simpl; intros acc; [reflexivity|].
    rewrite IH, insert_sorted_sum. lia. }
  rewrite G. simpl. lia.
Qed.

Hypothesis lt_trans : forall a b c, lt a b = true -> lt b c = true -> lt a c = true.
Hypothesis lt_asym : forall a b, lt a b = true -> lt b a = false.

Let le (a b : A) : Prop := lt (key b) (key a) = false.

Lemma insert_sorted_sorted (x : A) (l : list A) :
  StronglySorted le l -> StronglySorted le (insert_sorted key lt x l).
Proof.
  induction l as [|y l IH]; simpl; intros Hl.
  - constructor; constructor.
  - inversion Hl as [|? ? Hl' Hy]; subst.
    destruct (lt (key x) (key y)) eqn:E.
    + constructor; [exact Hl|]. constructor; [now apply lt_asym|].
      rewrite Forall_forall in *. intros z Hz. unfold le.
      destruct (lt (key z) (key x)) eqn:Ez; [|reflexivity].
      rewrite <- (Hy z Hz). symmetry. eapply lt_trans; eauto.
    + constructor; [auto|].
      rewrite Forall_forall in *. intros z Hz.
      apply insert_sorted_In in Hz as [->|Hz]; [exact E|auto].
Qed.

Lemma sorted_sorted (l : list A) : StronglySorted le (sorted key lt l).
Proof.
  unfold sorted. apply fold_left_invariant with (P := StronglySorted le).
  - constructor.
  - intros s x _ Hs. now apply insert_sorted_sorted.
Qed.
End SortFacts.

(** ** The activity-daily aggregate *)

Lemma activity_key_eqb_eq (a b : activity_key) : activity_key_eqb a b = true <-> a = b.
Proof.
  unfold activity_key_eqb. rewrite !andb_true_iff, !str_eqb_eq, (opt_eqb_eq _ Z.eqb_eq).
  destruct a, b; simpl. split.
  - intros (((((((-> & ->) & ->) & ->) & ->) & ->) & ->) & ->). reflexivity.
  - intros H. inversion H. repeat split.
Qed.

Lemma daily_rows_of (fact : list Fact.t) (row : ActivityDaily.t) :
  In row (build_agg_activity_daily_from_fact fact) ->
  exists g, In g (Pl.group_by activity_key_eqb activity_key_of fact)
            /\ row = aggregate_activity (fst g) (snd g).
Proof.
  unfold build_agg_activity_daily_from_fact. rewrite sorted_In, in_map_iff.
  intros (g & <- & Hg). eauto.
Qed.

(** X14. The activity-daily aggregate counts every row of the fact table
    once: the attempts of its rows add up to the number of fact rows, and
    so do the first attempts to the number of rows with
    [attempt_number == 1]. *)
Theorem activity_daily_conserves_attempts (fact : list Fact.t) :
  zsum (map ActivityDaily.attempts (build_agg_activity_daily_from_fact fact))
  = Z.of_nat (List.length fact)
  /\ zsum (map ActivityDaily.first_attempt_count (build_agg_activity_daily_from_fact fact))
     = Z.of_nat (List.length (filter is_first_attempt fact)).
Proof.
  unfold build_agg_activity_daily_from_fact. rewrite !sorted_sum, !map_map.
  cbn [aggregate_activity ActivityDaily.attempts ActivityDaily.first_attempt_count].
  split.
  - rewrite zsum_of_nat. f_equal.
    apply (group_by_total_length activity_key_eqb activity_key_of activity_key_eqb_eq).
  - assert (Hflag : forall rs, fold_right Z.add 0%Z (map first_attempt_flag rs)
                               = Z.of_nat (List.length (filter is_first_attempt rs))).
    { induction rs as [|r rs IH]; [reflexivity|].
      cbn [map fold_right filter]. rewrite IH. unfold first_attempt_flag.
      destruct (is_first_attempt r); cbn [List.length]; lia. }
    erewrite map_ext; [|intros g; apply Hflag].
    rewrite zsum_of_nat. f_equal.
    unfold Pl.group_by. rewrite map_map. cbn [snd].
    destruct (distinct_by_spec activity_key_eqb activity_key_eqb_eq (map activity_key_of fact))
      as [Hnd Hin].
    erewrite map_ext.
    + apply (groups_total_length activity_key_eqb activity_key_of activity_key_eqb_eq
                                 _ (filter is_first_attempt fact) Hnd).
      intros r Hr. apply Hin. apply in_map. now apply filter_In in Hr.
    + intros k. cbn beta. f_equal. clear.
      induction fact as [|r rs IH]; [reflexivity|]. cbn [filter].
      destruct (activity_key_eqb k (activity_key_of r)) eqn:E1,
               (is_first_attempt r) eqn:E2; cbn [filter]; rewrite ?E1, ?E2, IH; reflexivity.
Qed.

Lemma qsum_bounds (xs : list Q) :
  (forall x, In x xs -> 0 <= x <= 1)%Q ->
  (0 <= Pl.qsum xs <= inject_Z (Z.of_nat (List.length xs)))%Q.
Proof.
  induction xs as [|x xs IH]; intros H.
  - simpl. split; apply Qle_refl.
  - destruct (IH (fun y Hy => H y (or_intror Hy))) as [H0 H1].
    destruct (H x (or_introl eq_refl)) as [Hx0 Hx1].
    cbn [Pl.qsum fold_right List.length]. fold (Pl.qsum xs).
    rewrite Nat2Z.inj_succ, <- Z.add_1_l, inject_Z_plus.
    split.
    + apply (Qplus_le_compat 0 x 0 (Pl.qsum xs)); assumption.
    + apply Qplus_le_compat; assumption.
Qed.

Lemma mean_is_rate (l : list (option Q)) :
  (forall x, In (Some x) l -> 0 <= x <= 1)%Q -> is_rate (Pl.mean l).
Proof.
  intros H. unfold Pl.mean.
  assert (Hd : forall x, In x (Pl.drop_nulls l) -> (0 <= x <= 1)%Q).
  { intros x Hx. apply H. clear H. induction l as [|[y|] l IH]; simpl in *; auto.
    destruct Hx as [->|Hx]; auto. }
  destruct (Pl.drop_nulls l) as [|x xs] eqn:E; [exact I|].
  destruct (qsum_bounds (x :: xs) Hd) as [H0 H1].
  set (n := inject_Z (Z.of_nat (List.length (x :: xs)))) in *.
  assert (Hn : (0 < n)%Q).
  { unfold n. rewrite <- (Zlt_Qlt 0). simpl. lia. }
  simpl. split.
  - apply Qle_shift_div_l; [exact Hn|]. now rewrite Qmult_0_l.
  - apply Qle_shift_div_r; [exact Hn|]. now rewrite Qmult_1_l.
Qed.

Lemma first_attempt_count_bounds (rs : list Fact.t) :
  (0 <= fold_right Z.add 0 (map first_attempt_flag rs) <= Z.of_nat (List.length rs))%Z.
Proof.
  induction rs as [|r rs IH]; [simpl; lia|].
  cbn [map fold_right List.length]. unfold first_attempt_flag at 1 3.
  destruct (is_first_attempt r); lia.
Qed.

Lemma no_first_attempt_no_rate (rs : list Fact.t) :
  fold_right Z.add 0%Z (map first_attempt_flag rs) = 0%Z ->
  Pl.mean (map first_attempt_correct_value rs) = None.
Proof.
  intros H.
  assert (G : Pl.drop_nulls (map first_attempt_correct_value rs) = []).
  { induction rs as [|r rs IH]; [reflexivity|].
    cbn [map fold_right] in H.
    pose proof (first_attempt_count_bounds rs) as Hb.
    unfold first_attempt_flag at 1 in H. unfold first_attempt_correct_value at 1.
    cbn [map]. destruct (is_first_attempt r); [lia|].
    simpl. apply IH. lia. }
  unfold Pl.mean. now rewrite G.
Qed.

(** X15. Every row of the activity-daily aggregate stands for at least
    one attempt; it has between one and [attempts] students, between zero
    and [attempts] first attempts, and its three rates lie between 0 and 1.
    A row without a first attempt has no first-attempt success rate. *)
Theorem activity_daily_bounds (fact : list Fact.t) (row : ActivityDaily.t) :
  In row (build_agg_activity_daily_from_fact fact) ->
  (1 <= ActivityDaily.attempts row)%Z
  /\ (1 <= ActivityDaily.unique_students row <= ActivityDaily.attempts row)%Z
  /\ (0 <= ActivityDaily.first_attempt_count row <= ActivityDaily.attempts row)%Z
  /\ is_rate (ActivityDaily.success_rate row)
  /\ is_rate (ActivityDaily.first_attempt_success_rate row)
  /\ is_rate (ActivityDaily.repeat_attempt_rate row)
  /\ (ActivityDaily.first_attempt_count row = 0%Z ->
      ActivityDaily.first_attempt_success_rate row = None).
Proof.
  intros Hrow. apply daily_rows_of in Hrow as ([k rs] & Hg & ->).
  apply (group_by_nonempty activity_key_eqb activity_key_of activity_key_eqb_eq) in Hg
    as [Hne _].
  cbn [fst snd] in *.
  cbn [aggregate_activity ActivityDaily.attempts ActivityDaily.unique_students
       ActivityDaily.first_attempt_count ActivityDaily.success_rate
       ActivityDaily.first_attempt_success_rate ActivityDaily.repeat_attempt_rate].
  assert (Hlen : (1 <= List.length rs)%nat) by (destruct rs; [congruence|simpl; lia]).
  destruct (distinct_by_length Pl.str_eqb (map Fact.user_id rs)) as [Hu1 Hu2].
  rewrite length_map in Hu1.
  assert (Hu : (1 <= List.length (Pl.distinct_by Pl.str_eqb (map Fact.user_id rs)))%nat).
  { apply Hu2. destruct rs; [congruence|discriminate]. }
  unfold Pl.n_unique.
  split; [lia|]. split; [lia|]. split; [apply first_attempt_count_bounds|].
  split; [|split; [|split]].
  - apply mean_is_rate. intros x Hx. apply in_map_iff in Hx as (r & Hr & _).
    destruct (Fact.data_correct r) as [[]|]; inversion Hr; subst;
      split; discriminate.
  - apply mean_is_rate. intros x Hx. apply in_map_iff in Hx as (r & Hr & _).
    unfold first_attempt_correct_value in Hr.
    destruct (is_first_attempt r); [|discriminate].
    destruct (Fact.data_correct r) as [[]|]; inversion Hr; subst;
      split; discriminate.
  - apply mean_is_rate. intros x Hx. apply in_map_iff in Hx as (r & Hr & _).
    unfold is_repeat in Hr.
    destruct (Fact.attempt_number r) as [n|]; [|discriminate].
    inversion Hr; subst. destruct (1 <? n)%Z; split; discriminate.
  - apply no_first_attempt_no_rate.
Qed.

Lemma activity_daily_bounds_witness :
  exists row,
    In row (build_agg_activity_daily_from_fact two_students)
    /\ ActivityDaily.attempts row = 3%Z
    /\ (1 <= ActivityDaily.unique_students row <= ActivityDaily.attempts row)%Z
    /\ is_rate (ActivityDaily.first_attempt_success_rate row).
Proof.
  evar (row : ActivityDaily.t).
  assert (Hrow : In row (build_agg_activity_daily_from_fact two_students))
    by (subst row; vm_compute; left; reflexivity).
  destruct (activity_daily_bounds two_students row Hrow) as (_ & Hu & _ & _ & Hr & _).
  exists row. split; [exact Hrow|]. split; [reflexivity|]. split; [exact Hu|exact Hr].
Defined.

(** ** The order of the rows *)

Lemma daily_order_ltb_trans (a b c : option Z * Z) :
  daily_order_ltb a b = true -> daily_order_ltb b c = true -> daily_order_ltb a c = true.
Proof.
  destruct a as [[x|] n1], b as [[y|] n2], c as [[z|] n3]; simpl; try congruence.
  - destruct (x <? y)%Z eqn:E1, (y <? x)%Z eqn:E2, (y <? z)%Z eqn:E3, (z <? y)%Z eqn:E4,
             (x <? z)%Z eqn:E5, (z <? x)%Z eqn:E6; try congruence;
      rewrite ?Z.ltb_lt, ?Z.ltb_ge in *; try lia.
  - rewrite !Z.ltb_lt. lia.
Qed.

Lemma daily_order_ltb_asym (a b : option Z * Z) :
  daily_order_ltb a b = true -> daily_order_ltb b a = false.
Proof.
  destruct a as [[x|] n1], b as [[y|] n2]; simpl; try congruence.
  - destruct (x <? y)%Z eqn:E1, (y <? x)%Z eqn:E2; try congruence;
      rewrite ?Z.ltb_lt, ?Z.ltb_ge in *; try lia.
  - rewrite Z.ltb_lt, Z.ltb_ge. lia.
Qed.

Lemma daily_order_not_before (a b : option Z * Z) :
  daily_order_ltb b a = false <-> not_before a b.
Proof.
  destruct a as [[x|] n1], b as [[y|] n2]; unfold not_before; simpl.
  - destruct (y <? x)%Z eqn:E1, (x <? y)%Z eqn:E2;
      rewrite ?Z.ltb_lt, ?Z.ltb_ge in *; split; try congruence; try lia.
  - split; [discriminate|tauto].
  - tauto.
  - rewrite Z.ltb_ge. tauto.
Qed.

Lemma sorted_NoDup {A K B : Type} (key : A -> K) (lt : K -> K -> bool) (f : A -> B)
      (l : list A) :
  NoDup (map f l) -> NoDup (map f (sorted key lt l)).
Proof.
  unfold sorted.
  assert (Hins : forall x acc, ~ In (f x) (map f acc) -> NoDup (map f acc) ->
                               NoDup (map f (insert_sorted key lt x acc))
                               /\ forall y, In y (map f (insert_sorted key lt x acc))
                                            <-> y = f x \/ In y (map f acc)).
  { intros x acc. induction acc as [|z acc IH]; simpl; intros Hx Hnd.
    - split; [repeat constructor; intros []|]. intros y. intuition.
    - destruct (lt (key x) (key z)); simpl.
      + split; [constructor; [simpl; tauto|exact Hnd]|]. intros y. intuition.
      + inversion Hnd as [|? ? Hz Hnd']; subst.
        destruct IH as [IH1 IH2]; [tauto|exact Hnd'|].
        split.
        * constructor; [|exact IH1]. rewrite IH2. intros [E|H]; [|contradiction].
          apply Hx. left. congruence.
        * intros y. rewrite IH2. intuition. }
  assert (G : forall acc,
             NoDup (map f (l ++ acc)) ->
             NoDup (map f (fold_left (fun a x => insert_sorted key lt x a) l acc))).
  { induction l as [|x l IH]; simpl; intros acc Hnd; [exact Hnd|].
    inversion Hnd as [|? ? Hx Hnd']; subst.
    rewrite map_app, in_app_iff in Hx.
    destruct (Hins x acc) as [H1 H2]; [tauto| |].
    - rewrite map_app in Hnd'. now apply NoDup_app_remove_l in Hnd'.
    - apply IH. rewrite map_app in *.
      apply NoDup_app.
      + now apply NoDup_app_remove_r in Hnd'.
      + exact H1.
      + intros y Hy Hy'. apply H2 in Hy' as [->|Hy']; [tauto|].
        revert Hy Hy'. clear - Hnd'. intros Hy Hy'.
        induction (map f l) as [|u us IHu]; [destruct Hy|].
        simpl in Hnd'. inversion Hnd'; subst.
        destruct Hy as [->|Hy]; [|auto].
        rewrite in_app_iff in *. tauto. }
  intros H. apply G. now rewrite app_nil_r.
Qed.

(** X16. The activity-daily aggregate has one row for each grouping key,
    and its rows are in order: by ascending date, a null date first, and
    on one date by descending number of attempts. *)
Theorem activity_daily_sorted (fact : list Fact.t) :
  NoDup (map key_of_row (build_agg_activity_daily_from_fact fact))
  /\ StronglySorted (fun a b => not_before (daily_key a) (daily_key b))
                    (build_agg_activity_daily_from_fact fact).
Proof.
  unfold build_agg_activity_daily_from_fact. split.
  - apply sorted_NoDup. rewrite map_map.
    erewrite map_ext; [apply (group_by_keys_NoDup activity_key_eqb activity_key_of
                                                 activity_key_eqb_eq fact)|].
    intros [k rs]. simpl. now destruct k.
  - pose proof (sorted_sorted (fun r => (ActivityDaily.date_utc r, ActivityDaily.attempts r))
                              daily_order_ltb daily_order_ltb_trans daily_order_ltb_asym
                              (map (fun g : activity_key * list Fact.t =>
                                      aggregate_activity (fst g) (snd g))
                                   (Pl.group_by activity_key_eqb activity_key_of fact)))
      as Hs.
    induction Hs as [|r rs Hs IH Hall]; constructor; [exact IH|].
    rewrite Forall_forall in *. intros y Hy. apply daily_order_not_before.
    exact (Hall y Hy).
Qed.

Lemma playlist_key_eqb_eq (a b : playlist_key) : playlist_key_eqb a b = true <-> a = b.
Proof.
  unfold playlist_key_eqb. rewrite !andb_true_iff, !str_eqb_eq.
  destruct a, b; simpl. split.
  - intros (((-> & ->) & ->) & ->). reflexivity.
  - intros H. inversion H. repeat split.
Qed.

Lemma keep_playlist_row_counted (fact : list Fact.t) :
  filter (keep_playlist_row fact) fact = counted_attempts fact.
Proof.
  unfold counted_attempts. apply filter_ext. intros r.
  unfold keep_playlist_row, playlist_has_mapped_module.
  assert (G : negb (existsb (fun r' => Pl.is_not_null (Fact.module_code r'))
                            (filter (fun r' => Pl.str_eqb (Fact.playlist_or_module_id r)
                                                          (Fact.playlist_or_module_id r'))
                                    fact))
              = forallb (fun r' => negb (Pl.str_eqb (Fact.playlist_or_module_id r)
                                                    (Fact.playlist_or_module_id r'))
                                   || Pl.is_null (Fact.module_code r'))
                        fact).
  { induction fact as [|r' rs IH]; [reflexivity|]. cbn [filter forallb].
    destruct (Pl.str_eqb (Fact.playlist_or_module_id r) (Fact.playlist_or_module_id r'));
      cbn [existsb negb orb]; [|exact IH].
    rewrite negb_orb, IH. unfold Pl.is_not_null. now rewrite negb_involutive. }
  rewrite <- G. unfold Pl.is_not_null.
  destruct (Pl.is_null (Fact.module_code r)); cbn; [now rewrite andb_true_r|
                                                     now rewrite andb_false_r].
Qed.

Lemma has_mapped_false (fact : list Fact.t) (r : Fact.t) :
  playlist_has_mapped_module fact r = false <->
  playlist_unmapped fact (Fact.playlist_or_module_id r).
Proof.
  unfold playlist_has_mapped_module, playlist_unmapped. split.
  - intros H r' Hr' Hp.
    destruct (Fact.module_code r') as [c|] eqn:Ec; [|reflexivity].
    assert (Hex : existsb (fun r0 => Pl.is_not_null (Fact.module_code r0))
                          (filter (fun r0 => Pl.str_eqb (Fact.playlist_or_module_id r)
                                                        (Fact.playlist_or_module_id r0))
                                  fact) = true).
    { apply existsb_exists. exists r'. split; [|now rewrite Ec].
      apply filter_In. split; [exact Hr'|]. apply str_eqb_eq. now symmetry. }
    congruence.
  - intros H. apply not_true_is_false. intros Hex.
    apply existsb_exists in Hex as (r' & Hr' & Hc).
    apply filter_In in Hr' as [Hr' Hp]. apply str_eqb_eq in Hp.
    rewrite (H r' Hr' (eq_sym Hp)) in Hc. discriminate.
Qed.

Lemma playlist_rows_of (fact : list Fact.t) (row : PlaylistUsage.t) :
  In row (build_agg_playlist_module_usage_from_fact fact) ->
  exists g, In g (Pl.group_by playlist_key_eqb playlist_key_of
                              (filter (keep_playlist_row fact) fact))
            /\ row = aggregate_playlist (fst g) (snd g).
Proof.
  unfold build_agg_playlist_module_usage_from_fact. rewrite sorted_In, in_map_iff.
  intros (g & <- & Hg). eauto.
Qed.

(** X17. The playlist usage table has a row without module code only for
    a playlist none of whose attempts is mapped to a module; every
    mapped attempt, and every attempt of such a playlist, is counted in
    the row of its key, and the attempts of the table add up to the number
    of attempts counted. *)
Theorem playlist_usage_unmapped_rows (fact : list Fact.t) :
  (forall row,
      In row (build_agg_playlist_module_usage_from_fact fact) ->
      PlaylistUsage.module_code row = None ->
      playlist_unmapped fact (PlaylistUsage.playlist_or_module_id row))
  /\ (forall r,
         In r fact ->
         Fact.module_code r <> None
         \/ playlist_unmapped fact (Fact.playlist_or_module_id r) ->
         exists row,
           In row (build_agg_playlist_module_usage_from_fact fact)
           /\ usage_key_of_row row = playlist_key_of r)
  /\ zsum (map PlaylistUsage.attempts (build_agg_playlist_module_usage_from_fact fact))
     = Z.of_nat (List.length (counted_attempts fact)).
Proof.
  split; [|split].
  - intros row Hrow Hc. apply playlist_rows_of in Hrow as ([k rs] & Hg & ->).
    apply (group_by_nonempty playlist_key_eqb playlist_key_of playlist_key_eqb_eq) in Hg
      as [Hne Hrs].
    cbn [fst snd aggregate_playlist PlaylistUsage.module_code
         PlaylistUsage.playlist_or_module_id] in *.
    destruct rs as [|r0 rs]; [congruence|].
    destruct (proj1 (Hrs r0) (or_introl eq_refl)) as [Hkept Hk].
    apply filter_In in Hkept as [Hr0 Hkeep]. subst k. cbn in Hc |- *.
    unfold keep_playlist_row in Hkeep. rewrite Hc in Hkeep. cbn in Hkeep.
    rewrite andb_true_r in Hkeep. apply negb_true_iff in Hkeep.
    now apply has_mapped_false.
  - intros r Hr Hcase.
    assert (Hkept : In r (filter (keep_playlist_row fact) fact)).
    { apply filter_In. split; [exact Hr|]. unfold keep_playlist_row.
      destruct Hcase as [Hc|Hu].
      - destruct (Fact.module_code r); [|congruence]. cbn. now rewrite andb_false_r.
      - apply has_mapped_false in Hu. now rewrite Hu. }
    destruct (group_by_has_key playlist_key_eqb playlist_key_of playlist_key_eqb_eq _ _ Hkept)
      as ([k rs] & Hg & Hk).
    exists (aggregate_playlist k rs). split.
    + unfold build_agg_playlist_module_usage_from_fact. rewrite sorted_In.
      apply in_map_iff. exists (k, rs). split; [reflexivity|exact Hg].
    + cbn in Hk. subst k. reflexivity.
  - unfold build_agg_playlist_module_usage_from_fact.
    rewrite sorted_sum, map_map. cbn [aggregate_playlist PlaylistUsage.attempts].
    rewrite zsum_of_nat, <- keep_playlist_row_counted. f_equal.
    apply (group_by_total_length playlist_key_eqb playlist_key_of playlist_key_eqb_eq).
Qed.

(** X18. The work mode of a row of the playlist usage table is never
    null: it is [unknown] when none of its attempts has a work mode, the
    work mode of its attempts when they all have the same one, and [mixed]
    when two of them differ. *)
Theorem playlist_usage_work_mode (fact : list Fact.t) (row : PlaylistUsage.t) :
  In row (build_agg_playlist_module_usage_from_fact fact) ->
  (modes_of fact row = [] -> PlaylistUsage.work_mode row = Some "unknown")
  /\ (forall m, In m (modes_of fact row) ->
                (forall m', In m' (modes_of fact row) -> m' = m) ->
                PlaylistUsage.work_mode row = Some m)
  /\ (forall m m', In m (modes_of fact row) -> In m' (modes_of fact row) -> m <> m' ->
                   PlaylistUsage.work_mode row = Some "mixed").
Proof.
  intros Hrow. apply playlist_rows_of in Hrow as ([k rs] & Hg & ->).
  apply group_by_In in Hg as [_ Hg]. cbn [fst snd] in *.
  assert (Hm : modes_of fact (aggregate_playlist k rs)
               = Pl.drop_nulls (map Fact.work_mode rs)).
  { unfold modes_of. rewrite <- keep_playlist_row_counted, Hg. now destruct k. }
  rewrite Hm. cbn [aggregate_playlist PlaylistUsage.work_mode].
  unfold work_mode_of, Pl.n_unique.
  set (modes := Pl.drop_nulls (map Fact.work_mode rs)).
  split; [|split].
  - intros E. now rewrite E.
  - intros m Hin Hall.
    rewrite (distinct_one String.eqb String.eqb_eq modes m Hin Hall). cbn.
    destruct modes as [|m0 ms]; [destruct Hin|]. f_equal. apply Hall. now left.
  - intros m m' Hin Hin' Hne.
    pose proof (distinct_two String.eqb String.eqb_eq modes m m' Hin Hin' Hne) as H2.
    destruct (List.length (Pl.distinct_by String.eqb modes)) as [|[|n]]; [lia|lia|reflexivity].
Qed.

Lemma playlist_usage_work_mode_witness :
  exists row,
    In row (build_agg_playlist_module_usage_from_fact two_students)
    /\ PlaylistUsage.work_mode row = Some "playlist".
Proof.
  evar (row : PlaylistUsage.t).
  assert (Hrow : In row (build_agg_playlist_module_usage_from_fact two_students))
    by (subst row; vm_compute; left; reflexivity).
  destruct (playlist_usage_work_mode two_students row Hrow) as (_ & Hone & _).
  exists row. split; [exact Hrow|]. apply Hone.
  - vm_compute. left. reflexivity.
  - vm_compute. intros m' [<-|[<-|[<-|[]]]]; reflexivity.
Defined.


Lemma module_activity_key_eqb_eq (a b : module_activity_key) :
  module_activity_key_eqb a b = true <-> a = b.
Proof.
  unfold module_activity_key_eqb. rewrite !andb_true_iff, !str_eqb_eq.
  destruct a, b; simpl. split.
  - intros ((((-> & ->) & ->) & ->) & ->). reflexivity.
  - intros H. inversion H. repeat split.
Qed.

Lemma zsum_filter {A : Type} (p : A -> bool) (f : A -> Z) (l : list A) :
  zsum (map f (filter p l)) = zsum (map (fun x => if p x then f x else 0%Z) l).
Proof.
  induction l as [|x l IH]; [reflexivity|]. cbn [filter map].
  destruct (p x); cbn [map zsum fold_right]; fold (zsum (map f (filter p l)));
    fold (zsum (map (fun x => if p x then f x else 0%Z) l)); rewrite IH; reflexivity.
Qed.

Lemma qsum_filter {A : Type} (p : A -> bool) (f : A -> Q) (l : list A) :
  (Pl.qsum (map f (filter p l)) == Pl.qsum (map (fun x => if p x then f x else 0) l))%Q.
Proof.
  induction l as [|x l IH]; [reflexivity|]. cbn [filter map].
  destruct (p x); cbn [map Pl.qsum fold_right];
    fold (Pl.qsum (map f (filter p l)));
    fold (Pl.qsum (map (fun x => if p x then f x else 0%Q) l)); rewrite IH;
    [reflexivity|now rewrite Qplus_0_l].
Qed.

Lemma sorted_qsum {A K : Type} (key : A -> K) (lt : K -> K -> bool) (f : A -> Q)
      (l : list A) :
  (Pl.qsum (map f (sorted key lt l)) == Pl.qsum (map f l))%Q.
Proof.
  unfold sorted.
  assert (Hins : forall x acc,
             (Pl.qsum (map f (insert_sorted key lt x acc)) == f x + Pl.qsum (map f acc))%Q).
  { intros x acc. induction acc as [|y acc IH]; [reflexivity|]. cbn [insert_sorted].
    destruct (lt (key x) (key y)); [reflexivity|].
    cbn [map Pl.qsum fold_right].
    fold (Pl.qsum (map f (insert_sorted key lt x acc))). fold (Pl.qsum (map f acc)).
    rewrite IH. ring. }
  assert (G : forall acc,
             (Pl.qsum (map f (fold_left (fun a x => insert_sorted key lt x a) l acc))
              == Pl.qsum (map f l) + Pl.qsum (map f acc))%Q).
  { induction l as [|x l IH]; intros acc; cbn [fold_left map Pl.qsum fold_right].
    - now rewrite Qplus_0_l.
    - fold (Pl.qsum (map f l)). rewrite IH, Hins. ring. }
  rewrite G. cbn. now rewrite Qplus_0_r.
Qed.

Section ModuleShares.
Variable fact : list Fact.t.
Let groups := Pl.group_by module_activity_key_eqb module_activity_key_of fact.
Let out := build_agg_module_activity_usage_from_fact fact.

Lemma module_attempts_total (code : option string) :
  zsum (map ModuleActivityUsage.attempts (module_rows out code))
  = attempts_over_module groups code.
Proof.
  unfold module_rows, out, build_agg_module_activity_usage_from_fact.
  fold groups. rewrite zsum_filter, sorted_sum, map_map.
  unfold attempts_over_module. fold zsum. rewrite zsum_filter.
  f_equal.
Qed.

Lemma module_attempts_positive (g : module_activity_key * list Fact.t) :
  In g groups ->
  (1 <= Z.of_nat (List.length (snd g))
   <= attempts_over_module groups (mk_module_code (fst g)))%Z.
Proof.
  intros Hg.
  pose proof (group_by_nonempty module_activity_key_eqb module_activity_key_of
                                module_activity_key_eqb_eq fact g Hg) as [Hne _].
  split; [destruct (snd g); [congruence|simpl; lia]|].
  unfold attempts_over_module. fold zsum. rewrite zsum_filter.
  revert Hg. generalize groups. intros l Hg.
  assert (Hpos : forall l0 : list (module_activity_key * list Fact.t),
             (0 <= zsum (map (fun x : module_activity_key * list Fact.t =>
                                if Pl.str_eqb (mk_module_code (fst g)) (mk_module_code (fst x))
                                then Z.of_nat (List.length (snd x)) else 0) l0))%Z).
  { induction l0 as [|x l0 IH]; cbn [map zsum fold_right]; [lia|].
    fold (zsum (map (fun x : module_activity_key * list Fact.t =>
                       if Pl.str_eqb (mk_module_code (fst g)) (mk_module_code (fst x))
                       then Z.of_nat (List.length (snd x)) else 0%Z) l0)).
    destruct (Pl.str_eqb _ _); lia. }
  induction l as [|x l IH]; [destruct Hg|].
  cbn [map zsum fold_right].
  fold (zsum (map (fun x : module_activity_key * list Fact.t =>
                     if Pl.str_eqb (mk_module_code (fst g)) (mk_module_code (fst x))
                     then Z.of_nat (List.length (snd x)) else 0%Z) l)).
  specialize (Hpos l).
  destruct Hg as [->|Hg].
  - rewrite (proj2 (str_eqb_eq _ _) eq_refl). lia.
  - specialize (IH Hg). destruct (Pl.str_eqb _ _); lia.
Qed.

Lemma module_shares_total (code : option string) :
  (0 < attempts_over_module groups code)%Z ->
  (Pl.qsum (map ModuleActivityUsage.activity_share_within_module (module_rows out code))
   == 1)%Q.
Proof.
  intros HT.
  unfold module_rows, out, build_agg_module_activity_usage_from_fact.
  fold groups. rewrite qsum_filter, sorted_qsum, map_map.
  cbn [aggregate_module_activity ModuleActivityUsage.module_code
       ModuleActivityUsage.activity_share_within_module].
  set (T := attempts_over_module groups code) in *.
  assert (G : forall l : list (module_activity_key * list Fact.t),
             (Pl.qsum (map (fun x : module_activity_key * list Fact.t =>
                              if Pl.str_eqb code (mk_module_code (fst x))
                              then inject_Z (Z.of_nat (List.length (snd x)))
                                   / inject_Z (attempts_over_module
                                                 groups (mk_module_code (fst x)))
                              else 0) l)
              == inject_Z (zsum (map (fun x : module_activity_key * list Fact.t =>
                                        if Pl.str_eqb code (mk_module_code (fst x))
                                        then Z.of_nat (List.length (snd x)) else 0%Z) l))
                 / inject_Z T)%Q).
  { induction l as [|x l IH]; cbn [map Pl.qsum zsum fold_right].
    - unfold Qdiv. now rewrite Qmult_0_l.
    - fold (Pl.qsum (map (fun x : module_activity_key * list Fact.t =>
                            if Pl.str_eqb code (mk_module_code (fst x))
                            then inject_Z (Z.of_nat (List.length (snd x)))
                                 / inject_Z (attempts_over_module
                                               groups (mk_module_code (fst x)))
                            else 0%Q) l)).
      fold (zsum (map (fun x : module_activity_key * list Fact.t =>
                         if Pl.str_eqb code (mk_module_code (fst x))
                         then Z.of_nat (List.length (snd x)) else 0%Z) l)).
      rewrite IH, inject_Z_plus.
      destruct (Pl.str_eqb code (mk_module_code (fst x))) eqn:E.
      + apply str_eqb_eq in E. rewrite <- E. fold T. unfold Qdiv. ring.
      + unfold Qdiv. ring. }
  rewrite G.
  assert (HT' : zsum (map (fun x : module_activity_key * list Fact.t =>
                             if Pl.str_eqb code (mk_module_code (fst x))
                             then Z.of_nat (List.length (snd x)) else 0%Z) groups) = T).
  { unfold T, attempts_over_module. fold zsum. now rewrite zsum_filter. }
  rewrite HT'. apply Qmult_inv_r.
  intros H0. assert (H1 : (0 < inject_Z T)%Q) by (rewrite <- (Zlt_Qlt 0); exact HT).
  rewrite H0 in H1. discriminate.
Qed.
End ModuleShares.

(** X19. In the module-activity usage table the share of a row is its
    attempts over the attempts of all rows of the table with the same
    module code (null module codes counting as one module): it is above 0
    and at most 1, and the shares of the rows of one module add up
    to 1. *)
Theorem activity_shares_within_module
        (fact : list Fact.t) (row : ModuleActivityUsage.t) :
  In row (build_agg_module_activity_usage_from_fact fact) ->
  let rows := module_rows (build_agg_module_activity_usage_from_fact fact)
                          (ModuleActivityUsage.module_code row) in
  (0 < ModuleActivityUsage.activity_share_within_module row <= 1)%Q
  /\ (ModuleActivityUsage.activity_share_within_module row
      * inject_Z (zsum (map ModuleActivityUsage.attempts rows))
      == inject_Z (ModuleActivityUsage.attempts row))%Q
  /\ (Pl.qsum (map ModuleActivityUsage.activity_share_within_module rows) == 1)%Q.
Proof.
  intros Hrow rows. subst rows.
  assert (Hg : exists g,
             In g (Pl.group_by module_activity_key_eqb module_activity_key_of fact)
             /\ row = aggregate_module_activity
                        (Pl.group_by module_activity_key_eqb module_activity_key_of fact)
                        (fst g) (snd g)).
  { revert Hrow. unfold build_agg_module_activity_usage_from_fact.
    rewrite sorted_In, in_map_iff. intros (g & <- & Hg). eauto. }
  destruct Hg as (g & Hg & ->).
  destruct (module_attempts_positive fact g Hg) as [H1 HT].
  rewrite module_attempts_total.
  cbn [aggregate_module_activity ModuleActivityUsage.module_code
       ModuleActivityUsage.attempts ModuleActivityUsage.activity_share_within_module].
  set (T := attempts_over_module _ (mk_module_code (fst g))) in *.
  set (a := Z.of_nat (List.length (snd g))) in *.
  assert (Ha : (0 < inject_Z a)%Q) by (rewrite <- (Zlt_Qlt 0); lia).
  assert (HTq : (0 < inject_Z T)%Q) by (rewrite <- (Zlt_Qlt 0); lia).
  assert (HaT : (inject_Z a <= inject_Z T)%Q) by (rewrite <- Zle_Qle; exact HT).
  split; [split|split].
  - apply Qlt_shift_div_l; [exact HTq|]. now rewrite Qmult_0_l.
  - apply Qle_shift_div_r; [exact HTq|]. now rewrite Qmult_1_l.
  - unfold Qdiv. rewrite <- Qmult_assoc, (Qmult_comm (/ inject_Z T)), Qmult_inv_r.
    + apply Qmult_1_r.
    + intros H0. rewrite H0 in HTq. discriminate.
  - apply module_shares_total. unfold T in HT. lia.
Qed.

Lemma activity_shares_within_module_witness :
  exists row,
    In row (build_agg_module_activity_usage_from_fact two_students)
    /\ (ModuleActivityUsage.activity_share_within_module row <= 1)%Q.
Proof.
  evar (row : ModuleActivityUsage.t).
  assert (Hrow : In row (build_agg_module_activity_usage_from_fact two_students))
    by (subst row; vm_compute; left; reflexivity).
  destruct (activity_shares_within_module two_students row Hrow) as ((_ & Hle) & _).
  exists row. split; [exact Hrow|exact Hle].
Defined.

End AggregateFacts.

Section GhostFacts.
Import ZpdesDependencies Spec.

Lemma dict_set_absent {V : Type} (d : list (string * V)) (k : string) (v : V) :
  dict_mem d k = false -> dict_set d k v = (d ++ [(k, v)])%list.
Proof.
  unfold dict_mem. induction d as [|[k' v'] d IH]; simpl; [reflexivity|].
  destruct (k' =? k); [discriminate|]. intros H. now rewrite IH.
Qed.

Lemma add_ghosts_count (mc : string) (ctg : list (string * pyobj))
      (itl : list (string * string)) (l : list string) :
  NoDup l ->
  forall m,
    (forall c, In c l -> dict_mem m c = false) ->
    List.length (filter Node.is_ghost (values (fold_left (add_ghost mc ctg itl) l m)))
    = (List.length (filter Node.is_ghost (values m))
       + List.length (filter ghost_shaped l))%nat.
Proof.
  induction 1 as [|g l Hg Hnd IH]; intros m Hm; [simpl; lia|].
  cbn [fold_left]. rewrite IH.
  - cbn [filter]. unfold add_ghost. fold (ghost_shaped g).
    destruct (ghost_shaped g); cbn [negb List.length]; [|lia].
    rewrite dict_set_absent by (apply Hm; now left).
    unfold values. rewrite map_app, filter_app, length_app. cbn. lia.
  - intros c Hc. rewrite add_ghost_mem, (Hm c (or_intror Hc)).
    destruct (String.eqb_spec c g) as [->|_]; [contradiction|].
    now rewrite andb_false_r.
Qed.

Lemma missing_codes_spec (es : list Edge.t) (m : node_map_t) :
  (forall e, In e es -> clean_edge e) ->
  NoDup (missing_codes es m)
  /\ forall c, In c (missing_codes es m) <-> unresolved es m c.
Proof.
  intros Hes. split.
  - unfold missing_codes.
    rewrite <- (map_id (sorted _ _ _)). apply sorted_NoDup. rewrite map_id.
    apply NoDup_filter. apply NoDup_nodup.
  - intros c. split.
    + unfold missing_codes. rewrite sorted_In, filter_In, andb_true_iff, !negb_true_iff.
      unfold referenced_codes, distinct. rewrite nodup_In, in_app_iff, !in_map_iff.
      intros (Hin & Hne & Hm). repeat split; auto.
      destruct Hin as [(e & <- & He)|(e & <- & He)]; exists e; (split; [exact He|]);
        destruct (Hes e He) as (Hf & Ht & _); [left|right]; congruence.
    + intros (Hne & Hm & e & He & Hc). eapply missing_code; eauto.
Qed.

(** X20. Once the rules of a module are read, the warning of ghost
    synthesis counts the unresolved codes, not the ghost nodes: the codes
    at the ends of edges that are not empty and that no node has are listed
    once each; when there is none there is no warning, otherwise the one
    warning gives their number; and the node table has one ghost for each
    of them that is shaped like an objective or an activity, so it can have
    fewer ghosts than the warning says. *)
Theorem ghost_warning_counts_unresolved
        (module_code : string) (catalog_payload rules_payload : list (string * pyobj))
        (dv : derivation) :
  derive module_code catalog_payload rules_payload = Ok (Some dv) ->
  exists nodes edges warnings missing,
    _build_dependency_tables_from_rules_payload module_code catalog_payload rules_payload
    = Ok (nodes, edges, warnings)
    /\ NoDup missing
    /\ (forall c, In c missing <-> unresolved edges (d_node_map dv) c)
    /\ warnings = match missing with
                  | [] => []
                  | _ => [ghost_warning (List.length missing)]
                  end
    /\ List.length (filter Node.is_ghost nodes) = List.length (filter ghost_shaped missing).
Proof.
  intros Hd. destruct (derive_real _ _ _ _ Hd) as ([Hk Hg] & Hes & _).
  destruct (missing_codes_spec (d_edges dv) (d_node_map dv) Hes) as [Hnd Hin].
  exists (fst (fst (finish (d_module_code_norm dv) (d_code_to_id_global dv) (d_id_to_label dv)
                           (d_node_map dv) (d_edges dv)))),
         (d_edges dv),
         (snd (finish (d_module_code_norm dv) (d_code_to_id_global dv) (d_id_to_label dv)
                      (d_node_map dv) (d_edges dv))),
         (missing_codes (d_edges dv) (d_node_map dv)).
  split; [rewrite (build_from_derivation _ _ _ _ Hd); reflexivity|].
  split; [exact Hnd|]. split; [exact Hin|]. split.
  - unfold finish. cbn [snd]. now destruct (missing_codes _ _).
  - unfold finish. cbn [fst]. rewrite add_ghosts_count.
    + assert (H0 : filter Node.is_ghost (values (d_node_map dv)) = []).
      { apply filter_nil. intros n Hn. unfold values in Hn.
        apply in_map_iff in Hn as ([k n'] & <- & Hn). exact (Hg k n' Hn). }
      now rewrite H0.
    + exact Hnd.
    + intros c Hc. apply Hin in Hc as (_ & Hm & _). exact Hm.
Qed.

Lemma ghost_warning_counts_unresolved_witness :
  exists dv nodes edges warnings,
    derive "M1" dependency_catalog dependency_rules = Ok (Some dv)
    /\ _build_dependency_tables_from_rules_payload "M1" dependency_catalog dependency_rules
       = Ok (nodes, edges, warnings)
    /\ warnings = ["Created 3 ghost node(s) for unresolved rules references."]
    /\ List.length (filter Node.is_ghost nodes) = 1%nat.
Proof.
  evar (dv : derivation).
  assert (Hd : derive "M1" dependency_catalog dependency_rules = Ok (Some dv))
    by (subst dv; vm_compute; reflexivity).
  destruct (ghost_warning_counts_unresolved _ _ _ _ Hd)
    as (nodes & edges & warnings & missing & Hb & _ & _ & _ & _).
  exists dv, nodes, edges, warnings.
  split; [exact Hd|]. split; [exact Hb|].
  assert (Hb' : _build_dependency_tables_from_rules_payload
                  "M1" dependency_catalog dependency_rules
                = Ok (nodes, edges, warnings)) by exact Hb.
  vm_compute in Hb'. inversion Hb'. split; reflexivity.
Defined.

End GhostFacts.

Section CellFacts.
Import ObjectiveActivityMatrix Spec.

Lemma enumerate_from_pred {A : Type} (l : list A) :
  forall (start i : Z) (x : A),
    In (i, x) (enumerate_from start l) -> (start < i)%Z ->
    exists y, In ((i - 1)%Z, y) (enumerate_from start l).
Proof.
  induction l as [|y l IH]; simpl; intros start i x; [intros []|].
  intros [H|H] Hlt.
  - inversion H; subst. lia.
  - destruct (Z.eq_dec i (start + 1)) as [->|Hne].
    + exists y. left. f_equal. lia.
    + pose proof (enumerate_from_In _ _ _ _ H) as [_ Hle].
      destruct (IH _ _ _ H) as (z & Hz); [lia|]. exists z. now right.
Qed.

Lemma records_of_columns (metric module_code : string) (maps : summary_maps)
      (po : per_objective_t) (c : Cell.t) :
  In c (records_of metric module_code maps po) ->
  exists idx,
    Cell.activity_col_idx c = Some idx /\ (1 <= idx)%Z
    /\ Cell.activity_col_label c = Some (fstring ["A"; str_of_Z idx])
    /\ Cell.module_code c = Some module_code
    /\ ((1 < idx)%Z ->
        exists c', In c' (records_of metric module_code maps po)
                   /\ Cell.objective_id c' = Cell.objective_id c
                   /\ Cell.activity_col_idx c' = Some (idx - 1)%Z).
Proof.
  unfold records_of. rewrite in_flat_map. intros (oid & Hoid & Hc).
  rewrite in_map_iff in Hc. destruct Hc as ([idx e] & <- & He).
  exists idx. cbn [Cell.activity_col_idx Cell.activity_col_label Cell.module_code
                   Cell.objective_id].
  split; [reflexivity|]. split; [apply (enumerate_from_In _ _ _ _ He)|].
  split; [reflexivity|]. split; [reflexivity|].
  intros Hlt. destruct (enumerate_from_pred _ _ _ _ He Hlt) as (e' & He').
  eexists. split.
  - apply in_flat_map. exists oid. split; [exact Hoid|].
    apply in_map_iff. exists ((idx - 1)%Z, e'). split; [reflexivity|exact He'].
  - split; reflexivity.
Qed.

Lemma built_cells_cases
      (agg_activity_daily : frame Src.t) (module_code : string) (start_date end_date : Z)
      (metric : string) (summary_payload : list (string * pyobj))
      (agg_exercise_daily : option (frame Src.t))
      (fact_attempt_core : option (frame Derive.Fact.t)) (cells : list Cell.t) :
  build_objective_activity_cells agg_activity_daily module_code start_date end_date metric
                                 summary_payload agg_exercise_daily fact_attempt_core
  = Ok cells ->
  cells = [] \/ exists maps po, cells = records_of metric module_code maps po.
Proof.
  unfold build_objective_activity_cells. intros Hrun.
  destruct (negb (mem metric VALID_MATRIX_METRICS)); [discriminate|].
  apply bind_ok in Hrun as (_ & _ & Hrun).
  apply bind_ok in Hrun as (_ & _ & Hrun).
  destruct (filter _ _) as [|r0 rs0] eqn:Ef.
  { inversion Hrun; subst. now left. }
  apply bind_ok in Hrun as (aggregated & Hagg & Hrun).
  destruct aggregated as [|a0 as0] eqn:Ea.
  { inversion Hrun; subst. now left. }
  apply bind_ok in Hrun as (maps & _ & Hrun).
  inversion Hrun; subst cells; clear Hrun. right. eauto.
Qed.

(** X21. In the cells [build_objective_activity_cells] returns, the columns
    of an objective are filled from the left without a gap: every cell has
    a column index from 1 on, the column label [A] followed by that
    index and the module code asked for, and a cell in column [k > 1] has
    a cell of the same objective in column [k - 1]. *)
Theorem built_cells_columns_contiguous
        (agg_activity_daily : frame Src.t) (module_code : string) (start_date end_date : Z)
        (metric : string) (summary_payload : list (string * pyobj))
        (agg_exercise_daily : option (frame Src.t))
        (fact_attempt_core : option (frame Derive.Fact.t))
        (cells : list Cell.t) (c : Cell.t) :
  build_objective_activity_cells agg_activity_daily module_code start_date end_date metric
                                 summary_payload agg_exercise_daily fact_attempt_core
  = Ok cells ->
  In c cells ->
  exists idx,
    Cell.activity_col_idx c = Some idx /\ (1 <= idx)%Z
    /\ Cell.activity_col_label c = Some (fstring ["A"; str_of_Z idx])
    /\ Cell.module_code c = Some module_code
    /\ ((1 < idx)%Z ->
        exists c', In c' cells
                   /\ Cell.objective_id c' = Cell.objective_id c
                   /\ Cell.activity_col_idx c' = Some (idx - 1)%Z).
Proof.
  intros Hrun Hc. apply built_cells_cases in Hrun as [->|(maps & po & ->)]; [destruct Hc|].
  now apply records_of_columns.
Qed.

Lemma built_cells_columns_contiguous_witness :
  exists (cells : list Cell.t) (c c' : Cell.t),
    build_objective_activity_cells activity_daily_sample "M1" 20089 20119 "success_rate"
                                   Spec.summary_payload None None
    = Ok cells
    /\ In c cells
    /\ Cell.activity_col_idx c = Some 2%Z
    /\ In c' cells
    /\ Cell.objective_id c' = Cell.objective_id c
    /\ Cell.activity_col_idx c' = Some 1%Z.
Proof.
  evar (cells : list Cell.t).
  assert (Hrun : build_objective_activity_cells activity_daily_sample "M1" 20089 20119
                                                "success_rate" Spec.summary_payload None None
                 = Ok cells) by (subst cells; vm_compute; reflexivity).
  evar (c : Cell.t).
  assert (Hc : In c cells) by (subst c cells; right; left; reflexivity).
  destruct (built_cells_columns_contiguous _ _ _ _ _ _ _ _ _ _ Hrun Hc)
    as (idx & Hidx & _ & _ & _ & Hprev).
  assert (H2 : Cell.activity_col_idx c = Some 2%Z) by reflexivity.
  rewrite H2 in Hidx. inversion Hidx; subst idx.
  destruct Hprev as (c' & Hc' & Ho & Hi); [lia|].
  exists cells, c, c'. repeat split; assumption.
Defined.

Lemma assert_required_columns_ok {R : Type} (f : frame R) (required : list string) :
  has_columns f required -> _assert_required_columns f required = Ok tt.
Proof.
  intros H. unfold _assert_required_columns.
  rewrite filter_nil; [reflexivity|].
  intros column Hc. apply negb_false_iff. unfold mem. apply existsb_exists.
  exists column. split; [now apply H|apply String.eqb_refl].
Qed.

Lemma assert_required_columns_missing {R : Type} (f : frame R) (required : list string)
      (column : string) :
  In column required -> ~ In column (columns f) ->
  _assert_required_columns f required = Raise ValueError.
Proof.
  intros Hin Hmiss. unfold _assert_required_columns.
  destruct (filter _ required) as [|x xs] eqn:E; [|reflexivity].
  exfalso.
  assert (H : In column (filter (fun column0 => negb (mem column0 (columns f))) required)).
  { apply filter_In. split; [exact Hin|]. apply negb_true_iff.
    apply not_true_is_false. intros Hm. apply Hmiss.
    unfold mem in Hm. apply existsb_exists in Hm as (y & Hy & Ey).
    apply String.eqb_eq in Ey. now subst. }
  rewrite E in H. destruct H.
Qed.

(** X22. [build_objective_activity_cells] checks its arguments before it
    reads any row: a metric it does not know, or a frame that lacks one of
    the columns the metric needs, gives [ValueError]; and when no row of the
    frame is inside the module and the date window the table is empty,
    whatever the summary and the two other frames are, also for the
    metrics that need them. *)
Theorem built_cells_edge_cases
        (agg_activity_daily : frame Src.t) (module_code : string) (start_date end_date : Z)
        (metric : string) (summary_payload : list (string * pyobj))
        (agg_exercise_daily : option (frame Src.t))
        (fact_attempt_core : option (frame Derive.Fact.t)) :
  let built :=
    build_objective_activity_cells agg_activity_daily module_code start_date end_date metric
                                   summary_payload agg_exercise_daily fact_attempt_core in
  (~ In metric VALID_MATRIX_METRICS -> built = Raise ValueError)
  /\ (forall column, In column (matrix_columns metric) ->
                     ~ In column (columns agg_activity_daily) ->
                     built = Raise ValueError)
  /\ (In metric VALID_MATRIX_METRICS ->
      has_columns agg_activity_daily (matrix_columns metric) ->
      window agg_activity_daily module_code start_date end_date = [] ->
      built = Ok []).
Proof.
  intros built. subst built. unfold build_objective_activity_cells.
  assert (Hmem : mem metric VALID_MATRIX_METRICS = true <-> In metric VALID_MATRIX_METRICS).
  { unfold mem. rewrite existsb_exists. split.
    - intros (y & Hy & E). apply String.eqb_eq in E. now subst.
    - intros H. exists metric. split; [exact H|apply String.eqb_refl]. }
  split; [|split].
  - intros Hm. destruct (mem metric VALID_MATRIX_METRICS) eqn:E; [|reflexivity].
    exfalso. apply Hm, Hmem. reflexivity.
  - intros column Hc Hmiss.
    destruct (mem metric VALID_MATRIX_METRICS); [|reflexivity]. cbn [negb].
    unfold matrix_columns in Hc. apply in_app_iff in Hc as [Hc|Hc].
    + now rewrite (assert_required_columns_missing _ _ _ Hc Hmiss).
    + destruct (_assert_required_columns agg_activity_daily _) as [[]|e] eqn:E1.
      * cbn [bind]. destruct (metric =? "first_attempt_success_rate"); [|destruct Hc].
        now rewrite (assert_required_columns_missing _ _ _ Hc Hmiss).
      * unfold _assert_required_columns in E1.
        destruct (filter _ _); inversion E1. reflexivity.
  - intros Hm Hcols Hwin. apply Hmem in Hm. rewrite Hm. cbn [negb].
    unfold matrix_columns in Hcols.
    rewrite assert_required_columns_ok
      by (intros column Hc; apply Hcols, in_app_iff; now left).
    cbn [bind].
    assert (H2 : (if metric =? "first_attempt_success_rate"
                  then _assert_required_columns
                         agg_activity_daily
                         ["first_attempt_success_rate"; "first_attempt_count"]
                  else Ok tt) = Ok tt).
    { destruct (metric =? "first_attempt_success_rate"); [|reflexivity].
      apply assert_required_columns_ok. intros column Hc. apply Hcols, in_app_iff.
      now right. }
    rewrite H2. cbn [bind]. now rewrite window_default_columns, Hwin.
Qed.

End CellFacts.
